(* ===== verification/_CoqProject ===== *)
-Q . S2P
Prelude.v
Skill.v
FilterView.v
MatchEngine.v
JsonObject.v
JsonNumber.v
Json.v
SkillCodec.v
Storage.v
App.v
View.v
JsEntries.v
JsPage.v
