(* ===== verification/Prelude.v ===== *)
(** * Trueka: a verification development of [src/src/App.jsx]

    ** The program

    Trueka is a single React component, [TruekaApp] ([src/src/App.jsx]),
    a community board where people post skills they offer (['ofrece']) or
    seek (['busca']).  Its parts and how they interact:
    - the state: three [useState] hooks, the list [skills], the form draft
      [newSkill] and the filter [filterType] (lines 12-14);
    - persistence: a load effect on mount ([localStorage.getItem] and
      [JSON.parse], lines 16-19) and a save effect whenever [skills]
      changes ([JSON.stringify] and [localStorage.setItem], lines 21-23);
    - the handlers: [handleAddSkill] (lines 25-30) and the [onChange] /
      [onValueChange] callbacks of the form and of the filter (lines
      68-117);
    - two pure views recomputed on every render: [filteredSkills] (lines
      32-34) and [getMatches] (lines 36-49);
    - the JSX (lines 51-150), which shows the form, one card per filtered
      entry and one sentence per match.

    ** Files, in dependency order

    - [Prelude] (this file): JavaScript strings as Rocq [string]s of code
      units below [0x100], truthiness, [String.prototype.toLowerCase] on
      that block, the [===] notation, a small [result] monad, the hint
      databases [trueka] / [trueka_rw], tactics, and the list and counting
      lemmas the components share.
    - [Skill]: the entry [{ name, user, type }], the literals of the code,
      the guard of [handleAddSkill], case-insensitive equality as an
      [Equivalence] with a [Proper] instance.
    - [FilterView] (Module [FilterView]): [filteredSkills].
    - [MatchEngine] (Module [MatchEngine]): [getMatches], the contract of
      the spec (the relation [is_match], the nested loop
      [matches_reference]) and the refinement theorems.
    - [JsonObject] (Module [JsonObject]): the ordinary objects
      [JSON.parse] creates, over any value type: CreateDataProperty,
      array-index keys and the enumeration order OrdinaryOwnPropertyKeys.
    - [JsonNumber] (Module [JsonNumber]): the numbers of JSON as the
      decimals they print as: the value of a number literal
      ([number_of], [to_number]) and Number::toString ([to_lexeme],
      [number_to_string]) with its five layouts; printing then reading a
      number gives it back.
    - [Json] (Module [Json]): the JSON values, [JSON.stringify] and a
      fuel-based [JSON.parse] following the ECMAScript grammar; the round
      trip on well-formed values, the stability of one load and save
      cycle, and the adequacy of the fuel [1 + length s] of [JSON_parse].
    - [SkillCodec]: the snapshot [JSON.stringify(skills)] and how a parsed
      value is read back as the [skills] array.
    - [Storage]: the [KVStore] interface of [localStorage] (a typeclass with
      its laws), implemented by stdpp's [gmap string string].
    - [App] (Module [App], Section [WithStore] over any lawful store): the
      state record, the events, [handleAddSkill] and the other handlers,
      the two effects, [mount] (and [mount_strict], React's StrictMode
      double run), [dispatch] (an event and the commit after it), the
      reachable pages as an inductive step relation, the spec's SkillStore
      as an abstract machine [store_step], and two tabs on one store
      ([two_tabs], [dispatch_tab], [reload_tab]) with their interleavings
      ([tabs_reachable]).
    - [View] (Module [View]): [render], the page as data.
    - [JsEntries] (Module [JsEntries]): [filteredSkills], [getMatches] and
      the JSX run on the values [JSON.parse] actually returns (any JSON
      entries), with JavaScript's TypeErrors on [null] and on
      [toLowerCase] of a non-string, and React's rule against object
      children; [loaded_page] is the page once the load effect has run.
    - [JsPage] (Module [JsPage]): the component whose [skills] state holds
      those values: the handlers, the render after each event (which may
      throw) and the save effect on commit; [App] is its restriction to
      typed entries.

    ** What the theorems show

    - Matching ([MatchEngine]): [getMatches] lists exactly the seek/offer
      pairs with case-insensitively equal names (soundness and
      completeness against [is_match]), equals the spec's nested loop in
      order and multiplicity, has as many results as the sum over names of
      seekers times offerers, labels a match with the seeker's spelling,
      the seeker and the offerer, is invariant under changes of case, and
      grows as stated when an entry is appended.
    - Filtering ([FilterView]): identity under ['todos'], exact membership
      otherwise, a partition into the two kinds.
    - Persistence ([JsonNumber], [Json], [SkillCodec]): [JSON.parse]
      inverts [JSON.stringify] on well-formed values (numbers in every
      layout of Number::toString included), never runs out of fuel,
      rejects malformed text, and builds only objects with distinct keys
      in enumeration order (repeated keys merged; array-index keys first,
      in numeric order, stated on the keys alone by [keys_enumerated]);
      one load and save cycle settles any accepted text (whitespace,
      [1.50] or [1E2], [-0], repeated keys, key order): printing the
      parsed value and reading it again gives the same value and text; a
      snapshot reads back as the same
      list, two lists with the same snapshot are equal, and the snapshot
      of a list has between [31 + f] and [32 + 6 f] code units per entry
      with [f] code units of fields (a control character is printed as a
      six-unit [\u00XX] escape), plus its two brackets.
    - The component ([App], [View]): adding appends the draft, resets it and
      saves the whole list; an incomplete draft changes nothing; the list is
      append-only; the snapshot is in step with the list on every reachable
      page (rule induction); every event is a step of the spec's abstract
      SkillStore (refinement); a reload restores the list; events keep the
      kinds well-typed; form edits never touch the list; the page shows the
      matches section and the cards as stated.
    - Any snapshot entries ([JsEntries]): on entries shaped as skills
      (extra members and any key order included, which the typed load
      reports as [UnmodelledEntry]) the JavaScript page is the typed page
      (refinement), and the page after every running mount is [View.render]
      of it; [getMatches] throws exactly when an entry is [null], or when
      offers and seeks both exist and one of them has no string name; a
      [null] entry crashes the page under every filter.
    - The page on the parsed snapshot ([JsPage]): [App] is its
      restriction to typed entries (mounts and events commute with the
      embedding); on entries that are well formed (numbers other than
      minus zero included), every reachable page keeps a snapshot that
      reads back as its entries, unknown members and numbers included; a [null] entry crashes the mount after ['[]'] has been
      saved, so the stored entries are lost; a seek added next to a
      stored offer without a string name crashes the page before its save.
    - Progress and composition ([App], [View]): from every reachable page
      the four events of the form add any entry with a non-empty name and
      user and a kind of the form, to a reachable page whose snapshot
      holds it; a seek entered that way next to an offer of the same name
      up to case makes the matches section show their sentence; and a
      reload renders every entry of the page under ['todos'], with the
      same matches section.
    - Error paths and findings: a snapshot that is not JSON crashes the
      mount (the spec says it reads as empty); a JSON snapshot that is not
      an array crashes it after overwriting the snapshot with ['[]']; under
      StrictMode the double run of the first commit's effects erases the
      stored list; two tabs on one store lose the first tab's addition,
      while under any interleaving of events and reloads the store holds
      the list of the tab that saved last and a reload never crashes; an
      entry of unknown kind is labelled "Busca" but never matched.

    ** Bounds, fuel and assumptions

    - Strings hold code units below [0x100]: [toLowerCase] is exact on that
      block (A-Z and U+00C0..U+00DE but U+00D7), and a [\uXXXX] escape
      above [0xFF] makes [JSON_parse] stop with [Unrepresentable].
    - [JSON_parse] runs [parse_value] with fuel [1 + length s]; every call
      consumes a character, so this is enough ([Json]).
    - A JSON number is the decimal Number::toString prints for its
      double ([JsonNumber]).  This is exact for decimals of at most 15
      significant digits whose value lies between [1e-307] and [1e308]:
      such decimals survive the rounding to a double, so distinct ones
      are distinct doubles and each prints as itself.  A literal outside
      that domain makes [JSON_parse] stop with [Unrepresentable] instead
      of guessing a rounding.  The component writes no numbers, and this
      bound covers every number a hand-edited snapshot is likely to hold.
    - Objects are member lists in enumeration order
      (OrdinaryOwnPropertyKeys), with repeated keys merged as [JSON.parse]
      does ([JsonObject]).
    - React: one event per render (the handlers' closures see the current
      state); the effects of a commit run in declaration order; an
      exception in an effect skips the later effects of that commit and
      unmounts the page.

    ** Not modelled

    - The markup and styling of the JSX, the advertising placeholder and
      the UI library components ([Button], [Input], [Card], [Select], ...)
      carry no state.  They are represented only by what they display or
      report.  The library is not part of the sources.
    - The browser's event loop and the rendering engine are abstracted by
      [dispatch], [mount] and [render]: one event per render, effects in
      declaration order.  React's scheduling of queued [setSkills] calls
      beyond the StrictMode double run is library code, not code of the
      component.
    - [localStorage.setItem] is taken never to throw: the [KVStore] laws
      state a store that always accepts a write, so a quota or security
      exception in the save effect is not modelled.
    - Code units above [0xFF] are not modelled.  Rocq's [string] holds
      bytes, so UTF-16 text would need a new string type under the whole
      development.  It would also need [toLowerCase] with Unicode's case
      tables.  No behaviour of the component depends on them beyond
      case-insensitive matching, which is exact on the modelled block.
    - Numbers outside the domain of [JsonNumber] are not modelled.  Their
      value needs IEEE-754 round-to-nearest of a decimal, and their
      printing needs the shortest-decimal search of Number::toString over
      binary doubles.  Both belong to a floating-point library rather
      than to this component, which never writes a number. *)

From Stdlib Require Import String Ascii List Bool Arith Lia NArith Permutation.
Import ListNotations.

(** ** Scope, hint database and tactics shared by the development *)

Declare Scope trueka_scope.
Delimit Scope trueka_scope with trueka.
Create HintDb trueka.
Create Rewrite HintDb trueka_rw.

(** JavaScript strict equality on strings, written as in the source. *)
Notation "a === b" := (String.eqb a b) (at level 70, no associativity) : trueka_scope.

Local Open Scope string_scope.
Local Open Scope trueka_scope.

(** ** JavaScript strings

    A JavaScript string is a sequence of UTF-16 code units.  The model
    represents the strings of the program as Rocq [string]s, whose
    characters are the code units [0x00 .. 0xFF] (the Latin-1 block).
    Every operation below is the JavaScript operation restricted to such
    strings. *)

(** Truthiness of a string value ([if (s)] in JavaScript): the empty
    string is the only falsy string. *)
Definition js_truthy (s : string) : bool :=
  match s with
  | EmptyString => false
  | String _ _ => true
  end.

(** [String.prototype.toLowerCase] on one code unit of the Latin-1 block:
    [A-Z] and [U+00C0 .. U+00DE] except the multiplication sign [U+00D7]
    map to the code unit [0x20] higher; every other code unit is left as
    it is (the lowercase of every code unit below [0x100] is a single code
    unit below [0x100]). *)
Definition ascii_to_lower (c : ascii) : ascii :=
  let n := N_of_ascii c in
  if ((65 <=? n) && (n <=? 90))%N || ((192 <=? n) && (n <=? 222) && negb (n =? 215))%N
  then ascii_of_N (n + 32)
  else c.

Fixpoint to_lower_case (s : string) : string :=
  match s with
  | EmptyString => EmptyString
  | String c s' => String (ascii_to_lower c) (to_lower_case s')
  end.

(** ** Lists *)

(** Number of elements of [l] whose key is [k]. *)
Definition count_key {A} (key : A -> string) (k : string) (l : list A) : nat :=
  length (filter (fun x => key x === k) l).

(** ** A small error monad

    [Ok a] is a normal return, [Err e] a thrown exception or an outcome
    the model does not represent. *)
Inductive result (E A : Type) : Type :=
| Ok (a : A)
| Err (e : E).
Arguments Ok {E A} a.
Arguments Err {E A} e.

Notation "'let*' ' p := c 'in' k" :=
  (match c with Ok p => k | Err e => Err e end)
  (at level 10, p pattern, c at level 100, k at level 200) : trueka_scope.

(** ** Generic lemmas on strings *)

Lemma ascii_to_lower_idem c : ascii_to_lower (ascii_to_lower c) = ascii_to_lower c.
Proof. destruct c as [[] [] [] [] [] [] [] []]; reflexivity. Qed.

Lemma to_lower_case_idem s : to_lower_case (to_lower_case s) = to_lower_case s.
Proof. induction s as [|c s IH]; simpl; [reflexivity|]. now rewrite ascii_to_lower_idem, IH. Qed.

Lemma to_lower_case_length s : String.length (to_lower_case s) = String.length s.
Proof. induction s; simpl; auto. Qed.

Lemma string_app_assoc (a b c : string) : (a ++ b) ++ c = a ++ (b ++ c).
Proof. induction a; simpl; congruence. Qed.

Lemma string_app_nil_r (a : string) : a ++ "" = a.
Proof. induction a; simpl; congruence. Qed.

Lemma string_length_app (a b : string) :
  String.length (a ++ b) = String.length a + String.length b.
Proof. induction a; simpl; auto. Qed.

Lemma js_truthy_iff s : js_truthy s = true <-> s <> EmptyString.
Proof. destruct s; simpl; split; congruence. Qed.

#[export] Hint Rewrite to_lower_case_idem string_app_assoc string_app_nil_r : trueka_rw.

(** Turn the boolean tests of the code into propositions. *)
Ltac bool_to_prop :=
  repeat match goal with
  | H : (_ === _) = true |- _ => apply String.eqb_eq in H
  | H : (_ === _) = false |- _ => apply String.eqb_neq in H
  | H : (_ && _)%bool = true |- _ => apply andb_prop in H as [? ?]
  | H : (_ || _)%bool = false |- _ => apply orb_false_elim in H as [? ?]
  | H : negb _ = true |- _ => apply negb_true_iff in H
  | H : negb _ = false |- _ => apply negb_false_iff in H
  end.

(** ** Generic lemmas on lists *)

Lemma length_flat_map {A B} (f : A -> list B) (l : list A) :
  length (flat_map f l) = list_sum (map (fun x => length (f x)) l).
Proof. induction l; simpl; [reflexivity|]. now rewrite length_app, IHl. Qed.

(** Sums over a list of keys, used by the counting arguments. *)
Lemma list_sum_map_add {A} (f g : A -> nat) (l : list A) :
  list_sum (map (fun x => f x + g x) l) = list_sum (map f l) + list_sum (map g l).
Proof. induction l; simpl; lia. Qed.

Lemma list_sum_map_zero {A} (l : list A) : list_sum (map (fun _ => 0) l) = 0.
Proof. induction l; simpl; auto. Qed.

Lemma list_sum_map_ext {A} (f g : A -> nat) (l : list A) :
  (forall x, In x l -> f x = g x) -> list_sum (map f l) = list_sum (map g l).
Proof. intros H. f_equal. apply map_ext_in. exact H. Qed.

(** Summing a function against the indicator of one key of a duplicate-free
    key list picks the value at that key. *)
Lemma list_sum_indicator (K : list string) (k : string) (f : string -> nat) :
  NoDup K -> In k K ->
  list_sum (map (fun k' => if k === k' then f k' else 0) K) = f k.
Proof.
  induction 1 as [|k0 K Hk0 _ IH]; simpl; [tauto|].
  intros [<-|Hin].
  - rewrite String.eqb_refl, list_sum_map_ext with (g := fun _ => 0), list_sum_map_zero; [lia|].
    intros x Hx. destruct (String.eqb_spec k0 x); congruence.
  - destruct (String.eqb_spec k k0); [congruence|]. simpl. now apply IH.
Qed.

(** Regrouping a sum over a list by the keys of its elements. *)
Lemma list_sum_by_key {A} (key : A -> string) (f : string -> nat) (K : list string) (l : list A) :
  NoDup K -> (forall x, In x l -> In (key x) K) ->
  list_sum (map (fun x => f (key x)) l) =
  list_sum (map (fun k => count_key key k l * f k) K).
Proof.
  intros HK. induction l as [|x l IH]; intros Hl; simpl.
  - unfold count_key; simpl. now rewrite list_sum_map_zero.
  - rewrite IH by (intros y Hy; apply Hl; now right).
    rewrite (list_sum_map_ext (fun k => count_key key k (x :: l) * f k)
      (fun k => (if key x === k then f k else 0) + count_key key k l * f k)).
    + rewrite list_sum_map_add, list_sum_indicator; [reflexivity | exact HK | apply Hl; now left].
    + intros k _. unfold count_key; simpl. destruct (key x === k); simpl; lia.
Qed.

(** [Forall2] through the list combinators the code uses. *)
Lemma Forall2_filter {A B} (R : A -> B -> Prop) (f : A -> bool) (g : B -> bool) l1 l2 :
  (forall a b, R a b -> f a = g b) -> Forall2 R l1 l2 -> Forall2 R (filter f l1) (filter g l2).
Proof.
  intros Hfg. induction 1 as [|a b l1 l2 Hab _ IH]; simpl; [constructor|].
  rewrite (Hfg a b Hab). destruct (g b); auto.
Qed.

Lemma Forall2_map {A B C D} (R : A -> B -> Prop) (S : C -> D -> Prop) f g l1 l2 :
  (forall a b, R a b -> S (f a) (g b)) -> Forall2 R l1 l2 -> Forall2 S (map f l1) (map g l2).
Proof. intros H. induction 1; simpl; constructor; auto. Qed.

Lemma Forall2_flat_map {A B C D} (R : A -> B -> Prop) (S : C -> D -> Prop) f g l1 l2 :
  (forall a b, R a b -> Forall2 S (f a) (g b)) -> Forall2 R l1 l2 ->
  Forall2 S (flat_map f l1) (flat_map g l2).
Proof. intros H. induction 1; simpl; [constructor|]. apply Forall2_app; auto. Qed.

Lemma count_key_sum {A} (key : A -> string) (k : string) (l : list A) :
  list_sum (map (fun x => if k === key x then 1 else 0) l) = count_key key k l.
Proof.
  unfold count_key. induction l as [|x l IH]; simpl; [reflexivity|].
  destruct (String.eqb_spec (key x) k), (String.eqb_spec k (key x)); simpl; congruence.
Qed.

Lemma count_key_snoc {A} (key : A -> string) (k : string) (l : list A) (x : A) :
  count_key key k (l ++ [x]) = count_key key k l + (if key x === k then 1 else 0).
Proof.
  unfold count_key. rewrite filter_app, length_app; simpl.
  now destruct (key x === k).
Qed.


(** Bounds on sums, for the size arguments. *)
Lemma list_sum_map_le {A} (f g : A -> nat) (l : list A) :
  (forall x, In x l -> f x <= g x) -> list_sum (map f l) <= list_sum (map g l).
Proof.
  induction l as [|x l IH]; simpl; intros H; [lia|].
  specialize (H x (or_introl eq_refl)) as Hx. specialize (IH (fun y Hy => H y (or_intror Hy))). lia.
Qed.

Lemma filter_id_in {A} (f : A -> bool) (l : list A) :
  (forall x, In x l -> f x = true) -> filter f l = l.
Proof.
  induction l as [|x l IH]; simpl; intros H; [reflexivity|].
  rewrite (H x (or_introl eq_refl)), IH; auto.
Qed.

Lemma filter_none_in {A} (f : A -> bool) (l : list A) :
  (forall x, In x l -> f x = false) -> filter f l = [].
Proof.
  induction l as [|x l IH]; simpl; intros H; [reflexivity|].
  rewrite (H x (or_introl eq_refl)). auto.
Qed.

(** A list is the elements that pass a test followed by those that fail
    it, up to order. *)
Lemma filter_partition_perm {A} (f : A -> bool) (l : list A) :
  Permutation (filter f l ++ filter (fun x => negb (f x)) l) l.
Proof.
  induction l as [|x l IH]; simpl; [constructor|].
  destruct (f x); simpl.
  - now constructor.
  - symmetry. apply Permutation_cons_app. now symmetry.
Qed.

(** ** Array methods whose callback may throw

    [Array.prototype.filter], [map] and [flatMap] call the callback on
    the elements in order and stop at the first exception. *)
Fixpoint filter_r {E A} (f : A -> result E bool) (l : list A) : result E (list A) :=
  match l with
  | [] => Ok []
  | x :: l' => let* ' b := f x in let* ' r := filter_r f l' in Ok (if b then x :: r else r)
  end.

Fixpoint map_r {E A B} (f : A -> result E B) (l : list A) : result E (list B) :=
  match l with
  | [] => Ok []
  | x :: l' => let* ' y := f x in let* ' r := map_r f l' in Ok (y :: r)
  end.

Fixpoint flat_map_r {E A B} (f : A -> result E (list B)) (l : list A) : result E (list B) :=
  match l with
  | [] => Ok []
  | x :: l' => let* ' y := f x in let* ' r := flat_map_r f l' in Ok (y ++ r)%list
  end.

(** A computation that does not throw. *)
Definition is_ok {E A} (r : result E A) : Prop := exists a, r = Ok a.

Section ResultLists.
Context {E A B : Type}.

Lemma filter_r_pure (f : A -> result E bool) (g : A -> bool) l :
  (forall x, In x l -> f x = Ok (g x)) -> filter_r f l = Ok (filter g l).
Proof.
  induction l as [|x l IH]; simpl; intros H; [reflexivity|].
  rewrite H, IH by auto. now destruct (g x).
Qed.

Lemma map_r_pure (f : A -> result E B) (g : A -> B) l :
  (forall x, In x l -> f x = Ok (g x)) -> map_r f l = Ok (map g l).
Proof. induction l as [|x l IH]; simpl; intros H; [reflexivity|]. now rewrite H, IH by auto. Qed.

Lemma flat_map_r_pure (f : A -> result E (list B)) (g : A -> list B) l :
  (forall x, In x l -> f x = Ok (g x)) -> flat_map_r f l = Ok (flat_map g l).
Proof. induction l as [|x l IH]; simpl; intros H; [reflexivity|]. now rewrite H, IH by auto. Qed.

(** The three methods return exactly when every callback returns. *)
Lemma is_ok_bind2 {X Y C} (r1 : result E X) (r2 : result E Y) (k : X -> Y -> C) :
  is_ok (let* ' y := r1 in let* ' z := r2 in Ok (k y z)) <-> is_ok r1 /\ is_ok r2.
Proof.
  unfold is_ok. destruct r1, r2;
    (split; [split; eexists; reflexivity | eexists; reflexivity]) ||
    (split; [intros [? H]; discriminate | intros [[? H1] [? H2]]; discriminate]).
Qed.

Lemma filter_r_ok (f : A -> result E bool) l :
  is_ok (filter_r f l) <-> Forall (fun x => is_ok (f x)) l.
Proof.
  induction l as [|x l IH]; simpl; [split; [constructor|eexists; reflexivity]|].
  now rewrite Forall_cons_iff, <- IH, is_ok_bind2.
Qed.

Lemma map_r_ok (f : A -> result E B) l :
  is_ok (map_r f l) <-> Forall (fun x => is_ok (f x)) l.
Proof.
  induction l as [|x l IH]; simpl; [split; [constructor|eexists; reflexivity]|].
  now rewrite Forall_cons_iff, <- IH, is_ok_bind2.
Qed.

Lemma flat_map_r_ok (f : A -> result E (list B)) l :
  is_ok (flat_map_r f l) <-> Forall (fun x => is_ok (f x)) l.
Proof.
  induction l as [|x l IH]; simpl; [split; [constructor|eexists; reflexivity]|].
  now rewrite Forall_cons_iff, <- IH, is_ok_bind2.
Qed.

End ResultLists.

(** The throwing methods on a list related element-wise to a list on which
    the callback is a pure function. *)
Section ResultForall2.
Context {E A S B : Type} (R : A -> S -> Prop).

Lemma filter_r_forall2 (f : A -> result E bool) (g : S -> bool) l ss :
  (forall a s, R a s -> f a = Ok (g s)) -> Forall2 R l ss ->
  exists l', filter_r f l = Ok l' /\ Forall2 R l' (filter g ss).
Proof.
  intros Hf. induction 1 as [|a s l ss Has _ IH]; simpl; [eexists; split; [reflexivity|constructor]|].
  destruct IH as (l' & E1 & H1). rewrite (Hf a s Has), E1.
  eexists; split; [reflexivity|]. destruct (g s); auto.
Qed.

Lemma map_r_forall2 (f : A -> result E B) (h : S -> B) l ss :
  (forall a s, R a s -> f a = Ok (h s)) -> Forall2 R l ss -> map_r f l = Ok (map h ss).
Proof.
  intros Hf. induction 1 as [|a s l ss Has _ IH]; simpl; [reflexivity|]. now rewrite (Hf a s Has), IH.
Qed.

Lemma flat_map_r_forall2 (f : A -> result E (list B)) (h : S -> list B) l ss :
  (forall a s, R a s -> f a = Ok (h s)) -> Forall2 R l ss -> flat_map_r f l = Ok (flat_map h ss).
Proof.
  intros Hf. induction 1 as [|a s l ss Has _ IH]; simpl; [reflexivity|]. now rewrite (Hf a s Has), IH.
Qed.

End ResultForall2.

Lemma flat_map_map_out {A B C} (f : B -> C) (g : A -> list B) (l : list A) :
  flat_map (fun x => map f (g x)) l = map f (flat_map g l).
Proof. induction l as [|x l IH]; simpl; [reflexivity|]. now rewrite IH, map_app. Qed.

Lemma map_r_map {E A B C} (f : B -> result E C) (g : A -> B) (l : list A) :
  map_r f (map g l) = map_r (fun x => f (g x)) l.
Proof. induction l as [|x l IH]; simpl; [reflexivity|]. now rewrite IH. Qed.

Lemma is_ok_bind {E X Y} (r : result E X) (k : X -> result E Y) :
  is_ok (let* ' x := r in k x) <-> exists x, r = Ok x /\ is_ok (k x).
Proof.
  unfold is_ok. destruct r as [x|e]; split.
  - eauto.
  - intros (x' & E1 & H1). injection E1 as ->. exact H1.
  - intros [? H1]; discriminate.
  - intros (? & E1 & _); discriminate.
Qed.

(** An exception of [filter] or [map] is one of its callback's. *)
Lemma filter_r_err {E A} (f : A -> result E bool) l e :
  filter_r f l = Err e -> exists x, In x l /\ f x = Err e.
Proof.
  induction l as [|x l IH]; simpl; [discriminate|].
  destruct (f x) eqn:Ef; [|intros H; injection H as ->; eauto].
  destruct (filter_r f l); [discriminate|]. intros H; injection H as ->.
  destruct IH as (y & Hy & Ey); eauto.
Qed.

Lemma map_r_err {E A B} (f : A -> result E B) l e :
  map_r f l = Err e -> exists x, In x l /\ f x = Err e.
Proof.
  induction l as [|x l IH]; simpl; [discriminate|].
  destruct (f x) eqn:Ef; [|intros H; injection H as ->; eauto].
  destruct (map_r f l); [discriminate|]. intros H; injection H as ->.
  destruct IH as (y & Hy & Ey); eauto.
Qed.

Lemma filter_r_In {E A} (f : A -> result E bool) l r x :
  filter_r f l = Ok r -> In x r -> In x l.
Proof.
  revert r. induction l as [|y l IH]; simpl; intros r H Hx; [injection H as <-; destruct Hx|].
  destruct (f y) as [b|e]; [|discriminate]. destruct (filter_r f l) as [r'|e] eqn:E'; [|discriminate].
  injection H as <-. destruct b; [destruct Hx as [->|Hx]; [now left|]|]; right; eapply IH; eauto.
Qed.

(** Every seek meets every offer, or one of the two lists is empty. *)
Lemma Forall_pairs_iff {A} (P : A -> Prop) (O R : list A) :
  Forall (fun r => O = [] \/ (P r /\ Forall P O)) R <-> O = [] \/ R = [] \/ Forall P (O ++ R).
Proof.
  rewrite Forall_app. split.
  - intros H. destruct O as [|o O]; [now left|]. destruct R as [|r R]; [now right; left|].
    right; right. inversion H as [|? ? [Hn|[Hr Ho]] HR]; [discriminate|]. split; [exact Ho|].
    constructor; [exact Hr|]. eapply Forall_impl; [|exact HR]. intros y [Hy|[Hy _]]; [discriminate|exact Hy].
  - intros [->|[->|[Ho Hr]]]; [apply Forall_forall; intros; now left|constructor|].
    eapply Forall_impl; [|exact Hr]. intros y Hy. right. auto.
Qed.

(** A computation whose only exception is [e0]. *)
Definition only_err {E A} (e0 : E) (r : result E A) : Prop := forall e, r = Err e -> e = e0.

Section OnlyErr.
Context {E : Type} (e0 : E).

Lemma only_err_ok {A} (a : A) : only_err e0 (Ok a).
Proof. intros e H. discriminate. Qed.

Lemma only_err_bind {A B} (r : result E A) (k : A -> result E B) :
  only_err e0 r -> (forall a, only_err e0 (k a)) -> only_err e0 (let* ' a := r in k a).
Proof.
  intros Hr Hk e. destruct r as [a|e']; [apply Hk|]. intros H. injection H as <-. now apply (Hr e').
Qed.

Lemma only_err_filter_r {A} (f : A -> result E bool) l :
  (forall x, only_err e0 (f x)) -> only_err e0 (filter_r f l).
Proof. intros Hf e He. apply filter_r_err in He as (x & _ & Ex). exact (Hf x e Ex). Qed.

Lemma only_err_map_r {A B} (f : A -> result E B) l :
  (forall x, only_err e0 (f x)) -> only_err e0 (map_r f l).
Proof. intros Hf e He. apply map_r_err in He as (x & _ & Ex). exact (Hf x e Ex). Qed.

Lemma only_err_flat_map_r {A B} (f : A -> result E (list B)) l :
  (forall x, only_err e0 (f x)) -> only_err e0 (flat_map_r f l).
Proof.
  intros Hf. induction l as [|x l IH]; simpl; [apply only_err_ok|].
  apply only_err_bind; [apply Hf|]. intros a. apply only_err_bind; [exact IH|]. intros. apply only_err_ok.
Qed.

End OnlyErr.

#[export] Hint Resolve only_err_ok only_err_bind only_err_filter_r only_err_map_r only_err_flat_map_r : trueka.
