(* ===== verification/Skill.v ===== *)
(** * The skill entry (data model of [TruekaApp])

    A skill entry is the JavaScript object [{ name, user, type }] that
    [TruekaApp] keeps in its [skills] array ([src/src/App.jsx], lines
    12-13): [type] is one of the literals ['ofrece'] (offers) and
    ['busca'] (seeks) when the entry comes from the form, but it is any
    string when it comes from a snapshot, so it stays a string here.
    This file also holds the literals of the code, the validity guard of
    [handleAddSkill] and the case-insensitive name equality of
    [getMatches] as a setoid. *)

From Stdlib Require Import String Ascii List Bool RelationClasses Morphisms.
From S2P Require Import Prelude.
Import ListNotations.
Open Scope trueka_scope.

(** The object literal [{ name, user, type }]. *)
Record skill := mk_skill { name : string; user : string; type : string }.

(** The literals of the code. *)
Definition kind_ofrece : string := "ofrece".
Definition kind_busca : string := "busca".
Definition filter_todos : string := "todos".

(** [{ name: '', user: '', type: 'ofrece' }]: the initial value of the
    [newSkill] state and the value [handleAddSkill] resets it to. *)
Definition initial_new_skill : skill :=
  {| name := ""; user := ""; type := kind_ofrece |}.

(** The guard of [handleAddSkill]: [newSkill.name && newSkill.user]. *)
Definition skill_submittable (s : skill) : bool :=
  js_truthy (name s) && js_truthy (user s).

(** The skill kinds the form can produce. *)
Definition known_kind (t : string) : bool := (t === kind_ofrece) || (t === kind_busca).

(** ** Case-insensitive equality of skill names

    [off.name.toLowerCase() === req.name.toLowerCase()] (line 42). *)
Definition same_name_ci (a b : string) : bool :=
  to_lower_case a === to_lower_case b.

Definition ci_eq (a b : string) : Prop := to_lower_case a = to_lower_case b.

(** Decidable equality on entries. *)
Definition skill_eqb (a b : skill) : bool :=
  (name a === name b) && (user a === user b) && (type a === type b).

Lemma skill_eqb_spec a b : reflect (a = b) (skill_eqb a b).
Proof.
  destruct a as [n u t], b as [n' u' t']; unfold skill_eqb; simpl.
  destruct (String.eqb_spec n n'), (String.eqb_spec u u'), (String.eqb_spec t t');
    constructor; congruence.
Qed.

Lemma skill_eq_dec (a b : skill) : {a = b} + {a <> b}.
Proof. destruct (skill_eqb_spec a b); auto. Defined.

Lemma same_name_ci_spec a b : reflect (ci_eq a b) (same_name_ci a b).
Proof. unfold same_name_ci, ci_eq. apply String.eqb_spec. Qed.

#[export] Instance ci_eq_equiv : Equivalence ci_eq.
Proof. unfold ci_eq; split; repeat intro; congruence. Qed.

#[export] Instance same_name_ci_proper : Proper (ci_eq ==> ci_eq ==> eq) same_name_ci.
Proof. intros a a' Ha b b' Hb. unfold same_name_ci. now rewrite Ha, Hb. Qed.

(** The normal form of a name under [ci_eq]. *)
Lemma ci_eq_to_lower a : ci_eq (to_lower_case a) a.
Proof. apply to_lower_case_idem. Qed.

#[export] Hint Resolve ci_eq_to_lower : trueka.
