(* ===== verification/FilterView.v ===== *)
(** * FilterView: the [filteredSkills] projection

    [filteredSkills] ([src/src/App.jsx], lines 32-34) selects the entries
    shown as cards: all of them when [filterType] is ['todos'], otherwise
    those whose [type] is strictly equal to [filterType].  It is
    recomputed on every render from the [skills] and [filterType] states. *)

From Stdlib Require Import String List Bool Permutation.
From S2P Require Import Prelude Skill.
Import ListNotations.
Open Scope trueka_scope.

Module FilterView.

(** [skill => filterType === 'todos' ? true : skill.type === filterType] *)
Definition filter_pred (filterType : string) (s : skill) : bool :=
  if filterType === filter_todos then true else type s === filterType.

(** [skills.filter(...)] *)
Definition filteredSkills (filterType : string) (skills : list skill) : list skill :=
  filter (filter_pred filterType) skills.

(** ** Helper lemmas *)

Lemma filteredSkills_app ft l1 l2 :
  filteredSkills ft (l1 ++ l2) = filteredSkills ft l1 ++ filteredSkills ft l2.
Proof. apply filter_app. Qed.

Lemma filter_pred_kind ft s : ft <> filter_todos -> filter_pred ft s = (type s === ft).
Proof. intros H. unfold filter_pred. now destruct (String.eqb_spec ft filter_todos). Qed.

Lemma filter_pred_todos s : filter_pred filter_todos s = true.
Proof. unfold filter_pred. now rewrite String.eqb_refl. Qed.

Lemma filteredSkills_todos_all l : filteredSkills filter_todos l = l.
Proof. apply filter_id_in. intros s _. apply filter_pred_todos. Qed.

(** ** Properties *)


(** C32: Under any other filter value, an entry is shown exactly when
    it is stored and its [type] is that value. *)
Theorem filteredSkills_In (ft : string) (skills : list skill) (s : skill) :
  ft <> filter_todos ->
  In s (filteredSkills ft skills) <-> In s skills /\ type s = ft.
Proof.
  intros Hft. unfold filteredSkills. rewrite filter_In, filter_pred_kind by exact Hft.
  now rewrite String.eqb_eq.
Qed.

(** C33: When every entry has a kind the form can produce, the views
    ['ofrece'] and ['busca'] split the entries: together they are a
    permutation of the stored list. *)
Theorem filteredSkills_partition (skills : list skill) :
  Forall (fun s => known_kind (type s) = true) skills ->
  Permutation skills (filteredSkills kind_ofrece skills ++ filteredSkills kind_busca skills).
Proof.
  unfold filteredSkills, filter_pred; simpl.
  induction 1 as [|s l Hs _ IH]; simpl; [constructor|].
  unfold known_kind in Hs.
  destruct (String.eqb_spec (type s) kind_ofrece) as [Ho|Ho];
    destruct (String.eqb_spec (type s) kind_busca) as [Hb|Hb]; simpl in Hs |- *.
  - rewrite Ho in Hb; discriminate.
  - now constructor.
  - now apply Permutation_cons_app.
  - discriminate.
Qed.

(** C33 witness: a list of an offer and a seek. *)
Lemma filteredSkills_partition_witness :
  Forall (fun s => known_kind (type s) = true)
    [mk_skill "Yoga" "Ana" kind_busca; mk_skill "Guitarra" "Luis" kind_ofrece] /\
  Permutation [mk_skill "Yoga" "Ana" kind_busca; mk_skill "Guitarra" "Luis" kind_ofrece]
    (filteredSkills kind_ofrece [mk_skill "Yoga" "Ana" kind_busca; mk_skill "Guitarra" "Luis" kind_ofrece]
     ++ filteredSkills kind_busca [mk_skill "Yoga" "Ana" kind_busca; mk_skill "Guitarra" "Luis" kind_ofrece]).
Proof.
  split.
  - repeat constructor.
  - apply filteredSkills_partition. repeat constructor.
Defined.

(** C32 witness: the view ['busca'] of a two-entry list. *)
Lemma filteredSkills_In_witness :
  kind_busca <> filter_todos /\
  (In (mk_skill "Yoga" "Ana" kind_busca)
      (filteredSkills kind_busca [mk_skill "Yoga" "Ana" kind_busca; mk_skill "Tejer" "Luis" kind_ofrece])
   <-> In (mk_skill "Yoga" "Ana" kind_busca) [mk_skill "Yoga" "Ana" kind_busca; mk_skill "Tejer" "Luis" kind_ofrece]
       /\ type (mk_skill "Yoga" "Ana" kind_busca) = kind_busca).
Proof.
  split.
  - discriminate.
  - apply filteredSkills_In. discriminate.
Defined.

End FilterView.
