(* ===== verification/MatchEngine.v ===== *)
(** * MatchEngine: [getMatches]

    [getMatches] ([src/src/App.jsx], lines 36-49) splits the entries into
    [offers] (type ['ofrece']) and [requests] (type ['busca']) and, for
    every request in order, lists the offers in order whose name is equal
    to the request's name after [toLowerCase()], as objects
    [{ habilidad: req.name, busca: req.user, ofrece: off.user }].

    The file states the contract of the spec (a match is a seek/offer pair
    with case-insensitively equal names, and the number of matches is the
    sum over names of seekers times offerers) and proves that
    [getMatches] implements it. *)

From Stdlib Require Import String List Bool Arith Lia RelationClasses Morphisms.
From S2P Require Import Prelude Skill.
Import ListNotations.
Open Scope trueka_scope.

Module MatchEngine.

(** The object literal [{ habilidad, busca, ofrece }] of line 43. *)
Record coincidencia := mk_coincidencia
  { habilidad : string; busca : string; ofrece : string }.

(** [s => s.type === 'ofrece'] and [s => s.type === 'busca']. *)
Definition is_offer (s : skill) : bool := type s === kind_ofrece.
Definition is_request (s : skill) : bool := type s === kind_busca.

(** [off => ({ habilidad: req.name, busca: req.user, ofrece: off.user })] *)
Definition match_of (req off : skill) : coincidencia :=
  {| habilidad := name req; busca := user req; ofrece := user off |}.

(** The body of the [flatMap] callback (lines 41-47). *)
Definition matches_for (offers : list skill) (req : skill) : list coincidencia :=
  map (match_of req) (filter (fun off => same_name_ci (name off) (name req)) offers).

Definition getMatches (skills : list skill) : list coincidencia :=
  let offers := filter is_offer skills in
  let requests := filter is_request skills in
  flat_map (matches_for offers) requests.

(** ** Specification *)

(** A match of the spec: a seek [req] and an offer [off] of the list whose
    names are equal ignoring case, labelled with the seeker's spelling. *)
Definition is_match (skills : list skill) (m : coincidencia) : Prop :=
  exists req off,
    In req skills /\ In off skills /\
    type req = kind_busca /\ type off = kind_ofrece /\
    ci_eq (name off) (name req) /\ m = match_of req off.

(** The nested loop of the spec (section 4.3, step 2) over the original
    list, without the partition into [offers] and [requests]. *)
Definition matches_reference (skills : list skill) : list coincidencia :=
  flat_map (fun req =>
    if is_request req then
      flat_map (fun off =>
        if is_offer off && same_name_ci (name off) (name req)
        then [match_of req off] else []) skills
    else []) skills.

(** The normalised name a match is computed on. *)
Definition key (s : skill) : string := to_lower_case (name s).

(** Entries equal up to the case of their names, and match records equal
    up to the case of their label. *)
Definition skill_ci (a b : skill) : Prop :=
  ci_eq (name a) (name b) /\ user a = user b /\ type a = type b.

Definition coincidencia_ci (a b : coincidencia) : Prop :=
  ci_eq (habilidad a) (habilidad b) /\ busca a = busca b /\ ofrece a = ofrece b.

(** ** Helper lemmas *)

Lemma matches_for_length offers req :
  length (matches_for offers req) = count_key key (key req) offers.
Proof. unfold matches_for, count_key. now rewrite length_map. Qed.

Lemma In_matches_for offers req m :
  In m (matches_for offers req) <->
  exists off, In off offers /\ ci_eq (name off) (name req) /\ m = match_of req off.
Proof.
  unfold matches_for. rewrite in_map_iff. split.
  - intros (off & <- & Hin). apply filter_In in Hin as [Hin Hci].
    exists off. repeat split; auto. now apply (reflect_iff _ _ (same_name_ci_spec _ _)).
  - intros (off & Hin & Hci & ->). exists off. split; auto.
    apply filter_In. split; auto. now apply (reflect_iff _ _ (same_name_ci_spec _ _)).
Qed.

Lemma matches_for_filter_fuse req (skills : list skill) :
  matches_for (filter is_offer skills) req =
  flat_map (fun off => if is_offer off && same_name_ci (name off) (name req)
                       then [match_of req off] else []) skills.
Proof.
  unfold matches_for. induction skills as [|off l IH]; simpl; [reflexivity|].
  destruct (is_offer off); simpl; [|exact IH].
  destruct (same_name_ci (name off) (name req)); simpl; congruence.
Qed.

(** A seek and an offer of the list with the same name up to case give a
    match. *)
Lemma getMatches_In_intro skills req off :
  In req skills -> In off skills -> type req = kind_busca -> type off = kind_ofrece ->
  ci_eq (name off) (name req) -> In (match_of req off) (getMatches skills).
Proof.
  intros Hreq Hoff Hr Ho Hci. unfold getMatches. apply in_flat_map. exists req. split.
  - apply filter_In. split; [exact Hreq|]. unfold is_request. now rewrite Hr, String.eqb_refl.
  - apply In_matches_for. exists off. split; [|auto].
    apply filter_In. split; [exact Hoff|]. unfold is_offer. now rewrite Ho, String.eqb_refl.
Qed.

(** ** Properties *)

(** C1: [getMatches] is sound and complete for the contract of the
    spec: a record is listed exactly when it comes from a seek and an
    offer of the list whose names are equal ignoring case. *)
Theorem getMatches_spec (skills : list skill) (m : coincidencia) :
  In m (getMatches skills) <-> is_match skills m.
Proof.
  unfold getMatches, is_match, is_offer, is_request. rewrite in_flat_map. split.
  - intros (req & Hreq & Hm). apply filter_In in Hreq as [Hreq Hr].
    apply In_matches_for in Hm as (off & Hoff & Hci & ->).
    apply filter_In in Hoff as [Hoff Ho]. bool_to_prop.
    exists req, off. tauto.
  - intros (req & off & Hreq & Hoff & Hr & Ho & Hci & ->).
    exists req. split.
    + apply filter_In. split; auto. now apply String.eqb_eq.
    + apply In_matches_for. exists off. repeat split; auto.
      apply filter_In. split; auto. now apply String.eqb_eq.
Qed.

(** C2: [getMatches] computes the same list as the nested loop of the
    spec over the original list: same records, same multiplicities, same
    order (grouped by seek in insertion order, offers in insertion order
    within a group). *)
Theorem getMatches_reference (skills : list skill) :
  getMatches skills = matches_reference skills.
Proof.
  unfold getMatches, matches_reference.
  generalize skills at 1 3 as all.
  induction skills as [|req l IH]; intros all; simpl; [reflexivity|].
  destruct (is_request req); simpl; [|apply IH].
  now rewrite matches_for_filter_fuse, IH.
Qed.

(** C3: The number of matches is the sum, over the distinct normalised
    names of the list, of the number of seeks with that name times the
    number of offers with that name (a Cartesian join per name, with no
    deduplication). *)
Theorem getMatches_count (skills : list skill) :
  length (getMatches skills) =
  list_sum (map (fun k => count_key key k (filter is_request skills) *
                          count_key key k (filter is_offer skills))
                (nodup string_dec (map key skills))).
Proof.
  unfold getMatches. rewrite length_flat_map.
  rewrite (list_sum_map_ext _ (fun req => count_key key (key req) (filter is_offer skills)))
    by (intros; apply matches_for_length).
  apply (list_sum_by_key key (fun k => count_key key k (filter is_offer skills))).
  - apply NoDup_nodup.
  - intros req Hreq. apply nodup_In, in_map. now apply filter_In in Hreq as [? _].
Qed.

Lemma matches_for_ci offers1 offers2 req1 req2 :
  Forall2 skill_ci offers1 offers2 -> skill_ci req1 req2 ->
  Forall2 coincidencia_ci (matches_for offers1 req1) (matches_for offers2 req2).
Proof.
  intros Hoffers (Hn & Hu & Ht). unfold matches_for.
  apply (Forall2_map skill_ci).
  - intros o1 o2 (_ & Hou & _). unfold match_of, coincidencia_ci; simpl. auto.
  - apply Forall2_filter; [|exact Hoffers].
    intros o1 o2 (Hon & _ & _). now rewrite Hon, Hn.
Qed.

Lemma getMatches_ci_aux l1 l2 :
  Forall2 skill_ci l1 l2 -> Forall2 coincidencia_ci (getMatches l1) (getMatches l2).
Proof.
  intros H. unfold getMatches.
  apply (Forall2_flat_map skill_ci).
  - intros a b Hab. apply matches_for_ci; [|exact Hab].
    apply Forall2_filter; [|exact H]. intros x y (_ & _ & Ht). unfold is_offer. now rewrite Ht.
  - apply Forall2_filter; [|exact H]. intros x y (_ & _ & Ht). unfold is_request. now rewrite Ht.
Qed.

#[export] Instance getMatches_proper :
  Proper (Forall2 skill_ci ==> Forall2 coincidencia_ci) getMatches.
Proof. intros l1 l2 H. now apply getMatches_ci_aux. Qed.

(** C4: The labels of a match: one offer and one seek whose names are
    equal up to case give exactly one match, in either order of entry,
    labelled with the seeker's spelling of the name, the seeker as
    [busca] and the offerer as [ofrece]. *)
Theorem getMatches_pair_labels (o r : skill) :
  type o = kind_ofrece -> type r = kind_busca -> same_name_ci (name o) (name r) = true ->
  getMatches [o; r] = [{| habilidad := name r; busca := user r; ofrece := user o |}] /\
  getMatches [r; o] = [{| habilidad := name r; busca := user r; ofrece := user o |}].
Proof.
  intros Ho Hr Hn. unfold getMatches, is_offer, is_request. cbn [filter].
  rewrite Ho, Hr. cbn. unfold matches_for. cbn. rewrite Hn. split; reflexivity.
Qed.

(** C4 witness: scenario 1 of the spec, an offer of "Guitarra" and a
    seek of "guitarra", labelled "guitarra". *)
Lemma getMatches_pair_labels_witness :
  type (mk_skill "Guitarra" "Ana" kind_ofrece) = kind_ofrece /\
  type (mk_skill "guitarra" "Luis" kind_busca) = kind_busca /\
  same_name_ci "Guitarra" "guitarra" = true /\
  getMatches [mk_skill "Guitarra" "Ana" kind_ofrece; mk_skill "guitarra" "Luis" kind_busca]
  = [{| habilidad := "guitarra"; busca := "Luis"; ofrece := "Ana" |}] /\
  getMatches [mk_skill "guitarra" "Luis" kind_busca; mk_skill "Guitarra" "Ana" kind_ofrece]
  = [{| habilidad := "guitarra"; busca := "Luis"; ofrece := "Ana" |}].
Proof.
  split; [reflexivity | split; [reflexivity | split; [reflexivity |]]].
  exact (getMatches_pair_labels (mk_skill "Guitarra" "Ana" kind_ofrece) (mk_skill "guitarra" "Luis" kind_busca)
           eq_refl eq_refl eq_refl).
Defined.

(** Scenario 2 of the spec: two offers of "Yoga" and one seek give
    two matches, in offer-insertion order; an empty list gives none. *)
Example getMatches_scenario_product :
  getMatches [mk_skill "Yoga" "Ana" kind_ofrece; mk_skill "Yoga" "Beto" kind_ofrece;
              mk_skill "Yoga" "Carla" kind_busca]
  = [{| habilidad := "Yoga"; busca := "Carla"; ofrece := "Ana" |};
     {| habilidad := "Yoga"; busca := "Carla"; ofrece := "Beto" |}]
  /\ getMatches [] = [].
Proof. split; reflexivity. Qed.

(** C34: Matching depends on names only up to case: replacing the names of
    any entries by case variants gives, position by position, the same
    seekers and offerers, with labels equal up to case. *)
Theorem getMatches_ci_invariant (l1 l2 : list skill) :
  Forall2 skill_ci l1 l2 ->
  Forall2 coincidencia_ci (getMatches l1) (getMatches l2).
Proof. apply getMatches_ci_aux. Qed.

(** C34 witness: upper-casing the names of an offer and of a seek. *)
Lemma getMatches_ci_invariant_witness :
  Forall2 skill_ci [mk_skill "Yoga" "Ana" kind_ofrece; mk_skill "yoga" "Luis" kind_busca]
                   [mk_skill "YOGA" "Ana" kind_ofrece; mk_skill "YoGa" "Luis" kind_busca] /\
  Forall2 coincidencia_ci
    (getMatches [mk_skill "Yoga" "Ana" kind_ofrece; mk_skill "yoga" "Luis" kind_busca])
    (getMatches [mk_skill "YOGA" "Ana" kind_ofrece; mk_skill "YoGa" "Luis" kind_busca]).
Proof.
  assert (H : Forall2 skill_ci [mk_skill "Yoga" "Ana" kind_ofrece; mk_skill "yoga" "Luis" kind_busca]
                   [mk_skill "YOGA" "Ana" kind_ofrece; mk_skill "YoGa" "Luis" kind_busca])
    by (repeat constructor).
  split; [exact H | exact (getMatches_ci_invariant _ _ H)].
Defined.

(** Adding a seek at the end of the list appends its matches, in
    offer order, after the existing ones: earlier matches keep their
    positions. *)
Theorem getMatches_snoc_request (skills : list skill) (s : skill) :
  type s = kind_busca ->
  getMatches (skills ++ [s]) = getMatches skills ++ matches_for (filter is_offer skills) s.
Proof.
  intros Hs. unfold getMatches.
  assert (Ho : filter is_offer (skills ++ [s]) = filter is_offer skills).
  { rewrite filter_app; simpl. unfold is_offer at 2. now rewrite Hs, app_nil_r. }
  rewrite Ho, filter_app; simpl. unfold is_request at 2. rewrite Hs; simpl.
  now rewrite flat_map_app; simpl; rewrite app_nil_r.
Qed.

(** Adding an offer at the end of the list adds exactly one match per
    seek of the same normalised name. *)
Lemma getMatches_snoc_offer_length (skills : list skill) (s : skill) :
  type s = kind_ofrece ->
  length (getMatches (skills ++ [s])) =
  length (getMatches skills) + count_key key (key s) (filter is_request skills).
Proof.
  intros Hs. unfold getMatches.
  assert (Hr : filter is_request (skills ++ [s]) = filter is_request skills).
  { rewrite filter_app; simpl. unfold is_request at 2. now rewrite Hs, app_nil_r. }
  rewrite Hr, !length_flat_map, filter_app; simpl. unfold is_offer at 2. rewrite Hs; simpl.
  rewrite (list_sum_map_ext _ (fun r => count_key key (key r) (filter is_offer skills)
                                      + (if key s === key r then 1 else 0))).
  - now rewrite list_sum_map_add, count_key_sum, (list_sum_map_ext _ _ _ (fun r _ => matches_for_length _ r)).
  - intros r _. now rewrite matches_for_length, count_key_snoc.
Qed.


End MatchEngine.
