(* ===== verification/JsonObject.v ===== *)
(** * JsonObject: the ordinary objects [JSON.parse] builds

    When [JSON.parse] meets [{ ... }] it creates an ordinary object and
    adds the members in source order with CreateDataProperty (ECMAScript
    25.5.1, the JSON grammar's object case): a repeated key keeps the
    position of its first creation and takes the last value.  The order
    in which the object's properties are later enumerated (by
    [JSON.stringify], for one) is OrdinaryOwnPropertyKeys (10.1.11.1):
    first the keys that are array indices, in ascending numeric order,
    then the other string keys in creation order.  An array index is a
    canonical numeric string ["0"] or [1-9][0-9]* whose value is below
    [2^32 - 1] (6.1.7).

    The file models an object as its member list in that enumeration
    order, over any type [V] of property values; [Json] instantiates it
    with JSON values.  It proves that [build_object] gives back a list of
    members with distinct keys in enumeration order, a permutation of the
    de-duplicated members, and that it leaves such a list unchanged. *)

From Stdlib Require Import String Ascii List Bool Arith NArith Lia Permutation Sorted.
From S2P Require Import Prelude.
Import ListNotations.
Open Scope trueka_scope.

Module JsonObject.

(** A decimal digit of the JSON grammar. *)
Definition is_digit (c : ascii) : bool :=
  let n := nat_of_ascii c in (48 <=? n) && (n <=? 57).

(** The value of a string of decimal digits, if it is one. *)
Fixpoint decimal_value (s : string) (acc : N) : option N :=
  match s with
  | EmptyString => Some acc
  | String c s' =>
      if is_digit c then decimal_value s' (10 * acc + N.of_nat (nat_of_ascii c - 48))%N
      else None
  end.

(** [ToString(ToUint32(P)) === P] and [ToUint32(P) <> 2^32 - 1]. *)
Definition is_array_index (k : string) : bool :=
  match k with
  | EmptyString => false
  | String c s' =>
      (if Ascii.eqb c "0"%char then String.eqb s' "" else true) &&
      match decimal_value k 0 with Some n => (n <? 4294967295)%N | None => false end
  end.

Definition index_value (k : string) : N :=
  match decimal_value k 0 with Some n => n | None => 0%N end.

Section Members.
Context {V : Type}.

(** CreateDataProperty on an object under construction. *)
Fixpoint define_property (k : string) (v : V) (m : list (string * V)) : list (string * V) :=
  match m with
  | [] => [(k, v)]
  | (k', v') :: m' => if k' === k then (k, v) :: m' else (k', v') :: define_property k v m'
  end.

(** Insertion of an array-index member by numeric order. *)
Fixpoint insert_index (kv : string * V) (m : list (string * V)) : list (string * V) :=
  match m with
  | [] => [kv]
  | kv' :: m' =>
      if (index_value (fst kv) <=? index_value (fst kv'))%N then kv :: m
      else kv' :: insert_index kv m'
  end.

(** OrdinaryOwnPropertyKeys: array indices ascending, then the other keys
    in creation order. *)
Definition order_keys (m : list (string * V)) : list (string * V) :=
  fold_right insert_index [] (filter (fun kv => is_array_index (fst kv)) m) ++
  filter (fun kv => negb (is_array_index (fst kv))) m.

(** The object [JSON.parse] builds from the members of [{ ... }]. *)
Definition build_object (members : list (string * V)) : list (string * V) :=
  order_keys (fold_left (fun m kv => define_property (fst kv) (snd kv) m) members []).

(** Members listed in enumeration order. *)
Definition keys_ordered (m : list (string * V)) : bool :=
  if list_eq_dec string_dec (map fst (order_keys m)) (map fst m) then true else false.

(** The order of array-index members. *)
Definition index_le (a b : string * V) : Prop := (index_value (fst a) <= index_value (fst b))%N.

End Members.

(** Duplicate-free lists of keys, as a test. *)
Fixpoint nodup_strings (l : list string) : bool :=
  match l with
  | [] => true
  | x :: l' => negb (existsb (String.eqb x) l') && nodup_strings l'
  end.

(** The enumeration order stated on the keys alone: a key [k] may come
    before [k'] unless [k'] is an array index and [k] is not one, or both
    are and [k] has the greater value. *)
Definition index_before (k k' : string) : bool :=
  implb (is_array_index k') (is_array_index k && (index_value k <=? index_value k')%N).

(** Every pair of keys of the list is in enumeration order. *)
Fixpoint keys_enumerated (ks : list string) : bool :=
  match ks with
  | [] => true
  | k :: ks' => forallb (index_before k) ks' && keys_enumerated ks'
  end.

(** ** Lemmas *)

Lemma nodup_strings_spec l : nodup_strings l = true -> NoDup l.
Proof.
  induction l as [|x l IH]; simpl; intros H; [constructor|].
  apply andb_prop in H as [Hx Hl]. constructor; auto.
  intros Hin. apply negb_true_iff in Hx.
  assert (existsb (String.eqb x) l = true) by (apply existsb_exists; exists x; split; auto; apply String.eqb_refl).
  congruence.
Qed.

Lemma nodup_strings_complete l : NoDup l -> nodup_strings l = true.
Proof.
  induction 1 as [|x l Hx _ IH]; simpl; [reflexivity|]. rewrite IH, andb_true_r.
  apply negb_true_iff. destruct (existsb (String.eqb x) l) eqn:E; [|reflexivity].
  apply existsb_exists in E as (y & Hy & Exy). apply String.eqb_eq in Exy. subst. contradiction.
Qed.

Section MemberLemmas.
Context {V : Type}.
Implicit Types (m acc : list (string * V)) (kv : string * V).

Lemma define_property_fresh k (v : V) acc :
  ~ In k (map fst acc) -> define_property k v acc = acc ++ [(k, v)].
Proof.
  induction acc as [|[k' v'] acc IH]; simpl; intros Hk; [reflexivity|].
  destruct (String.eqb_spec k' k); [tauto|]. f_equal. auto.
Qed.

Lemma fold_define_nodup m acc :
  NoDup (map fst (acc ++ m)) ->
  fold_left (fun m kv => define_property (fst kv) (snd kv) m) m acc = acc ++ m.
Proof.
  revert acc. induction m as [|[k v] m IH]; intros acc Hnd; simpl; [now rewrite app_nil_r|].
  rewrite define_property_fresh.
  - rewrite IH; [now rewrite <- app_assoc|]. now rewrite <- app_assoc.
  - intros Hin. rewrite map_app in Hnd. simpl in Hnd. apply NoDup_remove_2 in Hnd.
    apply Hnd, in_app_iff. now left.
Qed.

Lemma define_property_keys_in k (v : V) m x :
  In x (map fst (define_property k v m)) -> x = k \/ In x (map fst m).
Proof.
  induction m as [|[k' v'] m IH]; simpl; [intros [<-|[]]; auto|].
  destruct (String.eqb_spec k' k); simpl; intros [<-|Hin]; auto.
  destruct (IH Hin); auto.
Qed.

Lemma define_property_nodup k (v : V) m : NoDup (map fst m) -> NoDup (map fst (define_property k v m)).
Proof.
  induction m as [|[k' v'] m IH]; simpl; intros Hnd; [repeat constructor; simpl; tauto|].
  inversion Hnd as [|? ? Hk' Hm]; subst.
  destruct (String.eqb_spec k' k) as [<-|Hne]; simpl; constructor; auto.
  intros Hin. apply define_property_keys_in in Hin as [|]; auto.
Qed.

Lemma define_property_forall (P : V -> Prop) k v m :
  P v -> Forall (fun kv => P (snd kv)) m -> Forall (fun kv => P (snd kv)) (define_property k v m).
Proof.
  intros Hv. induction 1 as [|[k' v'] m Hkv Hm IH]; simpl; [now repeat constructor|].
  destruct (k' === k); constructor; auto.
Qed.

Lemma fold_define_wf (P : V -> Prop) members acc :
  NoDup (map fst acc) -> Forall (fun kv => P (snd kv)) acc -> Forall (fun kv => P (snd kv)) members ->
  let m := fold_left (fun m kv => define_property (fst kv) (snd kv) m) members acc in
  NoDup (map fst m) /\ Forall (fun kv => P (snd kv)) m.
Proof.
  revert acc. induction members as [|[k v] members IH]; intros acc Hnd Hacc Hm; simpl; [auto|].
  inversion Hm; subst. apply IH; auto.
  - now apply define_property_nodup.
  - now apply define_property_forall.
Qed.

(** *** Enumeration order *)

Lemma insert_index_perm kv m : Permutation (insert_index kv m) (kv :: m).
Proof.
  induction m as [|kv' m IH]; simpl; [reflexivity|].
  destruct (_ <=? _)%N; [reflexivity|]. rewrite IH. apply perm_swap.
Qed.

Lemma fold_insert_perm m : Permutation (fold_right insert_index [] m) m.
Proof.
  induction m as [|kv m IH]; simpl; [reflexivity|]. now rewrite insert_index_perm, IH.
Qed.

Lemma order_keys_perm m : Permutation (order_keys m) m.
Proof.
  unfold order_keys. rewrite fold_insert_perm. apply filter_partition_perm.
Qed.

Lemma insert_index_sorted kv m : Sorted index_le m -> Sorted index_le (insert_index kv m).
Proof.
  unfold index_le. induction 1 as [|kv' m Hm IH Hhd]; simpl; [repeat constructor|].
  destruct (N.leb_spec (index_value (fst kv)) (index_value (fst kv'))) as [Hle|Hlt].
  - repeat constructor; assumption.
  - constructor; [exact IH|]. destruct m as [|kv'' m]; simpl; [constructor; lia|].
    apply HdRel_inv in Hhd.
    destruct (N.leb_spec (index_value (fst kv)) (index_value (fst kv''))); constructor; lia.
Qed.

Lemma fold_insert_sorted m : Sorted index_le (fold_right insert_index [] m).
Proof. induction m; simpl; [constructor|]. now apply insert_index_sorted. Qed.

(** Insertion sort leaves a sorted list as it is. *)
Lemma fold_insert_sorted_id m : Sorted index_le m -> fold_right insert_index [] m = m.
Proof.
  induction 1 as [|kv m Hm IH Hhd]; simpl; [reflexivity|]. rewrite IH.
  destruct Hhd as [|kv' m' Hle]; simpl; [reflexivity|].
  unfold index_le in Hle. now rewrite (proj2 (N.leb_le _ _) Hle).
Qed.

Lemma order_keys_idem m : order_keys (order_keys m) = order_keys m.
Proof.
  set (p := fold_right insert_index [] (filter (fun kv => is_array_index (fst kv)) m)).
  set (q := filter (fun kv => negb (is_array_index (fst kv))) m).
  assert (Hp : forall kv, In kv p -> is_array_index (fst kv) = true).
  { intros kv Hin. apply (Permutation_in _ (fold_insert_perm _)), filter_In in Hin. tauto. }
  assert (Hq : forall kv, In kv q -> is_array_index (fst kv) = false).
  { intros kv Hin. apply filter_In in Hin as [_ H]. now apply negb_true_iff. }
  assert (E : order_keys m = p ++ q) by reflexivity. rewrite E. unfold order_keys. rewrite !filter_app.
  rewrite (filter_id_in _ p Hp), (filter_none_in _ q Hq).
  rewrite (filter_none_in _ p), (filter_id_in _ q); [|intros kv Hin; now rewrite Hq|intros kv Hin; now rewrite Hp].
  rewrite !app_nil_r. simpl. rewrite fold_insert_sorted_id; [reflexivity|apply fold_insert_sorted].
Qed.

Lemma keys_ordered_spec m : keys_ordered m = true <-> map fst (order_keys m) = map fst m.
Proof. unfold keys_ordered. destruct (list_eq_dec _ _ _); split; congruence. Qed.

(** Two permutations of a member list with distinct keys that list the keys
    in the same order are equal. *)
Lemma perm_same_keys (l l' : list (string * V)) :
  Permutation l l' -> NoDup (map fst l) -> map fst l = map fst l' -> l = l'.
Proof.
  revert l'. induction l as [|[k v] l IH]; intros l' Hp Hnd Hk.
  - now apply Permutation_nil in Hp.
  - destruct l' as [|[k' v'] l']; [now apply Permutation_sym, Permutation_nil in Hp|].
    simpl in Hk. injection Hk as <- Hk. inversion Hnd as [|? ? Hnin Hnd']; subst.
    assert (Hin : In (k, v) ((k, v') :: l')) by (apply (Permutation_in _ Hp); now left).
    destruct Hin as [E|Hin]; [injection E as ->|].
    + f_equal. apply IH; auto. now apply Permutation_cons_inv in Hp.
    + exfalso. apply Hnin. rewrite Hk. now apply (in_map fst) in Hin.
Qed.

Lemma order_keys_ordered m : NoDup (map fst m) -> keys_ordered m = true -> order_keys m = m.
Proof.
  intros Hnd Hk. apply keys_ordered_spec in Hk. symmetry.
  apply perm_same_keys; [symmetry; apply order_keys_perm | exact Hnd | now symmetry].
Qed.

(** [build_object] leaves unchanged a member list with distinct keys in
    enumeration order. *)
Lemma build_object_canonical m : NoDup (map fst m) -> keys_ordered m = true -> build_object m = m.
Proof.
  intros Hnd Hk. unfold build_object. rewrite (fold_define_nodup m [] Hnd).
  now apply order_keys_ordered.
Qed.

(** What [build_object] returns: distinct keys, in enumeration order, with
    values taken from the members. *)
Lemma build_object_wf (P : V -> Prop) members :
  Forall (fun kv => P (snd kv)) members ->
  NoDup (map fst (build_object members)) /\ keys_ordered (build_object members) = true /\
  Forall (fun kv => P (snd kv)) (build_object members).
Proof.
  intros Hm. destruct (fold_define_wf P members [] (NoDup_nil _) (Forall_nil _) Hm) as [Hnd Hall].
  unfold build_object.
  set (o := fold_left (fun m kv => define_property (fst kv) (snd kv) m) members []) in *.
  pose proof (order_keys_perm o) as Hp. split; [|split].
  - apply (Permutation_NoDup (Permutation_map fst (Permutation_sym Hp))), Hnd.
  - apply keys_ordered_spec. now rewrite order_keys_idem.
  - rewrite Forall_forall in Hall |- *. intros kv Hin. apply Hall, (Permutation_in _ Hp), Hin.
Qed.

End MemberLemmas.

(** The enumeration order depends on the keys only: changing the values
    of the members (keeping their keys) commutes with it. *)
Section ValueMaps.
Context {V W : Type} (f : string * V -> string * W).
Hypothesis f_key : forall kv, fst (f kv) = fst kv.

Lemma insert_index_map kv m : insert_index (f kv) (map f m) = map f (insert_index kv m).
Proof.
  induction m as [|kv' m IH]; simpl; [reflexivity|]. rewrite !f_key.
  destruct (index_value (fst kv) <=? index_value (fst kv'))%N; simpl; congruence.
Qed.

Lemma filter_key_map (p : string -> bool) m :
  filter (fun kv => p (fst kv)) (map f m) = map f (filter (fun kv => p (fst kv)) m).
Proof.
  induction m as [|kv m IH]; simpl; [reflexivity|]. rewrite f_key.
  destruct (p (fst kv)); simpl; congruence.
Qed.

Lemma order_keys_map m : order_keys (map f m) = map f (order_keys m).
Proof.
  unfold order_keys. rewrite map_app.
  rewrite (filter_key_map is_array_index), (filter_key_map (fun k => negb (is_array_index k))).
  f_equal. induction (filter _ m) as [|kv l IH]; simpl; [reflexivity|]. now rewrite IH, insert_index_map.
Qed.

Lemma keys_map m : map fst (map f m) = map fst m.
Proof. rewrite map_map. apply map_ext, f_key. Qed.

Lemma keys_ordered_map m : keys_ordered (map f m) = keys_ordered m.
Proof.
  unfold keys_ordered. rewrite order_keys_map, !keys_map. reflexivity.
Qed.

End ValueMaps.

(** ** The enumeration order on the keys *)

Lemma keys_enumerated_app ks1 ks2 :
  keys_enumerated (ks1 ++ ks2) =
  keys_enumerated ks1 && keys_enumerated ks2 && forallb (fun k => forallb (index_before k) ks2) ks1.
Proof.
  induction ks1 as [|k ks1 IH]; [simpl; now rewrite andb_true_r | simpl].
  rewrite forallb_app, IH. destruct (forallb (index_before k) ks1), (forallb (index_before k) ks2),
    (keys_enumerated ks1), (keys_enumerated ks2), (forallb _ ks1); reflexivity.
Qed.

(** Any key may come before a key that is not an array index. *)
Lemma before_non_index k ks : Forall (fun k' => is_array_index k' = false) ks ->
  forallb (index_before k) ks = true.
Proof.
  intros H. apply forallb_forall. intros k' Hk'. rewrite Forall_forall in H.
  unfold index_before. now rewrite (H k' Hk').
Qed.

Lemma keys_enumerated_non_index ks : Forall (fun k' => is_array_index k' = false) ks ->
  keys_enumerated ks = true.
Proof.
  induction 1 as [|k ks Hk Hks IH]; [reflexivity | simpl]. now rewrite before_non_index, IH.
Qed.

Lemma keys_enumerated_sorted {V} (p : list (string * V)) :
  Forall (fun kv => is_array_index (fst kv) = true) p -> StronglySorted index_le p ->
  keys_enumerated (map fst p) = true.
Proof.
  intros Hidx Hs. induction Hs as [|kv p _ IH Hhd]; [reflexivity | simpl].
  inversion Hidx as [|? ? Hkv Hp]; subst. rewrite IH by exact Hp. rewrite andb_true_r.
  apply forallb_forall. intros k' Hk'. apply in_map_iff in Hk' as (kv' & <- & Hin).
  rewrite Forall_forall in Hhd, Hp. unfold index_before, index_le in *.
  rewrite Hkv, (Hp kv' Hin). simpl. apply N.leb_le, Hhd, Hin.
Qed.

(** [order_keys] lists the keys in enumeration order. *)
Lemma order_keys_enumerated {V} (m : list (string * V)) : keys_enumerated (map fst (order_keys m)) = true.
Proof.
  unfold order_keys. rewrite map_app, keys_enumerated_app.
  set (p := fold_right insert_index [] (filter (fun kv => is_array_index (fst kv)) m)).
  set (q := filter (fun kv => negb (is_array_index (fst kv))) m).
  assert (Hq : Forall (fun k' => is_array_index k' = false) (map fst q)).
  { apply Forall_forall. intros k Hk. apply in_map_iff in Hk as (kv & <- & Hin).
    apply filter_In in Hin as [_ H]. now apply negb_true_iff. }
  assert (Hp : Forall (fun kv => is_array_index (fst kv) = true) p).
  { apply Forall_forall. intros kv Hin. apply (Permutation_in _ (fold_insert_perm _)), filter_In in Hin. tauto. }
  rewrite keys_enumerated_sorted;
    [| exact Hp | apply Sorted_StronglySorted; [intros a b c; unfold index_le; lia | apply fold_insert_sorted]].
  rewrite keys_enumerated_non_index by exact Hq.
  apply forallb_forall. intros k _. now apply before_non_index.
Qed.

(** A member list with its keys in the order [order_keys] gives lists
    them in enumeration order. *)
Lemma keys_ordered_enumerated {V} (m : list (string * V)) :
  keys_ordered m = true -> keys_enumerated (map fst m) = true.
Proof. intros H. apply keys_ordered_spec in H. rewrite <- H. apply order_keys_enumerated. Qed.

End JsonObject.
