(* ===== verification/JsonNumber.v ===== *)
(** * JsonNumber: the numbers of [JSON.parse] and [JSON.stringify]

    A JSON number of the snapshot is read by [JSON.parse] (line 18) as the
    double nearest to the mathematical value of its lexeme, and printed
    back by [JSON.stringify] (line 22), and by React when it shows a number
    child, with Number::toString (ECMAScript 6.1.6.1.20): the shortest
    decimal [s * 10^(n-k)] ([k] digits) that rounds to the double, laid
    out in one of five forms by the position [n] of its decimal point.

    The model represents a double by the decimal it prints as: the record
    [number] of a sign, a coefficient without trailing zero and a power of
    ten.  This is exact on the domain [number_wf] checks, decimals of at
    most [max_digits] = 15 significant digits whose point lies in
    [min_point .. max_point] (values from [1e-307] to below [1e308]):
    there, two distinct decimals round to two distinct doubles (fifteen
    digits survive the rounding to the 53-bit significand of a normal
    double, and the domain stays inside the normal range), so the double
    of such a decimal prints as that decimal and as no shorter one.  A
    lexeme outside the domain (sixteen significant digits or more, an
    overflow to [Infinity], an underflow towards zero) stops the model
    ([to_number] gives [None], which [Json] reports as [Unrepresentable]).
    Minus zero is kept: it is the number ["-0"] parses to, and prints as
    ["0"].

    The file holds the lexeme view of a number ([lexeme], [lexeme_text]),
    the value of a lexeme ([number_of]), Number::toString ([to_lexeme],
    [number_to_string]) and the lemmas that printing then reading a
    number of the domain gives it back. *)

From Stdlib Require Import String Ascii List Bool Arith NArith ZArith Lia.
From S2P Require Import Prelude JsonObject.
Import ListNotations JsonObject.
Open Scope trueka_scope.

Module JsonNumber.

(** ** Numbers and their decimal digits *)

(** [(-1)^num_neg * num_coeff * 10^num_exp]. *)
Record number := mk_number { num_neg : bool; num_coeff : N; num_exp : Z }.

Definition digit_char (d : N) : ascii := ascii_of_nat (48 + N.to_nat d).

Fixpoint digits_acc (fuel : nat) (n : N) (acc : string) : string :=
  match fuel with
  | O => acc
  | S f =>
      if (n <? 10)%N then String (digit_char n) acc
      else digits_acc f (n / 10) (String (digit_char (n mod 10)) acc)
  end.

(** The decimal representation of [n], most significant digit first;
    [N.size n] bits bound its number of digits. *)
Definition digits_of (n : N) : string := digits_acc (S (N.to_nat (N.size n))) n EmptyString.

(** The mathematical value of a string of decimal digits. *)
Definition digits_value (s : string) : N :=
  match decimal_value s 0 with Some v => v | None => 0%N end.

Fixpoint zeros (k : nat) : string :=
  match k with O => EmptyString | S k' => String "0"%char (zeros k') end.

Fixpoint split_at (k : nat) (s : string) : string * string :=
  match k, s with
  | O, _ => (EmptyString, s)
  | S _, EmptyString => (EmptyString, EmptyString)
  | S k', String c s' => let '(a, b) := split_at k' s' in (String c a, b)
  end.

Definition ndigits (n : N) : nat := String.length (digits_of n).

(** The position [n] of the decimal point: the value is [0.d1...dk * 10^n]. *)
Definition point (x : number) : Z := (num_exp x + Z.of_nat (ndigits (num_coeff x)))%Z.

Definition max_digits : nat := 15.
Definition min_point : Z := (-306)%Z.
Definition max_point : Z := 308%Z.

(** The decimals the model represents exactly: zero (of either sign), or a
    coefficient without trailing zero, of at most [max_digits] digits,
    with its point in [min_point .. max_point]. *)
Definition number_wf (x : number) : bool :=
  if (num_coeff x =? 0)%N then (num_exp x =? 0)%Z
  else negb (num_coeff x mod 10 =? 0)%N && (ndigits (num_coeff x) <=? max_digits) &&
       (min_point <=? point x)%Z && (point x <=? max_point)%Z.

(** The numbers [JSON.stringify] prints so that [JSON.parse] reads them
    back: all of [number_wf] but minus zero, printed ["0"]. *)
Definition number_printable (x : number) : bool :=
  number_wf x && negb (num_neg x && (num_coeff x =? 0)%N).

(** ** Reading a lexeme *)

(** Strips the trailing zeros of the coefficient into the exponent. *)
Fixpoint strip_zeros (fuel : nat) (c : N) (e : Z) : N * Z :=
  match fuel with
  | O => (c, e)
  | S f =>
      if (c =? 0)%N then (c, e)
      else if (c mod 10 =? 0)%N then strip_zeros f (c / 10) (e + 1)%Z
      else (c, e)
  end.

(** The double nearest to [(-1)^neg * c * 10^e], when it is in the
    domain; [fuel] bounds the number of trailing zeros of [c]. *)
Definition to_number (neg : bool) (c : N) (e : Z) (fuel : nat) : option number :=
  if (c =? 0)%N then Some (mk_number neg 0 0)
  else
    let '(c', e') := strip_zeros fuel c e in
    let x := mk_number neg c' e' in
    if number_wf x then Some x else None.

(** The value of [-? int (. frac)? (e [+-]? exp)?], the exponent [e]
    already read: the digits of [int] and [frac] are the coefficient. *)
Definition number_of (neg : bool) (int frac : string) (e : Z) : option number :=
  to_number neg (digits_value (int ++ frac)) (e - Z.of_nat (String.length frac))
    (String.length (int ++ frac)).

Definition exponent_value (eneg : bool) (ed : string) : Z :=
  if eneg then (- Z.of_N (digits_value ed))%Z else Z.of_N (digits_value ed).

(** ** Printing a number *)

(** The parts of a number's text: sign, integer digits, fraction digits
    (no point when empty) and an optional exponent with its sign. *)
Record lexeme := mk_lexeme {
  lx_neg : bool; lx_int : string; lx_frac : string; lx_exp : option (bool * string) }.

Definition frac_text (f : string) : string :=
  match f with EmptyString => EmptyString | _ => String "." f end.

Definition exp_text (ex : option (bool * string)) : string :=
  match ex with
  | None => EmptyString
  | Some (eneg, ed) => String "e" (String (if eneg then "-" else "+") ed)
  end.

Definition lexeme_text (l : lexeme) : string :=
  ((if lx_neg l then "-" else "") ++ lx_int l ++ frac_text (lx_frac l) ++ exp_text (lx_exp l))%string.

Definition lexeme_number (l : lexeme) : option number :=
  number_of (lx_neg l) (lx_int l) (lx_frac l)
    match lx_exp l with None => 0%Z | Some (eneg, ed) => exponent_value eneg ed end.

(** Number::toString(x) for radix 10, steps 2 to 10: zero prints ["0"];
    otherwise [s] has the [k] digits [ds] and its point is at [n]. *)
Definition to_lexeme (x : number) : lexeme :=
  if (num_coeff x =? 0)%N then mk_lexeme false "0" "" None
  else
    let ds := digits_of (num_coeff x) in
    let k := Z.of_nat (String.length ds) in
    let n := point x in
    if (k <=? n)%Z && (n <=? 21)%Z then
      mk_lexeme (num_neg x) (ds ++ zeros (Z.to_nat (n - k))) "" None
    else if (0 <? n)%Z && (n <=? 21)%Z then
      let '(a, b) := split_at (Z.to_nat n) ds in mk_lexeme (num_neg x) a b None
    else if (-6 <? n)%Z && (n <=? 0)%Z then
      mk_lexeme (num_neg x) "0" (zeros (Z.to_nat (- n)) ++ ds) None
    else
      let ex := Some (negb (0 <=? n - 1)%Z, digits_of (Z.abs_N (n - 1))) in
      match ds with
      | String d t => mk_lexeme (num_neg x) (String d "") t ex
      | EmptyString => mk_lexeme (num_neg x) "" "" ex
      end.

Definition number_to_string (x : number) : string := lexeme_text (to_lexeme x).

(** The lexemes the JSON number grammar accepts, in the shape the
    printer writes them: [0] or a non-zero digit first, digits after the
    point, at least one exponent digit. *)
Fixpoint all_digits (s : string) : bool :=
  match s with EmptyString => true | String c s' => is_digit c && all_digits s' end.

Definition int_digits_ok (s : string) : bool :=
  match s with
  | EmptyString => false
  | String c s' => if Ascii.eqb c "0"%char then String.eqb s' "" else is_digit c && all_digits s'
  end.

Definition lexeme_ok (l : lexeme) : bool :=
  int_digits_ok (lx_int l) && all_digits (lx_frac l) &&
  match lx_exp l with None => true | Some (_, ed) => negb (String.eqb ed "") && all_digits ed end.

(** ** Digits *)

#[local] Arguments digit_char : simpl never.

Lemma decimal_value_acc s a :
  decimal_value s a = option_map (fun v => a * 10 ^ N.of_nat (String.length s) + v)%N (decimal_value s 0).
Proof.
  revert a. induction s as [|c s IH]; intros a; [simpl; f_equal; lia|cbn [decimal_value String.length]].
  destruct (is_digit c); [|reflexivity].
  rewrite N.mul_0_r, N.add_0_l, IH, (IH (N.of_nat (nat_of_ascii c - 48))).
  destruct (decimal_value s 0); cbn [option_map]; [|reflexivity].
  f_equal. rewrite Nat2N.inj_succ, N.pow_succ_r'. lia.
Qed.

Lemma decimal_value_app a b acc :
  decimal_value (a ++ b) acc =
  match decimal_value a acc with Some v => decimal_value b v | None => None end.
Proof.
  revert acc. induction a as [|c a IH]; intros acc; simpl; [reflexivity|].
  destruct (is_digit c); [apply IH | reflexivity].
Qed.

Lemma all_digits_value s : all_digits s = true -> decimal_value s 0 = Some (digits_value s).
Proof.
  unfold digits_value. intros H. enough (E : forall a, exists v, decimal_value s a = Some v).
  { destruct (E 0%N) as [v ->]. reflexivity. }
  induction s as [|c s IH]; intros a; simpl in *; [eauto|].
  apply andb_prop in H as [-> H]. now apply IH.
Qed.

Lemma all_digits_app a b : all_digits (a ++ b) = all_digits a && all_digits b.
Proof. induction a as [|c a IH]; simpl; [reflexivity|]. now rewrite IH, andb_assoc. Qed.

Lemma digits_value_app a b : all_digits a = true -> all_digits b = true ->
  digits_value (a ++ b) = (digits_value a * 10 ^ N.of_nat (String.length b) + digits_value b)%N.
Proof.
  intros Ha Hb. unfold digits_value at 1.
  rewrite decimal_value_app, (all_digits_value a Ha), decimal_value_acc, (all_digits_value b Hb).
  reflexivity.
Qed.

Lemma zeros_digits k : all_digits (zeros k) = true /\ digits_value (zeros k) = 0%N.
Proof.
  induction k as [|k [IH1 IH2]]; [split; reflexivity|].
  change (zeros (S k)) with (String "0"%char EmptyString ++ zeros k)%string.
  rewrite all_digits_app, digits_value_app, IH1, IH2 by (auto; reflexivity). split; reflexivity.
Qed.

Lemma digit_char_spec d : (d < 10)%N ->
  is_digit (digit_char d) = true /\ N.of_nat (nat_of_ascii (digit_char d) - 48) = d.
Proof.
  intros Hd. unfold digit_char, is_digit.
  rewrite Ascii.nat_ascii_embedding by lia. split; [apply andb_true_intro; split; apply Nat.leb_le|]; lia.
Qed.

Lemma digits_acc_spec f : forall n acc, (n < 10 ^ N.of_nat f)%N -> f <> O ->
  exists ds, digits_acc f n acc = (ds ++ acc)%string /\ all_digits ds = true /\
    digits_value ds = n /\ (exists d t, ds = String d t /\ ((0 < n)%N -> d <> "0"%char)).
Proof.
  induction f as [|f IH]; intros n acc Hn Hf; [congruence|]. simpl.
  destruct (N.ltb_spec n 10) as [Hlt|Hge].
  - destruct (digit_char_spec n Hlt) as [Hd Hv].
    exists (String (digit_char n) EmptyString). split; [reflexivity|].
    unfold digits_value. cbn [decimal_value all_digits]. rewrite Hd, N.mul_0_r, N.add_0_l, Hv.
    split; [reflexivity|]. split; [reflexivity|].
    exists (digit_char n), EmptyString. split; [reflexivity|].
    intros Hpos E. rewrite E in Hv. cbv in Hv. lia.
  - assert (Hm : (n mod 10 < 10)%N) by (apply N.mod_lt; lia).
    destruct (digit_char_spec _ Hm) as [Hd Hv].
    assert (Hf' : f <> O) by (intros ->; simpl in Hn; lia).
    assert (Hq : (n / 10 < 10 ^ N.of_nat f)%N).
    { apply N.Div0.div_lt_upper_bound. rewrite Nat2N.inj_succ, N.pow_succ_r' in Hn. lia. }
    destruct (IH (n / 10)%N (String (digit_char (n mod 10)) acc) Hq Hf')
      as (ds & E & Hall & Hval & d & t & Hds & Hhead).
    exists (ds ++ String (digit_char (n mod 10)) EmptyString)%string.
    rewrite E, string_app_assoc. split; [reflexivity|].
    assert (Hc : all_digits (String (digit_char (n mod 10)) EmptyString) = true)
      by (cbn [all_digits]; now rewrite Hd).
    rewrite all_digits_app, Hall, Hc, digits_value_app, Hval by assumption.
    split; [reflexivity|]. split.
    + unfold digits_value at 1. cbn [decimal_value]. rewrite Hd, N.mul_0_r, N.add_0_l, Hv.
      cbn [N.of_nat String.length]. pose proof (N.div_mod n 10). lia.
    + exists d, (t ++ String (digit_char (n mod 10)) EmptyString)%string.
      split; [now rewrite Hds|]. intros _. apply Hhead.
      apply N.div_str_pos. lia.
Qed.

Lemma digits_of_spec n :
  all_digits (digits_of n) = true /\ digits_value (digits_of n) = n /\
  exists d t, digits_of n = String d t /\ ((0 < n)%N -> d <> "0"%char).
Proof.
  unfold digits_of.
  destruct (digits_acc_spec (S (N.to_nat (N.size n))) n EmptyString) as (ds & E & H); [|congruence|].
  - rewrite Nat2N.inj_succ, N2Nat.id, N.pow_succ_r'.
    pose proof (N.size_gt n).
    assert (2 ^ N.size n <= 10 ^ N.size n)%N by (apply N.pow_le_mono_l; lia). lia.
  - rewrite E, string_app_nil_r. exact H.
Qed.

Lemma ndigits_pos n : (1 <= ndigits n)%nat.
Proof.
  unfold ndigits. destruct (digits_of_spec n) as (_ & _ & d & t & -> & _). simpl. lia.
Qed.

Lemma split_at_spec k s a b : split_at k s = (a, b) ->
  (a ++ b)%string = s /\ String.length a = Nat.min k (String.length s).
Proof.
  revert s a b. induction k as [|k IH]; intros [|c s] a b E; simpl in E.
  - injection E as <- <-. split; reflexivity.
  - injection E as <- <-. split; reflexivity.
  - injection E as <- <-. split; reflexivity.
  - destruct (split_at k s) as [a' b'] eqn:E'. injection E as <- <-.
    destruct (IH s a' b' E') as [H1 H2]. simpl. split; [now rewrite H1 | lia].
Qed.

Lemma all_digits_split s a b : (a ++ b)%string = s -> all_digits s = true ->
  all_digits a = true /\ all_digits b = true.
Proof. intros <-. rewrite all_digits_app. apply andb_prop. Qed.

(** ** Trailing zeros *)

Lemma strip_zeros_none f c e : (c mod 10 <> 0)%N -> strip_zeros f c e = (c, e).
Proof.
  intros H. destruct f; simpl; [reflexivity|].
  destruct (N.eqb_spec c 0); [reflexivity|]. now destruct (N.eqb_spec (c mod 10) 0).
Qed.

Lemma strip_zeros_pow f c e j : (c mod 10 <> 0)%N -> (j <= f)%nat ->
  strip_zeros f (c * 10 ^ N.of_nat j) e = (c, e + Z.of_nat j)%Z.
Proof.
  intros Hc. revert f e. induction j as [|j IH]; intros f e Hj.
  - cbn [N.of_nat Z.of_nat]. rewrite N.pow_0_r, N.mul_1_r, Z.add_0_r. apply strip_zeros_none, Hc.
  - destruct f as [|f]; [lia|]. rewrite Nat2N.inj_succ, N.pow_succ_r'. cbn [strip_zeros].
    assert (Hc0 : c <> 0%N) by (intros ->; apply Hc; reflexivity).
    assert (H10 : (10 ^ N.of_nat j <> 0)%N) by (apply N.pow_nonzero; lia).
    replace (c * (10 * 10 ^ N.of_nat j))%N with (c * 10 ^ N.of_nat j * 10)%N by lia.
    destruct (N.eqb_spec (c * 10 ^ N.of_nat j * 10) 0) as [E|_]; [nia|].
    rewrite N.Div0.mod_mul, N.div_mul by lia. cbn [N.eqb].
    rewrite IH by lia. f_equal. lia.
Qed.

(** ** Printing then reading a number *)

Lemma to_number_shift neg c e j fuel : (c mod 10 <> 0)%N -> (j <= fuel)%nat ->
  number_wf (mk_number neg c (e + Z.of_nat j)) = true ->
  to_number neg (c * 10 ^ N.of_nat j) e fuel = Some (mk_number neg c (e + Z.of_nat j)).
Proof.
  intros Hc Hj Hwf. unfold to_number.
  assert (Hc0 : c <> 0%N) by (intros ->; apply Hc; reflexivity).
  assert (H10 : (10 ^ N.of_nat j <> 0)%N) by (apply N.pow_nonzero; lia).
  destruct (N.eqb_spec (c * 10 ^ N.of_nat j) 0); [nia|].
  rewrite strip_zeros_pow by assumption. now rewrite Hwf.
Qed.

Lemma to_number_exact neg c e fuel : (c mod 10 <> 0)%N ->
  number_wf (mk_number neg c e) = true -> to_number neg c e fuel = Some (mk_number neg c e).
Proof.
  intros Hc Hwf. pose proof (to_number_shift neg c e 0 fuel Hc) as H.
  cbn [N.of_nat Z.of_nat] in H. rewrite N.pow_0_r, N.mul_1_r, Z.add_0_r in H. apply H; [lia | exact Hwf].
Qed.

Lemma int_digits_ok_intro d t : is_digit d = true -> d <> "0"%char -> all_digits t = true ->
  int_digits_ok (String d t) = true.
Proof. intros Hd H0 Ht. simpl. apply Ascii.eqb_neq in H0. now rewrite H0, Hd, Ht. Qed.

Lemma zeros_length m : String.length (zeros m) = m.
Proof. induction m; simpl; congruence. Qed.

Lemma int_digits_prefix a b d t : (a ++ b)%string = String d t -> a <> EmptyString ->
  is_digit d = true -> d <> "0"%char -> all_digits t = true -> int_digits_ok a = true.
Proof.
  destruct a as [|d' a]; [congruence|]. intros E _ Hd H0 Ht. injection E as <- <-.
  rewrite all_digits_app in Ht. apply andb_prop in Ht as [Ha _].
  now apply int_digits_ok_intro.
Qed.

(** Each of the four layouts of Number::toString reads back as the number
    it prints. *)
Section Layouts.
Variables (neg : bool) (c : N) (e : Z).
Hypothesis Hm : (c mod 10 <> 0)%N.
Hypothesis Hwf : number_wf (mk_number neg c e) = true.

Lemma digits_c : exists d t, digits_of c = String d t /\ is_digit d = true /\
  d <> "0"%char /\ all_digits t = true.
Proof.
  destruct (digits_of_spec c) as (Hall & _ & d & t & Hds & Hd0). exists d, t.
  rewrite Hds in Hall. cbn [all_digits] in Hall. apply andb_prop in Hall as [Hd Ht].
  repeat split; auto. apply Hd0. apply N.neq_0_lt_0. intros ->. apply Hm. reflexivity.
Qed.

Lemma number_of_digits i f e0 j : all_digits (i ++ f) = true ->
  digits_value (i ++ f) = (c * 10 ^ N.of_nat j)%N ->
  (e0 - Z.of_nat (String.length f) + Z.of_nat j = e)%Z -> (j <= String.length (i ++ f))%nat ->
  number_of neg i f e0 = Some (mk_number neg c e).
Proof.
  intros _ Hv He Hj. unfold number_of. rewrite Hv, <- He.
  apply to_number_shift; [exact Hm | exact Hj | now rewrite He].
Qed.

Let k := String.length (digits_of c).

Lemma layout_fixed : (0 <= e)%Z ->
  lexeme_ok (mk_lexeme neg (digits_of c ++ zeros (Z.to_nat e)) "" None) = true /\
  lexeme_number (mk_lexeme neg (digits_of c ++ zeros (Z.to_nat e)) "" None) = Some (mk_number neg c e).
Proof.
  intros He. destruct digits_c as (d & t & Hds & Hd & Hd0 & Ht).
  destruct (digits_of_spec c) as (Hall & Hval & _).
  destruct (zeros_digits (Z.to_nat e)) as [Hz0 Hz1].
  unfold lexeme_ok, lexeme_number; cbn [lx_int lx_frac lx_exp lx_neg]. split.
  - rewrite Hds. cbn [append]. rewrite int_digits_ok_intro; [reflexivity | exact Hd | exact Hd0 |].
    rewrite all_digits_app, Ht. exact Hz0.
  - apply (number_of_digits _ _ _ (Z.to_nat e)).
    + rewrite !all_digits_app, Hall, Hz0. reflexivity.
    + rewrite string_app_nil_r, digits_value_app, Hval, Hz1, N.add_0_r by assumption.
      now rewrite zeros_length.
    + cbn [String.length]. lia.
    + rewrite string_app_nil_r, string_length_app, zeros_length. lia.
Qed.


Lemma value_exact i f : (i ++ f)%string = digits_of c ->
  all_digits (i ++ f) = true /\ digits_value (i ++ f) = (c * 10 ^ N.of_nat 0)%N.
Proof.
  intros ->. destruct (digits_of_spec c) as (Hall & Hval & _).
  rewrite Hval. split; [exact Hall | cbn [N.of_nat]; lia].
Qed.

Lemma layout_point a b : split_at (Z.to_nat (e + Z.of_nat k)) (digits_of c) = (a, b) ->
  (0 < e + Z.of_nat k < Z.of_nat k)%Z ->
  lexeme_ok (mk_lexeme neg a b None) = true /\
  lexeme_number (mk_lexeme neg a b None) = Some (mk_number neg c e).
Proof.
  intros Hs Hn. destruct digits_c as (d & t & Hds & Hd & Hd0 & Ht).
  destruct (split_at_spec _ _ _ _ Hs) as [Hab Hla]. fold k in Hla.
  assert (Ha : a <> EmptyString) by (intros ->; simpl in Hla; lia).
  destruct (value_exact a b Hab) as [Hall Hval].
  unfold lexeme_ok, lexeme_number; cbn [lx_int lx_frac lx_exp lx_neg]. split.
  - rewrite (int_digits_prefix a b d t); [| congruence | exact Ha | exact Hd | exact Hd0 | exact Ht].
    rewrite all_digits_app in Hall. apply andb_prop in Hall as [_ ->]. reflexivity.
  - apply (number_of_digits _ _ _ 0); [exact Hall | exact Hval | | lia].
    assert (Hl : String.length a + String.length b = k)
      by (unfold k; rewrite <- Hab, string_length_app; reflexivity).
    lia.
Qed.

Lemma layout_small : (e + Z.of_nat k <= 0)%Z ->
  lexeme_ok (mk_lexeme neg "0" (zeros (Z.to_nat (- (e + Z.of_nat k))) ++ digits_of c) None) = true /\
  lexeme_number (mk_lexeme neg "0" (zeros (Z.to_nat (- (e + Z.of_nat k))) ++ digits_of c) None)
  = Some (mk_number neg c e).
Proof.
  intros Hn. set (m := Z.to_nat (- (e + Z.of_nat k))).
  destruct (digits_of_spec c) as (Hall & Hval & _). destruct (zeros_digits m) as [Hz0 Hz1].
  unfold lexeme_ok, lexeme_number; cbn [lx_int lx_frac lx_exp lx_neg]. split.
  - change (int_digits_ok "0") with true. now rewrite all_digits_app, Hz0, Hall.
  - apply (number_of_digits _ _ _ 0).
    + change ("0" ++ zeros m ++ digits_of c)%string with (zeros (S m) ++ digits_of c)%string.
      rewrite all_digits_app, Hall. now rewrite (proj1 (zeros_digits (S m))).
    + change ("0" ++ zeros m ++ digits_of c)%string with (zeros (S m) ++ digits_of c)%string.
      rewrite digits_value_app, (proj2 (zeros_digits (S m))), Hval by (apply zeros_digits || exact Hall).
      cbn [N.of_nat]. lia.
    + rewrite string_length_app, zeros_length. fold k. lia.
    + cbn [String.length]. lia.
Qed.

Lemma layout_exponent d t : digits_of c = String d t ->
  let ex := Some (negb (0 <=? e + Z.of_nat k - 1)%Z, digits_of (Z.abs_N (e + Z.of_nat k - 1))) in
  lexeme_ok (mk_lexeme neg (String d "") t ex) = true /\
  lexeme_number (mk_lexeme neg (String d "") t ex) = Some (mk_number neg c e).
Proof.
  intros Hds ex. destruct digits_c as (d' & t' & Hds' & Hd & Hd0 & Ht).
  rewrite Hds in Hds'. injection Hds' as <- <-.
  destruct (digits_of_spec (Z.abs_N (e + Z.of_nat k - 1))) as (Ea & Ev & d1 & t1 & Ed & _).
  destruct (value_exact (String d "") t (eq_sym Hds)) as [Hall Hval].
  unfold lexeme_ok, lexeme_number, ex; cbn [lx_int lx_frac lx_exp lx_neg]. split.
  - rewrite int_digits_ok_intro, Ht, Ea, Ed by (auto; reflexivity). reflexivity.
  - apply (number_of_digits _ _ _ 0); [exact Hall | exact Hval | | cbn [String.length]; lia].
    assert (Hl : k = S (String.length t)) by (unfold k; now rewrite Hds).
    unfold exponent_value. rewrite Ev.
    destruct (Z.leb_spec 0 (e + Z.of_nat k - 1)); cbn [negb]; rewrite N2Z.inj_abs_N; lia.
Qed.

End Layouts.

(** Every printable number prints as a lexeme of the JSON grammar whose
    value is the number again. *)
Lemma to_lexeme_spec x : number_printable x = true ->
  lexeme_ok (to_lexeme x) = true /\ lexeme_number (to_lexeme x) = Some x.
Proof.
  destruct x as [neg c e]. intros H. apply andb_prop in H as [Hwf Hneg].
  unfold to_lexeme, point, ndigits. cbn [num_neg num_coeff num_exp] in *. cbv zeta.
  destruct (N.eqb_spec c 0) as [->|Hc].
  - destruct neg; [discriminate|]. cbn [number_wf num_coeff num_exp N.eqb] in Hwf.
    apply Z.eqb_eq in Hwf as ->. split; reflexivity.
  - assert (Hm : (c mod 10 <> 0)%N).
    { unfold number_wf in Hwf. cbn [num_coeff] in Hwf. apply N.eqb_neq in Hc. rewrite Hc in Hwf.
      bool_to_prop. now apply N.eqb_neq. }
    destruct (digits_c neg c e Hm Hwf) as (d & t & Hds & _).
    set (k := String.length (digits_of c)).
    destruct (Z.leb_spec (Z.of_nat k) (e + Z.of_nat k)), (Z.leb_spec (e + Z.of_nat k) 21); cbn [andb].
    1: replace (e + Z.of_nat k - Z.of_nat k)%Z with e by lia; (apply layout_fixed; auto; lia).
    all: destruct (Z.ltb_spec 0 (e + Z.of_nat k)); cbn [andb]; try lia.
    all: try (destruct (split_at _ _) as [a b] eqn:Hs; apply (layout_point neg c e Hm Hwf a b Hs); lia).
    all: destruct (Z.ltb_spec (-6) (e + Z.of_nat k)), (Z.leb_spec (e + Z.of_nat k) 0); cbn [andb]; try lia.
    all: try (apply layout_small; auto).
    all: rewrite Hds; apply layout_exponent; auto.
Qed.




Lemma to_number_wf neg c e fuel x : to_number neg c e fuel = Some x -> number_wf x = true.
Proof.
  unfold to_number. destruct (N.eqb_spec c 0); [intros [= <-]; reflexivity|].
  destruct (strip_zeros fuel c e) as [c' e']. destruct (number_wf _) eqn:W; [|discriminate].
  intros [= <-]. exact W.
Qed.


(** A lexeme of the grammar starts with a minus sign or a digit. *)
Lemma lexeme_text_head l : lexeme_ok l = true ->
  exists c t, lexeme_text l = String c t /\ (Ascii.eqb c "-"%char || is_digit c) = true.
Proof.
  destruct l as [neg i f ex]. unfold lexeme_ok, lexeme_text. cbn [lx_neg lx_int lx_frac lx_exp].
  intros H. destruct neg; [eexists _, _; split; reflexivity|].
  destruct i as [|c t]; [discriminate|]. eexists c, _. split; [reflexivity|].
  cbn [int_digits_ok] in H. destruct (Ascii.eqb_spec c "0"%char) as [->|_]; [reflexivity|].
  bool_to_prop. now rewrite H, orb_true_r.
Qed.

End JsonNumber.
