(* ===== verification/Json.v ===== *)
(** * Json: the [JSON.stringify] / [JSON.parse] pair of the snapshot

    [TruekaApp] persists its entries with
    [localStorage.setItem('skills', JSON.stringify(skills))] (line 22) and
    reads them back with [JSON.parse(storedSkills)] (line 18).  This file
    models both library functions, following the ECMAScript algorithms
    (SerializeJSONProperty, QuoteJSONString, SerializeJSONArray,
    SerializeJSONObject, and the JSON grammar of [JSON.parse]), on the
    strings of the model (code units below [0x100]):
    - [json] is the JSON value of the program, objects as their member
      lists in property order;
    - [json_stringify] produces the text with no whitespace, the escapes of
      QuoteJSONString (short escapes, [\u00xx] in lowercase hex for the
      other control characters);
    - [parse_value] is a recursive-descent parser with fuel, [JSON_parse]
      runs it with fuel [1 + length s] and rejects trailing text; a
      [\uXXXX] escape above [0xFF] stops the model with [Unrepresentable].
    Numbers are the doubles of [JsonNumber]: [JSON.parse] reads a lexeme
    as its value ([number_of]), [JSON.stringify] prints it with
    Number::toString ([number_to_string]); a lexeme outside the domain of
    [JsonNumber] stops the model with [Unrepresentable].
    The theorems: the round trip on well-formed values (numbers
    included), the stability of one load and save cycle on any accepted
    text, the adequacy of the fuel, the rejection of malformed text, and
    that parsed objects never repeat a key and list their keys in
    enumeration order ([keys_enumerated] of [JsonObject]); the
    size lemmas of the printed text ([quote_body_length], [join_length])
    serve the snapshot bound. *)

From Stdlib Require Import String Ascii List Bool Arith Lia.
From Stdlib Require Import ZArith.
From S2P Require Import Prelude JsonObject JsonNumber.
Import ListNotations JsonObject JsonNumber.
Open Scope trueka_scope.

Module Json.

Local Unset Elimination Schemes.

Inductive json : Type :=
| JNull
| JBool (b : bool)
| JNumber (n : number)
| JString (s : string)
| JArray (l : list json)
| JObject (members : list (string * json)).

(** Induction on JSON values, with the hypothesis on every element of an
    array and every member value of an object. *)
Section json_ind_nested.
Variable P : json -> Prop.
Hypothesis H_null : P JNull.
Hypothesis H_bool : forall b, P (JBool b).
Hypothesis H_number : forall n, P (JNumber n).
Hypothesis H_string : forall s, P (JString s).
Hypothesis H_array : forall l, Forall P l -> P (JArray l).
Hypothesis H_object : forall m, Forall (fun kv => P (snd kv)) m -> P (JObject m).

Fixpoint json_ind_nested (v : json) : P v :=
  match v with
  | JNull => H_null
  | JBool b => H_bool b
  | JNumber n => H_number n
  | JString s => H_string s
  | JArray l =>
      H_array l ((fix go (l : list json) : Forall P l :=
                    match l with
                    | [] => Forall_nil _
                    | x :: xs => Forall_cons _ (json_ind_nested x) (go xs)
                    end) l)
  | JObject m =>
      H_object m ((fix go (m : list (string * json)) : Forall (fun kv => P (snd kv)) m :=
                     match m with
                     | [] => Forall_nil _
                     | kv :: m' => Forall_cons _ (json_ind_nested (snd kv)) (go m')
                     end) m)
  end.
End json_ind_nested.

Inductive json_error := SyntaxError | OutOfFuel | Unrepresentable.

(** ** Characters *)

Definition dquote : ascii := ascii_of_nat 34.
Definition bslash : ascii := ascii_of_nat 92.

Definition is_ws (c : ascii) : bool :=
  let n := nat_of_ascii c in (n =? 32) || (n =? 9) || (n =? 10) || (n =? 13).

(** Lowercase hexadecimal digit of [0 .. 15]. *)
Definition hex_char (n : nat) : ascii :=
  if n <? 10 then ascii_of_nat (48 + n) else ascii_of_nat (87 + n).

Definition hex_val (c : ascii) : option nat :=
  let n := nat_of_ascii c in
  if (48 <=? n) && (n <=? 57) then Some (n - 48)
  else if (97 <=? n) && (n <=? 102) then Some (n - 87)
  else if (65 <=? n) && (n <=? 70) then Some (n - 55)
  else None.

Definition hex4 (a b c d : ascii) : option nat :=
  match hex_val a, hex_val b, hex_val c, hex_val d with
  | Some x, Some y, Some z, Some w => Some (((x * 16 + y) * 16 + z) * 16 + w)
  | _, _, _, _ => None
  end.

(** ** JSON.stringify *)

(** QuoteJSONString, one code unit. *)
Definition escape_char (c : ascii) : string :=
  let n := nat_of_ascii c in
  if n =? 8 then String bslash "b"
  else if n =? 9 then String bslash "t"
  else if n =? 10 then String bslash "n"
  else if n =? 12 then String bslash "f"
  else if n =? 13 then String bslash "r"
  else if n =? 34 then String bslash (String dquote "")
  else if n =? 92 then String bslash (String bslash "")
  else if n <? 32 then
    String bslash (String "u" (String "0" (String "0"
      (String (hex_char (n / 16)) (String (hex_char (n mod 16)) "")))))
  else String c "".

Fixpoint quote_body (s : string) : string :=
  match s with
  | EmptyString => ""
  | String c s' => (escape_char c ++ quote_body s')%string
  end.

Definition quote_json_string (s : string) : string :=
  String dquote (quote_body s ++ String dquote "")%string.

(** [Array.prototype.join(sep)]. *)
Fixpoint join (sep : string) (l : list string) : string :=
  match l with
  | [] => ""
  | [x] => x
  | x :: l' => (x ++ sep ++ join sep l')%string
  end.

Fixpoint json_stringify (v : json) : string :=
  match v with
  | JNull => "null"
  | JBool true => "true"
  | JBool false => "false"
  | JNumber n => number_to_string n
  | JString s => quote_json_string s
  | JArray l => "[" ++ join "," (map json_stringify l) ++ "]"
  | JObject m =>
      "{" ++ join "," (map (fun kv => quote_json_string (fst kv) ++ ":" ++ json_stringify (snd kv)) m)
      ++ "}"
  end%string.

(** ** JSON.parse *)

Fixpoint skip_ws (s : string) : string :=
  match s with
  | EmptyString => EmptyString
  | String c s' => if is_ws c then skip_ws s' else s
  end.

(** [Some rest] when [s] is [p ++ rest]. *)
Fixpoint strip_prefix (p s : string) : option string :=
  match p, s with
  | EmptyString, _ => Some s
  | String a p', String b s' => if Ascii.eqb a b then strip_prefix p' s' else None
  | String _ _, EmptyString => None
  end.

(** The one-character escapes of the JSON grammar. *)
Definition simple_escape (e : ascii) : option ascii :=
  let n := nat_of_ascii e in
  if n =? 34 then Some dquote
  else if n =? 92 then Some bslash
  else if n =? 47 then Some "/"%char
  else if n =? 98 then Some (ascii_of_nat 8)
  else if n =? 102 then Some (ascii_of_nat 12)
  else if n =? 110 then Some (ascii_of_nat 10)
  else if n =? 114 then Some (ascii_of_nat 13)
  else if n =? 116 then Some (ascii_of_nat 9)
  else None.

(** The characters of a string literal after its opening quote, up to and
    including the closing quote. *)
Fixpoint parse_string_body (s : string) : result json_error (string * string) :=
  match s with
  | EmptyString => Err SyntaxError
  | String c s1 =>
      if Ascii.eqb c dquote then Ok (EmptyString, s1)
      else if Ascii.eqb c bslash then
        match s1 with
        | EmptyString => Err SyntaxError
        | String e s2 =>
            if Ascii.eqb e "u"%char then
              match s2 with
              | String h1 (String h2 (String h3 (String h4 s3))) =>
                  match hex4 h1 h2 h3 h4 with
                  | Some v =>
                      if v <? 256 then
                        let* '(t, r) := parse_string_body s3 in Ok (String (ascii_of_nat v) t, r)
                      else Err Unrepresentable
                  | None => Err SyntaxError
                  end
              | _ => Err SyntaxError
              end
            else
              match simple_escape e with
              | Some d => let* '(t, r) := parse_string_body s2 in Ok (String d t, r)
              | None => Err SyntaxError
              end
        end
      else if nat_of_ascii c <? 32 then Err SyntaxError
      else let* '(t, r) := parse_string_body s1 in Ok (String c t, r)
  end.

(** Number lexemes: [-? (0 | [1-9][0-9]* ) (. [0-9]+)? ([eE] [+-]? [0-9]+)?]. *)
Fixpoint span_digits (s : string) : string * string :=
  match s with
  | EmptyString => (EmptyString, EmptyString)
  | String c s' =>
      if is_digit c then let '(d, r) := span_digits s' in (String c d, r)
      else (EmptyString, s)
  end.

Definition parse_int (s : string) : result json_error (string * string) :=
  match s with
  | String c s' =>
      if Ascii.eqb c "0"%char then Ok ("0"%string, s')
      else if is_digit c then let '(d, r) := span_digits s' in Ok (String c d, r)
      else Err SyntaxError
  | EmptyString => Err SyntaxError
  end.

(** The digits after the point, if there is one. *)
Definition parse_frac (s : string) : result json_error (string * string) :=
  match s with
  | String c s' =>
      if Ascii.eqb c "."%char then
        match span_digits s' with
        | (EmptyString, _) => Err SyntaxError
        | (d, r) => Ok (d, r)
        end
      else Ok (EmptyString, s)
  | EmptyString => Ok (EmptyString, EmptyString)
  end.

(** The value of the exponent, [0] without one. *)
Definition parse_exp (s : string) : result json_error (Z * string) :=
  match s with
  | String c s' =>
      if Ascii.eqb c "e"%char || Ascii.eqb c "E"%char then
        let '(eneg, s2) :=
          match s' with
          | String d s'' =>
              if Ascii.eqb d "+"%char then (false, s'')
              else if Ascii.eqb d "-"%char then (true, s'')
              else (false, s')
          | EmptyString => (false, EmptyString)
          end in
        match span_digits s2 with
        | (EmptyString, _) => Err SyntaxError
        | (d, r) => Ok (exponent_value eneg d, r)
        end
      else Ok (0%Z, s)
  | EmptyString => Ok (0%Z, EmptyString)
  end.

(** A number: its lexeme, then its value. *)
Definition parse_number (s : string) : result json_error (number * string) :=
  let '(neg, s1) :=
    match s with
    | String c s' => if Ascii.eqb c "-"%char then (true, s') else (false, s)
    | EmptyString => (false, EmptyString)
    end in
  let* '(i, s2) := parse_int s1 in
  let* '(f, s3) := parse_frac s2 in
  let* '(e, s4) := parse_exp s3 in
  match number_of neg i f e with
  | Some x => Ok (x, s4)
  | None => Err Unrepresentable
  end.

Fixpoint parse_value (fuel : nat) (s : string) {struct fuel}
    : result json_error (json * string) :=
  match fuel with
  | O => Err OutOfFuel
  | S n =>
      match skip_ws s with
      | EmptyString => Err SyntaxError
      | String c s1 =>
          if Ascii.eqb c "n"%char then
            match strip_prefix "ull" s1 with Some r => Ok (JNull, r) | None => Err SyntaxError end
          else if Ascii.eqb c "t"%char then
            match strip_prefix "rue" s1 with Some r => Ok (JBool true, r) | None => Err SyntaxError end
          else if Ascii.eqb c "f"%char then
            match strip_prefix "alse" s1 with Some r => Ok (JBool false, r) | None => Err SyntaxError end
          else if Ascii.eqb c dquote then
            let* '(t, r) := parse_string_body s1 in Ok (JString t, r)
          else if Ascii.eqb c "["%char then
            match skip_ws s1 with
            | String d r => if Ascii.eqb d "]"%char then Ok (JArray [], r)
                            else let* '(v, r1) := parse_value n s1 in
                                 let* '(vs, r2) := parse_elements n r1 in
                                 Ok (JArray (v :: vs), r2)
            | EmptyString => Err SyntaxError
            end
          else if Ascii.eqb c "{"%char then
            match skip_ws s1 with
            | String d r => if Ascii.eqb d "}"%char then Ok (JObject [], r)
                            else let* '(kv, r1) := parse_member n s1 in
                                 let* '(kvs, r2) := parse_members n r1 in
                                 Ok (JObject (build_object (kv :: kvs)), r2)
            | EmptyString => Err SyntaxError
            end
          else if Ascii.eqb c "-"%char || is_digit c then
            let* '(x, r) := parse_number (String c s1) in Ok (JNumber x, r)
          else Err SyntaxError
      end
  end
(** After an array element: [, value ...] or the closing bracket. *)
with parse_elements (fuel : nat) (s : string) {struct fuel}
    : result json_error (list json * string) :=
  match fuel with
  | O => Err OutOfFuel
  | S n =>
      match skip_ws s with
      | String c r =>
          if Ascii.eqb c ","%char then
            let* '(v, r1) := parse_value n r in
            let* '(vs, r2) := parse_elements n r1 in
            Ok (v :: vs, r2)
          else if Ascii.eqb c "]"%char then Ok ([], r)
          else Err SyntaxError
      | EmptyString => Err SyntaxError
      end
  end
(** An object member [string : value]. *)
with parse_member (fuel : nat) (s : string) {struct fuel}
    : result json_error ((string * json) * string) :=
  match fuel with
  | O => Err OutOfFuel
  | S n =>
      match skip_ws s with
      | String c s1 =>
          if Ascii.eqb c dquote then
            let* '(k, r) := parse_string_body s1 in
            match skip_ws r with
            | String d r' =>
                if Ascii.eqb d ":"%char then
                  let* '(v, r2) := parse_value n r' in Ok ((k, v), r2)
                else Err SyntaxError
            | EmptyString => Err SyntaxError
            end
          else Err SyntaxError
      | EmptyString => Err SyntaxError
      end
  end
(** After an object member: [, member ...] or the closing brace. *)
with parse_members (fuel : nat) (s : string) {struct fuel}
    : result json_error (list (string * json) * string) :=
  match fuel with
  | O => Err OutOfFuel
  | S n =>
      match skip_ws s with
      | String c r =>
          if Ascii.eqb c ","%char then
            let* '(kv, r1) := parse_member n r in
            let* '(kvs, r2) := parse_members n r1 in
            Ok (kv :: kvs, r2)
          else if Ascii.eqb c "}"%char then Ok ([], r)
          else Err SyntaxError
      | EmptyString => Err SyntaxError
      end
  end.

(** [JSON.parse(text)]: one value, then only whitespace. *)
Definition JSON_parse (s : string) : result json_error json :=
  let* '(v, r) := parse_value (S (String.length s)) s in
  match skip_ws r with
  | EmptyString => Ok v
  | String _ _ => Err SyntaxError
  end.

(** ** Well-formed values

    The values [JSON_parse] gives back unchanged: numbers of the domain
    of [JsonNumber] other than minus zero (printed ["0"]), and objects
    as JavaScript has them: no repeated key (JSON.parse merges repeated
    keys) and the keys in enumeration order (array indices first). *)
Fixpoint json_wf (v : json) : bool :=
  match v with
  | JNull | JBool _ | JString _ => true
  | JNumber x => number_printable x
  | JArray l => forallb json_wf l
  | JObject m => nodup_strings (map fst m) && keys_ordered m && forallb (fun kv => json_wf (snd kv)) m
  end.

(** The values [JSON.parse] can build: every number in the domain of
    [JsonNumber], every object with distinct keys in enumeration order. *)
Fixpoint json_canonical (v : json) : bool :=
  match v with
  | JNumber x => number_wf x
  | JArray l => forallb json_canonical l
  | JObject m => nodup_strings (map fst m) && keys_ordered m && forallb (fun kv => json_canonical (snd kv)) m
  | _ => true
  end.

(** Objects with distinct keys in enumeration order, at any depth,
    stated with [keys_enumerated]. *)
Fixpoint json_enumerated (v : json) : bool :=
  match v with
  | JArray l => forallb json_enumerated l
  | JObject m => nodup_strings (map fst m) && keys_enumerated (map fst m) &&
                 forallb (fun kv => json_enumerated (snd kv)) m
  | _ => true
  end.

(** The value that [JSON.stringify] then [JSON.parse] make of a value:
    minus zero becomes zero, since both print as ["0"]. *)
Fixpoint json_norm (v : json) : json :=
  match v with
  | JNumber x => JNumber (if (num_coeff x =? 0)%N then mk_number false 0 0 else x)
  | JArray l => JArray (map json_norm l)
  | JObject m => JObject (map (fun kv => (fst kv, json_norm (snd kv))) m)
  | _ => v
  end.

(** The closing part of [join] after its first element. *)
Definition join_tail (sep close : string) (l : list string) : string :=
  fold_right (fun y acc => (sep ++ y ++ acc)%string) close l.

Definition member_str (kv : string * json) : string :=
  (quote_json_string (fst kv) ++ ":" ++ json_stringify (snd kv))%string.

(** Text that cannot continue a number: the end, or a character other
    than a digit, a point or an exponent mark. *)
Definition number_end (r : string) : bool :=
  match r with
  | EmptyString => true
  | String c _ => negb (is_digit c || Ascii.eqb c "."%char || Ascii.eqb c "e"%char || Ascii.eqb c "E"%char)
  end.

Definition digit_free (r : string) : bool :=
  match r with EmptyString => true | String c _ => negb (is_digit c) end.

Definition parses_back (v : json) : Prop :=
  forall n rest, number_end rest = true -> String.length (json_stringify v) < n ->
  parse_value n (json_stringify v ++ rest) = Ok (v, rest).

(** A parse step that does not run out of fuel and consumes input. *)
Definition consumes {A} (r : result json_error (A * string)) (s : string) : Prop :=
  r <> Err OutOfFuel /\ forall a t, r = Ok (a, t) -> String.length t < String.length s.

(** ** Lemmas on the printer and the parser *)

Lemma join_cons_close sep close x l :
  (join sep (x :: l) ++ close)%string = (x ++ join_tail sep close l)%string.
Proof.
  revert x. induction l as [|y l IH]; intros x; simpl; [reflexivity|].
  rewrite !string_app_assoc. f_equal. f_equal. apply IH.
Qed.

Lemma strip_prefix_app p r : strip_prefix p (p ++ r) = Some r.
Proof. induction p; simpl; [reflexivity|]. now rewrite Ascii.eqb_refl. Qed.

Lemma escape_char_parse c t :
  parse_string_body (escape_char c ++ t) =
  let* '(u, r) := parse_string_body t in Ok (String c u, r).
Proof. destruct c as [[] [] [] [] [] [] [] []]; reflexivity. Qed.

Lemma quote_body_parse s t :
  parse_string_body (quote_body s ++ String dquote t) = Ok (s, t).
Proof.
  induction s as [|c s IH]; [reflexivity|].
  simpl. now rewrite string_app_assoc, escape_char_parse, IH.
Qed.


Lemma skip_ws_head c t : is_ws c = false -> skip_ws (String c t) = String c t.
Proof. simpl. now intros ->. Qed.

(** *** Numbers *)

#[local] Arguments number_to_string : simpl never.
#[local] Arguments number_printable : simpl never.

(** Turns [number_end] or [digit_free] of a text into the tests its first
    character fails, and uses them in the goal. *)
Ltac use_number_end :=
  cbn [number_end digit_free negb] in *; bool_to_prop;
  repeat match goal with H : ?b = false |- context [?b] => rewrite H end;
  try reflexivity.

Lemma span_digits_app t r : all_digits t = true -> digit_free r = true ->
  span_digits (t ++ r)%string = (t, r).
Proof.
  intros Ht Hr. induction t as [|a t IH]; cbn [append].
  - destruct r as [|c r]; [reflexivity|]. cbn [span_digits]. use_number_end.
  - cbn [all_digits span_digits] in Ht |- *. apply andb_prop in Ht as [Ha Ht]. now rewrite Ha, IH.
Qed.

Lemma digit_free_exp ex rest : number_end rest = true -> digit_free (exp_text ex ++ rest)%string = true.
Proof.
  intros Hr. destruct ex as [[en ed]|]; [reflexivity|].
  destruct rest as [|c r]; [reflexivity|]. cbn [exp_text append]. use_number_end.
Qed.

Lemma digit_free_frac f ex rest : number_end rest = true ->
  digit_free (frac_text f ++ exp_text ex ++ rest)%string = true.
Proof. intros Hr. destruct f; [now apply digit_free_exp | reflexivity]. Qed.

Lemma parse_int_text i r : int_digits_ok i = true -> digit_free r = true ->
  parse_int (i ++ r)%string = Ok (i, r).
Proof.
  destruct i as [|c t]; [discriminate|]. cbn [int_digits_ok append parse_int].
  destruct (Ascii.eqb_spec c "0"%char) as [->|_].
  - intros Ht _. apply String.eqb_eq in Ht as ->. reflexivity.
  - intros H Hr. apply andb_prop in H as [Hd Ht]. now rewrite Hd, span_digits_app.
Qed.

Lemma parse_frac_text f ex rest : all_digits f = true -> number_end rest = true ->
  parse_frac (frac_text f ++ exp_text ex ++ rest)%string = Ok (f, (exp_text ex ++ rest)%string).
Proof.
  intros Hf Hr. destruct f as [|a f].
  - destruct ex as [[en ed]|]; [reflexivity|].
    destruct rest as [|c r]; [reflexivity|]. cbn [frac_text exp_text append parse_frac]. use_number_end.
  - cbn [frac_text append parse_frac].
    change (String a (f ++ ?r))%string with (String a f ++ r)%string.
    rewrite span_digits_app; [reflexivity | exact Hf |].
    now apply digit_free_exp.
Qed.

Lemma parse_exp_text ex rest :
  match ex with None => true | Some (_, ed) => negb (ed === "") && all_digits ed end = true ->
  number_end rest = true ->
  parse_exp (exp_text ex ++ rest)%string =
  Ok (match ex with None => 0%Z | Some (eneg, ed) => exponent_value eneg ed end, rest).
Proof.
  intros Hex Hr. destruct ex as [[en ed]|].
  - apply andb_prop in Hex as [Hne Hd].
    assert (Hs : span_digits (ed ++ rest)%string = (ed, rest))
      by (apply span_digits_app; [exact Hd | destruct rest; [reflexivity | use_number_end]]).
    destruct en; simpl; rewrite Hs; (destruct ed; [discriminate | reflexivity]).
  - destruct rest as [|c r]; [reflexivity|]. cbn [exp_text append parse_exp]. use_number_end.
Qed.

Lemma number_head_tests c : (Ascii.eqb c "-"%char || is_digit c) = true ->
  is_ws c = false /\ Ascii.eqb c "]"%char = false /\ Ascii.eqb c "}"%char = false.
Proof. destruct c as [[] [] [] [] [] [] [] []]; intros H; try discriminate H; repeat split. Qed.

Lemma parse_value_number n c s1 : (Ascii.eqb c "-"%char || is_digit c) = true ->
  parse_value (S n) (String c s1) = let* '(x, r) := parse_number (String c s1) in Ok (JNumber x, r).
Proof. destruct c as [[] [] [] [] [] [] [] []]; intros H; try discriminate H; reflexivity. Qed.

Lemma int_head_not_minus c t : int_digits_ok (String c t) = true -> Ascii.eqb c "-"%char = false.
Proof.
  intros H. apply Ascii.eqb_neq. intros ->. discriminate H.
Qed.

(** Reading the text of a lexeme of the grammar, followed by text that
    cannot continue it, gives its value. *)
Lemma parse_number_lexeme l rest : lexeme_ok l = true -> number_end rest = true ->
  parse_number (lexeme_text l ++ rest)%string =
  match lexeme_number l with Some x => Ok (x, rest) | None => Err Unrepresentable end.
Proof.
  destruct l as [neg i f ex]. unfold lexeme_ok, lexeme_text, lexeme_number.
  cbn [lx_neg lx_int lx_frac lx_exp]. intros H Hr. apply andb_prop in H as [H Hex].
  apply andb_prop in H as [Hi Hf].
  rewrite !string_app_assoc.
  pose proof (parse_int_text i _ Hi (digit_free_frac f ex rest Hr)) as Hi'.
  pose proof (parse_frac_text f ex rest Hf Hr) as Hf'.
  pose proof (parse_exp_text ex rest Hex Hr) as He'.
  destruct neg; unfold parse_number; cbn [append].
  - rewrite Ascii.eqb_refl. cbn beta iota. rewrite Hi'.
    cbn beta iota. rewrite Hf'. cbn beta iota. now rewrite He'.
  - destruct i as [|c t]; [discriminate|]. cbn [append].
    rewrite (int_head_not_minus c t Hi). cbn beta iota.
    change (String c (t ++ ?r))%string with (String c t ++ r)%string. rewrite Hi'.
    cbn beta iota. rewrite Hf'. cbn beta iota. now rewrite He'.
Qed.

Lemma number_text_head x : number_printable x = true ->
  exists c t, number_to_string x = String c t /\ (Ascii.eqb c "-"%char || is_digit c) = true.
Proof. intros H. apply lexeme_text_head, (to_lexeme_spec x H). Qed.

Lemma stringify_head v : json_wf v = true ->
  exists c t, json_stringify v = String c t /\ is_ws c = false /\ Ascii.eqb c "]"%char = false.
Proof.
  destruct v as [| [] | x | | |]; simpl; intros Hwf;
    try (eexists _, _; split; [reflexivity | auto]).
  destruct (number_text_head x Hwf) as (c & t & E & Hc). exists c, t.
  split; [exact E|]. apply number_head_tests in Hc as (? & ? & _). now split.
Qed.


Lemma number_end_elements l rest : number_end (join_tail "," "]" l ++ rest)%string = true.
Proof. destruct l; reflexivity. Qed.

Lemma number_end_members l rest : number_end (join_tail "," "}" l ++ rest)%string = true.
Proof. destruct l; reflexivity. Qed.

Lemma parse_elements_tail xs :
  Forall (fun v => json_wf v = true -> parses_back v) xs -> forallb json_wf xs = true ->
  forall n rest, String.length (join_tail "," "]" (map json_stringify xs)) <= n ->
  parse_elements n (join_tail "," "]" (map json_stringify xs) ++ rest) = Ok (xs, rest).
Proof.
  induction 1 as [|x xs Hx _ IH]; simpl; intros Hwf n rest Hn.
  - destruct n; [simpl in Hn; lia|]. reflexivity.
  - apply andb_prop in Hwf as [Hwx Hwxs].
    destruct n as [|m]; [simpl in Hn; lia|].
    rewrite string_length_app in Hn. simpl in Hn.
    simpl. rewrite string_app_assoc, Hx; [|exact Hwx | apply number_end_elements |].
    + simpl. rewrite IH; auto. lia.
    + assert (0 < String.length (join_tail "," "]" (map json_stringify xs)))
        by (destruct xs; simpl; lia). lia.
Qed.

Lemma parse_member_str kv :
  parses_back (snd kv) ->
  forall n rest, number_end rest = true -> String.length (member_str kv) < n ->
  parse_member n (member_str kv ++ rest) = Ok (kv, rest).
Proof.
  destruct kv as [k v]; unfold member_str, quote_json_string; simpl. intros Hv n rest Hr Hn.
  destruct n as [|m]; [lia|].
  rewrite string_length_app in Hn. simpl in Hn. rewrite string_length_app in Hn. simpl in Hn.
  simpl. rewrite !string_app_assoc. simpl. rewrite quote_body_parse. simpl.
  rewrite Hv by (assumption || lia). reflexivity.
Qed.

Lemma join_tail_cons sep close y l :
  join_tail sep close (y :: l) = (sep ++ y ++ join_tail sep close l)%string.
Proof. reflexivity. Qed.

Lemma parse_members_comma k s :
  parse_members (S k) (String ","%char s) =
  let* '(kv, r1) := parse_member k s in
  let* '(kvs, r2) := parse_members k r1 in Ok (kv :: kvs, r2).
Proof. reflexivity. Qed.

Lemma parse_members_tail (m : list (string * json)) :
  Forall (fun kv => parses_back (snd kv)) m ->
  forall n rest, String.length (join_tail "," "}" (map member_str m)) <= n ->
  parse_members n (join_tail "," "}" (map member_str m) ++ rest) = Ok (m, rest).
Proof.
  induction 1 as [|kv m Hkv _ IH]; intros n rest Hn.
  - destruct n; [simpl in Hn; lia|]. reflexivity.
  - destruct n as [|k]; [simpl in Hn; lia|].
    rewrite map_cons, join_tail_cons in *. rewrite !string_length_app in Hn.
    change (String.length ","%string) with 1 in Hn.
    assert (0 < String.length (join_tail "," "}" (map member_str m)))
      by (destruct m; simpl; lia).
    rewrite !string_app_assoc. cbn [append]. rewrite parse_members_comma.
    rewrite parse_member_str by (auto using number_end_members; lia).
    cbn beta iota. rewrite IH by lia. reflexivity.
Qed.

Lemma build_object_canonical_values members :
  forallb (fun kv => json_canonical (snd kv)) members = true ->
  json_canonical (JObject (build_object members)) = true.
Proof.
  intros H. rewrite forallb_forall, <- Forall_forall in H.
  destruct (build_object_wf (fun v => json_canonical v = true) members H) as (Hnd & Hord & Hall).
  simpl. rewrite (nodup_strings_complete _ Hnd), Hord. apply forallb_forall. now apply Forall_forall.
Qed.

Lemma string_cons_app c t r : String c (t ++ r) = (String c t ++ r)%string.
Proof. reflexivity. Qed.

Lemma parse_value_array_cons n c t :
  is_ws c = false -> Ascii.eqb c "]"%char = false ->
  parse_value (S n) (String "["%char (String c t)) =
  let* '(v, r1) := parse_value n (String c t) in
  let* '(vs, r2) := parse_elements n r1 in Ok (JArray (v :: vs), r2).
Proof. intros Hws Hc. simpl. now rewrite Hws, Hc. Qed.

Lemma parse_value_object_cons n c t :
  is_ws c = false -> Ascii.eqb c "}"%char = false ->
  parse_value (S n) (String "{"%char (String c t)) =
  let* '(kv, r1) := parse_member n (String c t) in
  let* '(kvs, r2) := parse_members n r1 in Ok (JObject (build_object (kv :: kvs)), r2).
Proof. intros Hws Hc. simpl. now rewrite Hws, Hc. Qed.

Lemma member_str_head kv :
  member_str kv = String dquote (quote_body (fst kv) ++ String dquote (":" ++ json_stringify (snd kv)))%string.
Proof. unfold member_str, quote_json_string. cbn [append]. now autorewrite with trueka_rw. Qed.

Lemma parse_value_stringify v : json_wf v = true -> parses_back v.
Proof.
  induction v as [| b | x | s | l IHl | m IHm] using json_ind_nested;
    simpl; intros Hwf n rest Hr Hn; try discriminate; destruct n as [|n]; try lia.
  - reflexivity.
  - destruct b; reflexivity.
  - destruct (to_lexeme_spec x Hwf) as [Hok Hnum].
    destruct (number_text_head x Hwf) as (c & t & E & Hc).
    cbn [json_stringify]. rewrite E. cbn [append]. rewrite parse_value_number by exact Hc.
    rewrite (string_cons_app c t), <- E. unfold number_to_string.
    rewrite parse_number_lexeme by assumption. now rewrite Hnum.
  - cbn [json_stringify quote_json_string append]. rewrite string_app_assoc. cbn [append].
    simpl. now rewrite quote_body_parse.
  - destruct l as [|x xs]; [reflexivity|].
    inversion IHl as [|? ? Hx Hxs]; subst. simpl in Hwf. apply andb_prop in Hwf as [Hwx Hwxs].
    cbn [json_stringify] in *.
    rewrite map_cons, join_cons_close in *. rewrite !string_length_app in Hn.
    change (String.length "["%string) with 1 in Hn.
    destruct (stringify_head x Hwx) as (c & t & Hct & Hws & Hbr).
    assert (0 < String.length (join_tail "," "]" (map json_stringify xs)))
      by (destruct xs; simpl; lia).
    cbn [append]. rewrite string_app_assoc, Hct. cbn [append].
    rewrite parse_value_array_cons by assumption.
    rewrite (string_cons_app c t), <- Hct, Hx by (auto using number_end_elements; lia).
    cbn beta iota.
    rewrite parse_elements_tail by (auto; lia). reflexivity.
  - apply andb_prop in Hwf as [Hnd Hwm].
    destruct m as [|kv m]; [reflexivity|].
    assert (Hb : Forall (fun kv => parses_back (snd kv)) (kv :: m)).
    { rewrite Forall_forall in IHm |- *. intros y Hy. apply IHm; auto.
      rewrite forallb_forall in Hwm. now apply Hwm. }
    inversion Hb as [|? ? Hkv Hm]; subst.
    cbn [json_stringify] in *.
    change (fun kv => quote_json_string (fst kv) ++ ":" ++ json_stringify (snd kv))%string
      with member_str in *.
    rewrite map_cons, join_cons_close in *. rewrite !string_length_app in Hn.
    change (String.length "{"%string) with 1 in Hn.
    assert (0 < String.length (join_tail "," "}" (map member_str m)))
      by (destruct m; simpl; lia).
    cbn [append]. rewrite string_app_assoc, member_str_head. cbn [append].
    rewrite parse_value_object_cons by reflexivity.
    rewrite (string_cons_app dquote), <- member_str_head, parse_member_str by (auto using number_end_members; lia).
    cbn beta iota. rewrite parse_members_tail by (auto; lia).
    apply andb_prop in Hnd as [Hnd Hord].
    rewrite build_object_canonical; [reflexivity | now apply nodup_strings_spec | exact Hord].
Qed.


Lemma JSON_parse_roundtrip (v : json) :
  json_wf v = true -> JSON_parse (json_stringify v) = Ok v.
Proof.
  intros Hwf. unfold JSON_parse.
  pose proof (parse_value_stringify v Hwf (S (String.length (json_stringify v))) ""%string eq_refl ltac:(lia)) as H.
  rewrite string_app_nil_r in H. now rewrite H.
Qed.

(** ** Fuel adequacy of [JSON_parse]

    [parse_value] and its three companions, given more fuel than the
    length of their input, do not run out of fuel and return a remainder
    strictly shorter than their input. *)

Lemma consumes_err {A} e s : e <> OutOfFuel -> @consumes A (Err e) s.
Proof. split; [congruence | discriminate]. Qed.

Lemma consumes_ok {A} (a : A) t s : String.length t < String.length s -> consumes (Ok (a, t)) s.
Proof. split; [discriminate | intros ? ? E; injection E as -> ->; exact H]. Qed.

Lemma consumes_bind {A B} (r : result json_error (A * string)) s' s
  (k : A -> string -> result json_error (B * string)) :
  String.length s' <= String.length s -> consumes r s' ->
  (forall a t, r = Ok (a, t) -> String.length t < String.length s' -> consumes (k a t) s) ->
  consumes (let* '(a, t) := r in k a t) s.
Proof.
  intros Hle [Hr Hlen] Hk. destruct r as [[a t]|e].
  - apply Hk; [reflexivity | apply (Hlen a t); reflexivity].
  - apply consumes_err. congruence.
Qed.

Lemma consumes_weaken {A} (r : result json_error (A * string)) s s' :
  String.length s <= String.length s' -> consumes r s -> consumes r s'.
Proof. intros Hle [H1 H2]. split; [exact H1|]. intros a t E. specialize (H2 a t E). lia. Qed.

Lemma skip_ws_length s : String.length (skip_ws s) <= String.length s.
Proof. induction s as [|c s IH]; simpl; [lia|]. destruct (is_ws c); simpl; lia. Qed.

Lemma strip_prefix_length p s r : strip_prefix p s = Some r -> String.length r <= String.length s.
Proof.
  revert s. induction p as [|a p IH]; intros s; destruct s as [|b s]; simpl; intros H;
    try discriminate.
  - injection H as <-. simpl. lia.
  - injection H as <-. simpl. lia.
  - destruct (Ascii.eqb a b); [apply IH in H; lia | discriminate].
Qed.

Lemma parse_string_body_consumes s : consumes (parse_string_body s) s.
Proof.
  induction s as [s IH] using (well_founded_induction
    (Wf_nat.well_founded_ltof _ String.length)).
  destruct s as [|c s1]; simpl; [now apply consumes_err|].
  assert (Hlt : forall t, String.length t <= String.length s1 -> Wf_nat.ltof _ String.length t (String c s1))
    by (unfold Wf_nat.ltof; simpl; intros; lia).
  destruct (Ascii.eqb c dquote); [apply consumes_ok; simpl; lia|].
  destruct (Ascii.eqb c bslash).
  - destruct s1 as [|e s2]; [now apply consumes_err|].
    destruct (Ascii.eqb e "u"%char).
    + destruct s2 as [|h1 [|h2 [|h3 [|h4 s3]]]]; try (now apply consumes_err).
      destruct (hex4 h1 h2 h3 h4) as [v|]; [|now apply consumes_err].
      destruct (v <? 256); [|now apply consumes_err].
      apply (consumes_bind _ s3); [simpl; lia | apply IH, Hlt; simpl; lia |].
      intros t r _ ?. apply consumes_ok. simpl in *. lia.
    + destruct (simple_escape e) as [d|]; [|now apply consumes_err].
      apply (consumes_bind _ s2); [simpl; lia | apply IH, Hlt; simpl; lia |].
      intros t r _ ?. apply consumes_ok. simpl in *. lia.
  - destruct (nat_of_ascii c <? 32); [now apply consumes_err|].
    apply (consumes_bind _ s1); [simpl; lia | apply IH, Hlt; simpl; lia |].
    intros t r _ ?. apply consumes_ok. simpl in *. lia.
Qed.

Lemma span_digits_length s d r : span_digits s = (d, r) -> String.length r <= String.length s.
Proof.
  revert d r. induction s as [|c s IH]; simpl; intros d r E.
  - injection E as <- <-. simpl. lia.
  - destruct (is_digit c).
    + destruct (span_digits s) as [d' r'] eqn:E'. injection E as <- <-. specialize (IH d' r' eq_refl). simpl. lia.
    + injection E as <- <-. simpl. lia.
Qed.

Lemma parse_number_consumes s : consumes (parse_number s) s.
Proof.
  assert (Hint : forall s, consumes (parse_int s) s).
  { intros [|c s']; simpl; [now apply consumes_err|].
    destruct (Ascii.eqb c "0"%char); [apply consumes_ok; simpl; lia|].
    destruct (is_digit c); [|now apply consumes_err].
    destruct (span_digits s') as [d r] eqn:E. apply span_digits_length in E.
    apply consumes_ok. simpl. lia. }
  assert (Hfrac : forall s, parse_frac s <> Err OutOfFuel /\
                  forall f t, parse_frac s = Ok (f, t) -> String.length t <= String.length s).
  { intros [|c s']; simpl; [split; [discriminate | intros ? ? [=<- <-]; simpl; lia]|].
    destruct (Ascii.eqb c "."%char).
    - destruct (span_digits s') as [[|d ds] r] eqn:E; [split; discriminate|].
      apply span_digits_length in E.
      split; [discriminate | intros ? ? [=<- <-]; simpl; lia].
    - split; [discriminate | intros ? ? [=<- <-]; simpl; lia]. }
  assert (Hexp : forall s, parse_exp s <> Err OutOfFuel /\
                 forall e t, parse_exp s = Ok (e, t) -> String.length t <= String.length s).
  { intros [|c s']; simpl; [split; [discriminate | intros ? ? [=<- <-]; simpl; lia]|].
    destruct (Ascii.eqb c "e"%char || Ascii.eqb c "E"%char).
    - destruct s' as [|d s'']; [split; discriminate|].
      destruct (if Ascii.eqb d "+"%char then (false, s'')
                else if Ascii.eqb d "-"%char then (true, s'') else (false, String d s''))
        as [eneg s2] eqn:Es.
      assert (Hs2 : String.length s2 <= String.length (String d s'')).
      { destruct (Ascii.eqb d "+"%char); [injection Es as _ <-; simpl; lia|].
        destruct (Ascii.eqb d "-"%char); injection Es as _ <-; simpl; lia. }
      destruct (span_digits s2) as [[|x xs] r] eqn:E; [split; discriminate|].
      apply span_digits_length in E.
      split; [discriminate | intros ? ? [=<- <-]; simpl in *; lia].
    - split; [discriminate | intros ? ? [=<- <-]; simpl; lia]. }
  unfold parse_number.
  destruct (match s with
            | String c s' => if Ascii.eqb c "-"%char then (true, s') else (false, s)
            | EmptyString => (false, EmptyString) end) as [sg s1] eqn:E1.
  assert (Hs1 : String.length s1 <= String.length s).
  { destruct s as [|c s']; [injection E1 as <- <-; simpl; lia|].
    destruct (Ascii.eqb c "-"%char); injection E1 as <- <-; simpl; lia. }
  apply (consumes_bind _ s1); [exact Hs1 | apply Hint |].
  intros i s2 _ Hs2.
  destruct (Hfrac s2) as [Hf1 Hf2]. destruct (parse_frac s2) as [[f s3]|e] eqn:Ef; [|apply consumes_err; congruence].
  specialize (Hf2 f s3 eq_refl).
  destruct (Hexp s3) as [He1 He2]. destruct (parse_exp s3) as [[e s4]|e] eqn:Ee; [|apply consumes_err; congruence].
  specialize (He2 e s4 eq_refl).
  destruct (number_of sg i f e); [apply consumes_ok; lia | apply consumes_err; discriminate].
Qed.

Lemma skip_ws_cons s c t : skip_ws s = String c t -> String.length (String c t) <= String.length s.
Proof. intros E. rewrite <- E. apply skip_ws_length. Qed.

Ltac consumes_step :=
  first
  [ apply consumes_err; discriminate
  | apply consumes_ok; simpl in *; lia ].

Lemma parse_consumes n : forall s, String.length s < n ->
  consumes (parse_value n s) s /\ consumes (parse_elements n s) s /\
  consumes (parse_member n s) s /\ consumes (parse_members n s) s.
Proof.
  induction n as [|m IH]; intros s Hs; [lia|].
  assert (IHv : forall t, String.length t < m -> consumes (parse_value m t) t) by (intros; apply IH; lia).
  assert (IHe : forall t, String.length t < m -> consumes (parse_elements m t) t) by (intros; apply IH; lia).
  assert (IHm : forall t, String.length t < m -> consumes (parse_member m t) t) by (intros; apply IH; lia).
  assert (IHms : forall t, String.length t < m -> consumes (parse_members m t) t) by (intros; apply IH; lia).
  cbn [parse_value parse_elements parse_member parse_members].
  destruct (skip_ws s) as [|c s1] eqn:Ews; [split; [|split; [|split]]; consumes_step|].
  pose proof (skip_ws_cons _ _ _ Ews) as Hle. simpl in Hle.
  split; [|split; [|split]]; apply (consumes_weaken _ (String c s1)); try exact Hle.
  - destruct (Ascii.eqb c "n"%char).
    { destruct (strip_prefix "ull" s1) eqn:E; [apply strip_prefix_length in E|]; consumes_step. }
    destruct (Ascii.eqb c "t"%char).
    { destruct (strip_prefix "rue" s1) eqn:E; [apply strip_prefix_length in E|]; consumes_step. }
    destruct (Ascii.eqb c "f"%char).
    { destruct (strip_prefix "alse" s1) eqn:E; [apply strip_prefix_length in E|]; consumes_step. }
    destruct (Ascii.eqb c dquote).
    { apply (consumes_bind _ s1); [simpl; lia | apply parse_string_body_consumes |].
      intros t r _ Hr. consumes_step. }
    destruct (Ascii.eqb c "["%char).
    { destruct (skip_ws s1) as [|d r] eqn:E2; [consumes_step|].
      pose proof (skip_ws_cons _ _ _ E2) as Hle2. simpl in Hle2.
      destruct (Ascii.eqb d "]"%char); [consumes_step|].
      apply (consumes_bind _ s1); [simpl; lia | apply IHv; lia |].
      intros v r1 _ Hr1. apply (consumes_bind _ r1); [simpl; lia | apply IHe; lia |].
      intros vs r2 _ Hr2. consumes_step. }
    destruct (Ascii.eqb c "{"%char).
    { destruct (skip_ws s1) as [|d r] eqn:E2; [consumes_step|].
      pose proof (skip_ws_cons _ _ _ E2) as Hle2. simpl in Hle2.
      destruct (Ascii.eqb d "}"%char); [consumes_step|].
      apply (consumes_bind _ s1); [simpl; lia | apply IHm; lia |].
      intros kv r1 _ Hr1. apply (consumes_bind _ r1); [simpl; lia | apply IHms; lia |].
      intros kvs r2 _ Hr2. consumes_step. }
    destruct (Ascii.eqb c "-"%char || is_digit c); [|consumes_step].
    apply (consumes_bind _ (String c s1)); [lia | apply parse_number_consumes |].
    intros lex r _ Hr. consumes_step.
  - destruct (Ascii.eqb c ","%char).
    + apply (consumes_bind _ s1); [simpl; lia | apply IHv; lia |].
      intros v r1 _ Hr1. apply (consumes_bind _ r1); [simpl; lia | apply IHe; lia |].
      intros vs r2 _ Hr2. consumes_step.
    + destruct (Ascii.eqb c "]"%char); consumes_step.
  - destruct (Ascii.eqb c dquote); [|consumes_step].
    apply (consumes_bind _ s1); [simpl; lia | apply parse_string_body_consumes |].
    intros k r _ Hr. destruct (skip_ws r) as [|d r'] eqn:E2; [consumes_step|].
    pose proof (skip_ws_cons _ _ _ E2) as Hle2. simpl in Hle2.
    destruct (Ascii.eqb d ":"%char); [|consumes_step].
    apply (consumes_bind _ r'); [simpl; lia | apply IHv; lia |].
    intros v r2 _ Hr2. consumes_step.
  - destruct (Ascii.eqb c ","%char).
    + apply (consumes_bind _ s1); [simpl; lia | apply IHm; lia |].
      intros kv r1 _ Hr1. apply (consumes_bind _ r1); [simpl; lia | apply IHms; lia |].
      intros kvs r2 _ Hr2. consumes_step.
    + destruct (Ascii.eqb c "}"%char); consumes_step.
Qed.

(** Inverts a successful run of the parser down to the calls it made. *)
Ltac ok_inv :=
  repeat match goal with
  | H : Err _ = Ok _ |- _ => discriminate H
  | H : Ok _ = Ok _ |- _ => injection H as <- <-
  | H : Ok _ = Ok _ |- _ => injection H as <-
  | H : (if ?b then _ else _) = Ok _ |- _ => destruct b
  | H : match ?x with _ => _ end = Ok _ |- _ => destruct x eqn:?
  end.

Lemma parse_number_wf s x r : parse_number s = Ok (x, r) -> number_wf x = true.
Proof.
  unfold parse_number. intros E. ok_inv. unfold number_of in *. eapply to_number_wf; eassumption.
Qed.

(** Every value the parser builds is canonical. *)
Lemma parse_canonical n : forall s,
  (forall v r, parse_value n s = Ok (v, r) -> json_canonical v = true) /\
  (forall vs r, parse_elements n s = Ok (vs, r) -> forallb json_canonical vs = true) /\
  (forall kv r, parse_member n s = Ok (kv, r) -> json_canonical (snd kv) = true) /\
  (forall kvs r, parse_members n s = Ok (kvs, r) -> forallb (fun kv => json_canonical (snd kv)) kvs = true).
Proof.
  induction n as [|n IH]; intros s; [repeat split; discriminate|].
  cbn [parse_value parse_elements parse_member parse_members].
  split; [|split; [|split]]; intros x r E; ok_inv; try reflexivity;
    try apply build_object_canonical_values; simpl;
    repeat match goal with
    | |- _ && _ = true => apply andb_true_intro; split
    | H : parse_value n _ = Ok _ |- json_canonical _ = true => exact (proj1 (IH _) _ _ H)
    | H : parse_elements n _ = Ok _ |- forallb _ _ = true => exact (proj1 (proj2 (IH _)) _ _ H)
    | H : parse_member n _ = Ok _ |- json_canonical _ = true => exact (proj1 (proj2 (proj2 (IH _))) _ _ H)
    | H : parse_members n _ = Ok _ |- forallb _ _ = true => exact (proj2 (proj2 (proj2 (IH _))) _ _ H)
    | H : parse_number _ = Ok (?x, _) |- number_wf ?x = true => exact (parse_number_wf _ _ _ H)
    end.
Qed.

(** ** The values of a load and save cycle *)

Lemma parsed_canonical s v : JSON_parse s = Ok v -> json_canonical v = true.
Proof.
  unfold JSON_parse. intros E. ok_inv. exact (proj1 (parse_canonical _ s) _ _ Heqr).
Qed.

Lemma json_norm_wf v : json_canonical v = true -> json_wf (json_norm v) = true.
Proof.
  induction v as [| b | x | s | l IHl | m IHm] using json_ind_nested;
    cbn [json_canonical json_norm json_wf]; intros H; try reflexivity.
  - destruct (N.eqb_spec (num_coeff x) 0) as [E|E]; [reflexivity|].
    unfold number_printable. rewrite H, (proj2 (N.eqb_neq _ _) E), andb_false_r. reflexivity.
  - apply forallb_forall. intros y Hy. apply in_map_iff in Hy as (z & <- & Hz).
    rewrite Forall_forall in IHl. rewrite forallb_forall in H. auto.
  - bool_to_prop. rewrite (keys_map (fun kv => (fst kv, json_norm (snd kv))) (fun _ => eq_refl)),
      (keys_ordered_map (fun kv => (fst kv, json_norm (snd kv))) (fun _ => eq_refl)), H, H1.
    apply forallb_forall. intros y Hy. apply in_map_iff in Hy as (z & <- & Hz).
    rewrite Forall_forall in IHm. rewrite forallb_forall in H0. cbn [snd]. auto.
Qed.

Lemma stringify_norm v : json_stringify (json_norm v) = json_stringify v.
Proof.
  induction v as [| b | x | s | l IHl | m IHm] using json_ind_nested;
    cbn [json_stringify json_norm]; try reflexivity.
  - destruct (N.eqb_spec (num_coeff x) 0) as [E|E]; [|reflexivity].
    unfold number_to_string, to_lexeme. cbn [num_coeff]. now rewrite E.
  - rewrite map_map. do 3 f_equal. now apply map_ext_Forall.
  - rewrite map_map. do 3 f_equal. apply map_ext_Forall.
    rewrite Forall_forall in IHm |- *. intros kv Hkv. cbn [fst snd]. now rewrite IHm.
Qed.

(** ** Sizes of the printed text *)

Lemma escape_char_length c : 1 <= String.length (escape_char c) <= 6.
Proof.
  unfold escape_char.
  repeat match goal with |- context [if ?b then _ else _] => destruct b end; simpl; lia.
Qed.

(** Each code unit is printed as one to six code units. *)
Lemma quote_body_length s :
  String.length s <= String.length (quote_body s) <= 6 * String.length s.
Proof.
  induction s as [|c s IH]; simpl; [lia|].
  rewrite string_length_app. pose proof (escape_char_length c). lia.
Qed.


Lemma join_length sep l :
  list_sum (map String.length l) <= String.length (join sep l) <=
  list_sum (map (fun x => String.length sep + String.length x) l).
Proof.
  induction l as [|x l IH]; [simpl; lia|].
  destruct l as [|y l]; [simpl; lia|].
  change (join sep (x :: y :: l)) with (x ++ sep ++ join sep (y :: l))%string.
  rewrite !string_length_app. simpl map in *. simpl list_sum in *. lia.
Qed.

(** ** Properties *)

Local Open Scope string_scope.

(** C13: Round trip of the snapshot codec: [JSON.parse] gives back every
    well-formed value (numbers of the domain of [JsonNumber] but minus
    zero; objects with distinct keys in enumeration order) from the text
    [JSON.stringify] makes of it, whatever its strings hold (quotes,
    backslashes, control characters) and whichever of the layouts of
    Number::toString its numbers print in. *)
Theorem JSON_parse_stringify (v : json) :
  json_wf v = true -> JSON_parse (json_stringify v) = Ok v.
Proof. apply JSON_parse_roundtrip. Qed.

(** C13 witness: an array holding an object with an escaped string, and
    the numbers [-1.5], [2.5e+25] and [3e-7]. *)
Lemma JSON_parse_stringify_witness :
  let v := JArray [JObject [("name", JString (String dquote (String (ascii_of_nat 10) "a")));
                            ("user", JNull)]; JBool true;
                   JNumber (mk_number true 15 (-1)); JNumber (mk_number false 25 24);
                   JNumber (mk_number false 3 (-7))] in
  json_wf v = true /\ JSON_parse (json_stringify v) = Ok v.
Proof. intros v. split; [reflexivity | apply JSON_parse_stringify; reflexivity]. Defined.

(** [JSON.parse] rejects text that is not one JSON value: an
    unterminated array, a trailing comma, an unquoted key, a leading zero,
    trailing text. *)
Example JSON_parse_rejects :
  JSON_parse "[" = Err SyntaxError /\ JSON_parse "[1,]" = Err SyntaxError /\
  JSON_parse "{name:1}" = Err SyntaxError /\ JSON_parse "[01]" = Err SyntaxError /\
  JSON_parse "[] x" = Err SyntaxError.
Proof. vm_compute. repeat split. Qed.


(** C14: [JSON_parse] never runs out of fuel: the fuel [1 + length s] it
    is given is enough for every text, so each of its results is a value
    or a [SyntaxError] (or the model's [Unrepresentable]) and never an
    artefact of the bound. *)
Theorem JSON_parse_total (s : string) : JSON_parse s <> Err OutOfFuel.
Proof.
  unfold JSON_parse. destruct (proj1 (parse_consumes (S (String.length s)) s ltac:(lia))) as [H _].
  destruct (parse_value (S (String.length s)) s) as [[v r]|e]; [|congruence].
  destruct (skip_ws r); discriminate.
Qed.


(** C15: Every object [JSON.parse] returns, at any depth, has distinct
    keys (a key met twice keeps its first position and takes the last
    value) and lists them in enumeration order, stated on the keys alone:
    no array-index key comes after a key that is not one, and array-index
    keys come in ascending numeric order.  So the objects the load effect
    reads have each of [name], [user] and [type] at most once, in the
    order [JSON.stringify] will print them back. *)
Theorem JSON_parse_objects_enumerated (s : string) (v : json) :
  JSON_parse s = Ok v -> json_enumerated v = true.
Proof.
  intros E. apply parsed_canonical in E. revert E.
  induction v as [| | | | l IHl | m IHm] using json_ind_nested;
    cbn [json_canonical json_enumerated]; intros H; try reflexivity.
  - rewrite Forall_forall in IHl. rewrite forallb_forall in H |- *. auto.
  - apply andb_prop in H as [H Hm]. apply andb_prop in H as [Hnd Hord].
    rewrite Hnd, (keys_ordered_enumerated m Hord). cbn [andb].
    rewrite Forall_forall in IHm. rewrite forallb_forall in Hm |- *. auto.
Qed.

(** C15 witness: a text repeating the key [name], with the array-index
    keys ["10"] and ["2"], which come first and in numeric order. *)
Lemma JSON_parse_objects_enumerated_witness :
  let t := ("{" ++ quote_json_string "name" ++ ":" ++ quote_json_string "a" ++ "," ++ quote_json_string "10" ++ ":" ++ quote_json_string "x" ++ ","
        ++ quote_json_string "user" ++ ":" ++ quote_json_string "b" ++ "," ++ quote_json_string "2" ++ ":" ++ quote_json_string "y" ++ ","
        ++ quote_json_string "name" ++ ":" ++ quote_json_string "c" ++ "}") in
  JSON_parse t = Ok (JObject [("2", JString "y"); ("10", JString "x"); ("name", JString "c"); ("user", JString "b")]) /\
  json_enumerated (JObject [("2", JString "y"); ("10", JString "x"); ("name", JString "c"); ("user", JString "b")]) = true.
Proof.
  intros t. assert (E : JSON_parse t = Ok (JObject [("2", JString "y"); ("10", JString "x"); ("name", JString "c"); ("user", JString "b")])) by reflexivity.
  split; [exact E | exact (JSON_parse_objects_enumerated _ _ E)].
Defined.

(** C16: One load and save cycle makes the text stable: for every text
    [s] that [JSON.parse] accepts, [JSON.parse] reads back
    [JSON.stringify(JSON.parse(s))] as the parsed value up to minus zero
    (which prints as ["0"]), and printing that value again gives the same
    text.  Whitespace, number spellings ([1.50], [1E2]), repeated keys and
    key order are all settled by the first cycle. *)
Theorem JSON_parse_stable (s : string) (v : json) :
  JSON_parse s = Ok v ->
  JSON_parse (json_stringify v) = Ok (json_norm v) /\ json_stringify (json_norm v) = json_stringify v.
Proof.
  intros E. rewrite <- stringify_norm. split; [|reflexivity].
  apply JSON_parse_roundtrip, json_norm_wf, (parsed_canonical s), E.
Qed.

(** C16 witness: numbers spelled [1.50], [-0], [1E2] and [0.0000001]
    print as [1.5], [0], [100] and [1e-7]. *)
Lemma JSON_parse_stable_witness :
  let v := JArray [JNumber (mk_number false 15 (-1)); JNumber (mk_number true 0 0);
                   JNumber (mk_number false 1 2); JNumber (mk_number false 1 (-7))] in
  JSON_parse "[ 1.50 , -0, 1E2, 0.0000001 ]" = Ok v /\ json_stringify v = "[1.5,0,100,1e-7]" /\
  JSON_parse (json_stringify v) = Ok (json_norm v) /\ json_stringify (json_norm v) = json_stringify v.
Proof.
  intros v. assert (E : JSON_parse "[ 1.50 , -0, 1E2, 0.0000001 ]" = Ok v) by reflexivity.
  split; [exact E|]. split; [reflexivity|]. exact (JSON_parse_stable _ _ E).
Defined.

End Json.
