(* ===== verification/SkillCodec.v ===== *)
(** * SkillCodec: the snapshot of the [skills] array

    The snapshot under the key ['skills'] is [JSON.stringify(skills)]
    (line 22): an array of objects whose properties are, in order, [name],
    [user] and [type] (the order of the object literal of line 13, kept by
    the spreads of lines 71, 80 and 88).  Reading it back (line 18) gives
    whatever JSON value the text holds; the component then uses it as its
    [skills] array.  [skills_of_json] says what that value is for the
    model: an array of such objects, an array holding something else
    (outside the model), or not an array at all (the next render calls
    [skills.filter] on it and throws).  The theorems: the round trip of
    the snapshot, its injectivity, and the bounds on its size. *)

From Stdlib Require Import String Ascii List Bool Lia.
From S2P Require Import Prelude Skill Json.
Import ListNotations Json.
Open Scope trueka_scope.

Module SkillCodec.

(** The object [{ name, user, type }] as a JSON value. *)
Definition skill_to_json (s : skill) : json :=
  JObject [("name"%string, JString (name s)); ("user"%string, JString (user s));
           ("type"%string, JString (type s))].

(** [JSON.stringify(skills)] *)
Definition stringify_skills (skills : list skill) : string :=
  json_stringify (JArray (map skill_to_json skills)).

Definition skill_of_json (v : json) : option skill :=
  match v with
  | JObject [(k1, JString n); (k2, JString u); (k3, JString t)] =>
      if (k1 === "name") && (k2 === "user") && (k3 === "type")
      then Some (mk_skill n u t) else None
  | _ => None
  end.

Fixpoint skills_of_list (l : list json) : option (list skill) :=
  match l with
  | [] => Some []
  | v :: l' =>
      match skill_of_json v, skills_of_list l' with
      | Some s, Some ss => Some (s :: ss)
      | _, _ => None
      end
  end.

(** How reading a snapshot can go wrong. *)
Inductive load_error :=
| ParseFailed (e : json_error)   (** [JSON.parse] throws, or the model stops *)
| NotAnArray                     (** the value has no [filter] method *)
| UnmodelledEntry.               (** an array element is not a skill object *)

Definition skills_of_json (v : json) : result load_error (list skill) :=
  match v with
  | JArray l => match skills_of_list l with Some ss => Ok ss | None => Err UnmodelledEntry end
  | _ => Err NotAnArray
  end.

(** [JSON.parse(storedSkills)] read as the [skills] array. *)
Definition parse_skills (stored : string) : result load_error (list skill) :=
  match JSON_parse stored with
  | Ok v => skills_of_json v
  | Err e => Err (ParseFailed e)
  end.

(** The number of code units of the three fields of an entry. *)
Definition fields_length (s : skill) : nat :=
  String.length (name s) + String.length (user s) + String.length (type s).

(** ** Helper lemmas *)

Lemma skill_of_to_json s : skill_of_json (skill_to_json s) = Some s.
Proof. destruct s; reflexivity. Qed.

Lemma skills_of_list_map l : skills_of_list (map skill_to_json l) = Some l.
Proof. induction l as [|s l IH]; cbn [skills_of_list map]; [reflexivity|]. now rewrite skill_of_to_json, IH. Qed.

Lemma skills_json_wf l : json_wf (JArray (map skill_to_json l)) = true.
Proof. induction l as [|s l IH]; simpl in *; [reflexivity|]. exact IH. Qed.

Lemma parse_skills_roundtrip (skills : list skill) :
  parse_skills (stringify_skills skills) = Ok skills.
Proof.
  unfold parse_skills, stringify_skills.
  rewrite JSON_parse_roundtrip by apply skills_json_wf.
  simpl. now rewrite skills_of_list_map.
Qed.

(** One entry prints as [{"name":...,"user":...,"type":...}]: 25 code
    units of keys and punctuation around its three quoted fields. *)
Lemma skill_json_length s :
  String.length (json_stringify (skill_to_json s)) =
  31 + String.length (quote_body (name s)) + String.length (quote_body (user s))
     + String.length (quote_body (type s)).
Proof.
  destruct s as [n u t]. repeat progress (simpl; rewrite ?string_length_app). lia.
Qed.

Lemma skill_json_length_bounds s :
  31 + fields_length s <= String.length (json_stringify (skill_to_json s)) <= 31 + 6 * fields_length s.
Proof.
  rewrite skill_json_length. unfold fields_length.
  pose proof (quote_body_length (name s)). pose proof (quote_body_length (user s)).
  pose proof (quote_body_length (type s)). lia.
Qed.

(** ** Properties *)

(** C12: Round trip of the snapshot: reading back the text that
    [JSON.stringify] makes of any list of entries gives the same entries
    in the same order. *)
Theorem parse_skills_stringify (skills : list skill) :
  parse_skills (stringify_skills skills) = Ok skills.
Proof. apply parse_skills_roundtrip. Qed.

(** Two lists of entries with the same snapshot are equal: the
    snapshot loses nothing. *)
Theorem stringify_skills_injective (l1 l2 : list skill) :
  stringify_skills l1 = stringify_skills l2 -> l1 = l2.
Proof.
  intros H. assert (E : parse_skills (stringify_skills l1) = parse_skills (stringify_skills l2))
    by now rewrite H.
  rewrite !parse_skills_roundtrip in E. congruence.
Qed.

(** C31: Size of the snapshot: the text saved under ['skills'] has at
    least 31 code units per entry plus its fields, and at most 32 plus six
    times its fields (a control character is printed as a six-unit
    [\u00XX] escape), plus the two brackets.  The snapshot grows
    linearly with the list and never more than sixfold its content. *)
Theorem stringify_skills_length (l : list skill) :
  2 + list_sum (map (fun s => 31 + fields_length s) l) <= String.length (stringify_skills l) <=
  2 + list_sum (map (fun s => 32 + 6 * fields_length s) l).
Proof.
  change (stringify_skills l) with ("[" ++ join "," (map json_stringify (map skill_to_json l)) ++ "]")%string.
  rewrite !string_length_app. change (String.length "[") with 1. change (String.length "]") with 1.
  rewrite map_map.
  destruct (join_length "," (map (fun s => json_stringify (skill_to_json s)) l)) as [Hlo Hhi].
  rewrite map_map in Hlo, Hhi. change (String.length ",") with 1 in Hhi.
  pose proof (list_sum_map_le (fun s => 31 + fields_length s)
                (fun s => String.length (json_stringify (skill_to_json s))) l
                (fun s _ => proj1 (skill_json_length_bounds s))).
  pose proof (list_sum_map_le (fun s => 1 + String.length (json_stringify (skill_to_json s)))
                (fun s => 32 + 6 * fields_length s) l
                (fun s _ => le_n_S _ _ (proj2 (skill_json_length_bounds s)))).
  lia.
Qed.

End SkillCodec.
