(* ===== verification/Storage.v ===== *)
(** * Storage: the [localStorage] interface

    The component uses [localStorage.getItem('skills')] (line 17), which
    returns [null] for a missing key, and
    [localStorage.setItem('skills', text)] (line 22), which overwrites
    the key.  [KVStore] is that interface and [KVStoreLaws] what the
    component relies on (a write is read back, other keys are untouched).
    The component's theorems are proved against the laws; the instance on
    stdpp's [gmap string string] discharges them and is the store the
    concrete runs use. *)

From stdpp Require Import base gmap strings.

Class KVStore (M : Type) := {
  getItem : M -> string -> option string;
  setItem : M -> string -> string -> M
}.

Class KVStoreLaws (M : Type) `{KVStore M} := {
  getItem_setItem_eq : forall m k v, getItem (setItem m k v) k = Some v;
  getItem_setItem_ne : forall m k k' v, k <> k' -> getItem (setItem m k v) k' = getItem m k'
}.

(** [localStorage] as a finite map from keys to texts. *)
#[export] Instance gmap_kvstore : KVStore (gmap string string) := {
  getItem m k := m !! k;
  setItem m k v := <[k := v]> m
}.

(** An empty store (first visit) and a store holding one key. *)
Definition empty_storage : gmap string string := ∅.
Definition storage_with (k v : string) : gmap string string := {[k := v]}.

#[export] Instance gmap_kvstore_laws : KVStoreLaws (gmap string string).
Proof.
  split; simpl.
  - intros m k v. apply lookup_insert_eq.
  - intros m k k' v Hne. by apply lookup_insert_ne.
Qed.

