(* ===== verification/App.v ===== *)
(** * App: the [TruekaApp] component

    The component ([src/src/App.jsx], lines 11-151) keeps three pieces of
    React state ([skills], [newSkill], [filterType], lines 12-14), two
    effects (load the snapshot on mount, lines 16-19; save it whenever
    [skills] changes, lines 21-23) and the handlers of the form (lines 68-
    117, [handleAddSkill] lines 25-30).

    The model follows React's commit order: a handler computes the next
    state; the render that follows runs the save effect when [skills] is a
    new array, which is exactly when [setSkills] was called (every call
    passes a fresh array).  One event is handled per render, so the
    closures of a handler see the current state.  The mount runs the two
    effects of the first commit in declaration order with [skills = []],
    then the render of the loaded list and its save effect.

    The store is any [KVStore] satisfying [KVStoreLaws].  The file also
    holds the spec's SkillStore as an abstract machine ([store_step]) with
    the refinement theorem, and two tabs sharing one store. *)

From Stdlib Require Import String List Bool Arith Lia.
From S2P Require Import Prelude Skill FilterView MatchEngine Json SkillCodec Storage.
Import ListNotations SkillCodec.
Open Scope trueka_scope.

Module App.

(** The three [useState] hooks. *)
Record app_state := mk_state
  { skills : list skill; newSkill : skill; filterType : string }.

(** [useState([])], [useState({ name: '', user: '', type: 'ofrece' })],
    [useState('todos')]. *)
Definition initial_state : app_state :=
  {| skills := []; newSkill := initial_new_skill; filterType := filter_todos |}.

(** The key of the snapshot. *)
Definition skills_key : string := "skills".

(** The events the page can deliver. *)
Inductive event :=
| EditName (v : string)   (** [Input] "Habilidad", line 71 *)
| EditUser (v : string)   (** [Input] "Tu nombre", line 80 *)
| EditType (v : string)   (** [Select] "Tipo", line 88 *)
| SetFilter (v : string)  (** [Select] "Filtrar por tipo", line 107 *)
| ClickAdd.               (** [Button] "Agregar habilidad", line 100 *)

(** The values a [Select] can report: its [SelectItem]s. *)
Definition ui_event_ok (ev : event) : bool :=
  match ev with
  | EditType v => known_kind v
  | SetFilter v => (v === filter_todos) || known_kind v
  | _ => true
  end.

(** [setNewSkill({ ...newSkill, name: e.target.value })] and its siblings. *)
Definition with_name (s : skill) (v : string) : skill := mk_skill v (user s) (type s).
Definition with_user (s : skill) (v : string) : skill := mk_skill (name s) v (type s).
Definition with_type (s : skill) (v : string) : skill := mk_skill (name s) (user s) v.

(** [handleAddSkill]: the next state, and whether [setSkills] was called. *)
Definition handleAddSkill (st : app_state) : app_state * bool :=
  if skill_submittable (newSkill st) then
    ({| skills := skills st ++ [newSkill st]; newSkill := initial_new_skill;
        filterType := filterType st |}, true)
  else (st, false).

Definition handle (ev : event) (st : app_state) : app_state * bool :=
  match ev with
  | EditName v => (mk_state (skills st) (with_name (newSkill st) v) (filterType st), false)
  | EditUser v => (mk_state (skills st) (with_user (newSkill st) v) (filterType st), false)
  | EditType v => (mk_state (skills st) (with_type (newSkill st) v) (filterType st), false)
  | SetFilter v => (mk_state (skills st) (newSkill st) v, false)
  | ClickAdd => handleAddSkill st
  end.

Section WithStore.
Context {M : Type} `{KVStoreLaws M}.

(** The page: the component state and the browser's store. *)
Record world := mk_world { app : app_state; storage : M }.

(** The save effect: [localStorage.setItem('skills', JSON.stringify(skills))]. *)
Definition persist (l : list skill) (m : M) : M :=
  setItem m skills_key (stringify_skills l).

(** The load effect: [Ok (Some l)] when it calls [setSkills(l)],
    [Ok None] when the key is missing or holds the empty string. *)
Definition load_effect (m : M) : result load_error (option (list skill)) :=
  match getItem m skills_key with
  | Some stored =>
      if js_truthy stored then
        match parse_skills stored with
        | Ok l => Ok (Some l)
        | Err e => Err e
        end
      else Ok None
  | None => Ok None
  end.

(** The SkillStore of the spec (section 4.1) as an abstract machine on the
    list of entries: [add] appends an entry the presentation layer has
    validated; every other operation leaves the list as it is. *)
Inductive store_step : list skill -> list skill -> Prop :=
| store_add l e : skill_submittable e = true -> store_step l (l ++ [e])
| store_stay l : store_step l l.

(** The outcome of mounting the page. *)
Inductive outcome :=
| Running (w : world)
| Crashed (e : load_error) (m : M)  (** an exception unmounts the page; [m] is the store left *)
| Unmodelled (e : load_error).      (** the snapshot holds a value the model does not represent *)

(** The first commit: the load effect, then the save effect with
    [skills = []]; then the render of the loaded list and its save. *)
Definition mount (m : M) : outcome :=
  match load_effect m with
  | Ok None => Running (mk_world initial_state (persist [] m))
  | Ok (Some l) =>
      Running (mk_world (mk_state l initial_new_skill filter_todos) (persist l (persist [] m)))
  | Err (ParseFailed Json.SyntaxError) => Crashed (ParseFailed Json.SyntaxError) m
  | Err NotAnArray => Crashed NotAnArray (persist [] m)
  | Err e => Unmodelled e
  end.

(** The first commit under React's StrictMode (development builds):
    after the effects run, React runs them again with the same render's
    state, then applies the queued [setSkills] calls in order (the last one
    wins) and renders. *)
Definition mount_strict (m : M) : outcome :=
  match load_effect m with
  | Err e => mount m
  | Ok u1 =>
      let m1 := persist [] m in
      match load_effect m1 with
      | Err e => Unmodelled e
      | Ok u2 =>
          let m2 := persist [] m1 in
          match (match u2 with Some l => Some l | None => u1 end) with
          | None => Running (mk_world initial_state m2)
          | Some l => Running (mk_world (mk_state l initial_new_skill filter_todos) (persist l m2))
          end
      end
  end.

(** One event, then the commit that follows it. *)
Definition dispatch (ev : event) (w : world) : world :=
  let '(st', changed) := handle ev (app w) in
  mk_world st' (if changed then persist (skills st') (storage w) else storage w).

Definition run (evs : list event) (w : world) : world :=
  fold_left (fun w ev => dispatch ev w) evs w.

(** Two pages of the site open at once (two tabs) share one store; the
    component does not listen to the [storage] event, so each tab keeps its
    own [skills] state. *)
Record two_tabs := mk_tabs { tab_a : app_state; tab_b : app_state; shared : M }.

Inductive tab := TabA | TabB.

(** An event in one tab, with its commit on the shared store. *)
Definition dispatch_tab (t : tab) (ev : event) (s : two_tabs) : two_tabs :=
  match t with
  | TabA => let w := dispatch ev (mk_world (tab_a s) (shared s)) in
            mk_tabs (app w) (tab_b s) (storage w)
  | TabB => let w := dispatch ev (mk_world (tab_b s) (shared s)) in
            mk_tabs (tab_a s) (app w) (storage w)
  end.

(** The state of one tab, and a tab given a new state and the store. *)
Definition tab_state (t : tab) (s : two_tabs) : app_state :=
  match t with TabA => tab_a s | TabB => tab_b s end.

Definition set_tab (t : tab) (st : app_state) (m : M) (s : two_tabs) : two_tabs :=
  match t with TabA => mk_tabs st (tab_b s) m | TabB => mk_tabs (tab_a s) st m end.

(** Reloading one tab: the page mounts again on the shared store; [None]
    when that mount crashes or leaves the model. *)
Definition reload_tab (t : tab) (s : two_tabs) : option two_tabs :=
  match mount (shared s) with
  | Running w => Some (set_tab t (app w) (storage w) s)
  | _ => None
  end.

(** The pages a user can reach: a mount, then events of the page. *)
Inductive reachable : world -> Prop :=
| reach_mount m w : mount m = Running w -> reachable w
| reach_step w ev : reachable w -> ui_event_ok ev = true -> reachable (dispatch ev w).

(** Two tabs opened one after the other on one store, then driven by any
    interleaving of events and reloads of either tab. *)
Inductive tabs_reachable : two_tabs -> Prop :=
| tabs_open m wa wb : mount m = Running wa -> mount (storage wa) = Running wb ->
    tabs_reachable (mk_tabs (app wa) (app wb) (storage wb))
| tabs_event s t ev : tabs_reachable s -> ui_event_ok ev = true -> tabs_reachable (dispatch_tab t ev s)
| tabs_reload s t s' : tabs_reachable s -> reload_tab t s = Some s' -> tabs_reachable s'.

(** The shared store holds the snapshot of tab [t]'s list. *)
Definition stored_by (t : tab) (s : two_tabs) : Prop :=
  getItem (shared s) skills_key = Some (stringify_skills (skills (tab_state t s))).

(** The kinds of the entries and of the draft are those of the form, and
    the filter is one of its three values. *)
Definition well_typed (st : app_state) : Prop :=
  Forall (fun s => known_kind (type s) = true) (skills st) /\
  known_kind (type (newSkill st)) = true /\
  ((filterType st === filter_todos) || known_kind (filterType st)) = true.

(** ** Helper lemmas *)

Lemma getItem_persist l m : getItem (persist l m) skills_key = Some (stringify_skills l).
Proof. apply getItem_setItem_eq. Qed.

Lemma handle_unchanged ev st st' :
  handle ev st = (st', false) -> skills st' = skills st.
Proof.
  destruct ev; simpl; intros E; try (injection E as <-; reflexivity).
  unfold handleAddSkill in E. destruct (skill_submittable (newSkill st)); congruence.
Qed.

Lemma stringify_skills_truthy l : js_truthy (stringify_skills l) = true.
Proof. reflexivity. Qed.

(** A store holding the snapshot of [l] mounts with the entries [l]. *)
Lemma mount_snapshot m l :
  getItem m skills_key = Some (stringify_skills l) ->
  mount m = Running (mk_world (mk_state l initial_new_skill filter_todos) (persist l (persist [] m))).
Proof.
  intros Hm. unfold mount, load_effect. now rewrite Hm, stringify_skills_truthy, parse_skills_roundtrip.
Qed.

Lemma dispatch_mirror ev w :
  getItem (storage w) skills_key = Some (stringify_skills (skills (app w))) ->
  getItem (storage (dispatch ev w)) skills_key = Some (stringify_skills (skills (app (dispatch ev w)))).
Proof.
  intros IH. unfold dispatch. destruct (handle ev (app w)) as [st' []] eqn:E; simpl.
  - apply getItem_persist.
  - now rewrite (handle_unchanged _ _ _ E).
Qed.

(** Every running mount leaves the snapshot of the list it shows. *)
Lemma mount_mirror m w :
  mount m = Running w -> getItem (storage w) skills_key = Some (stringify_skills (skills (app w))).
Proof.
  unfold mount. destruct (load_effect m) as [[l|]|[[]| |]]; try discriminate; intros [= <-];
    apply getItem_persist.
Qed.

Lemma reachable_mirror w :
  reachable w -> getItem (storage w) skills_key = Some (stringify_skills (skills (app w))).
Proof.
  induction 1 as [m w Hm | w ev _ IH _]; [exact (mount_mirror m w Hm) | now apply dispatch_mirror].
Qed.

Lemma tab_state_set t st m s : tab_state t (set_tab t st m s) = st.
Proof. now destruct t. Qed.

Lemma shared_set t st m s : shared (set_tab t st m s) = m.
Proof. now destruct t. Qed.

Lemma set_tab_skills t t0 st m s : skills st = skills (tab_state t s) ->
  skills (tab_state t0 (set_tab t st m s)) = skills (tab_state t0 s).
Proof. destruct t, t0; simpl; auto. Qed.

Lemma dispatch_tab_set t ev s :
  dispatch_tab t ev s =
  set_tab t (app (dispatch ev (mk_world (tab_state t s) (shared s))))
            (storage (dispatch ev (mk_world (tab_state t s) (shared s)))) s.
Proof. now destruct t. Qed.

(** The store always holds the list of one of the two tabs: the one whose
    commit saved last. *)
Lemma tabs_mirror s : tabs_reachable s -> exists t, stored_by t s.
Proof.
  unfold stored_by. induction 1 as [m wa wb _ Hb | s t ev _ [t0 IH] _ | s t s' _ [t0 IH] Hr].
  - exists TabB. exact (mount_mirror _ _ Hb).
  - rewrite dispatch_tab_set. unfold dispatch. cbn [app storage].
    destruct (handle ev (tab_state t s)) as [st' []] eqn:E; cbn [app storage].
    + exists t. rewrite shared_set, tab_state_set. apply getItem_persist.
    + exists t0. rewrite shared_set, (set_tab_skills _ t0 st' _ s (handle_unchanged _ _ _ E)).
      exact IH.
  - unfold reload_tab in Hr. destruct (mount (shared s)) as [w| |] eqn:Hm; try discriminate.
    injection Hr as <-. exists t. rewrite shared_set, tab_state_set. exact (mount_mirror _ _ Hm).
Qed.

Lemma dispatch_skills_extend ev w :
  exists added, skills (app (dispatch ev w)) = skills (app w) ++ added /\
                Forall (fun s => skill_submittable s = true) added.
Proof.
  unfold dispatch. destruct (handle ev (app w)) as [st' ch] eqn:E; simpl.
  destruct ev; simpl in E; try (injection E as <- _; exists []; rewrite app_nil_r; auto).
  unfold handleAddSkill in E. destruct (skill_submittable (newSkill (app w))) eqn:Hs;
    injection E as <- _; simpl.
  - exists [newSkill (app w)]. auto.
  - exists []. rewrite app_nil_r. auto.
Qed.

Lemma handle_well_typed ev st :
  ui_event_ok ev = true -> well_typed st -> well_typed (fst (handle ev st)).
Proof.
  intros Hok (Hs & Hn & Hf). destruct ev; simpl in *; unfold well_typed; simpl; auto.
  unfold handleAddSkill. destruct (skill_submittable (newSkill st)); simpl; [|now split].
  repeat split; auto. apply Forall_app. auto.
Qed.

Lemma reachable_run evs w :
  reachable w -> Forall (fun ev => ui_event_ok ev = true) evs -> reachable (run evs w).
Proof.
  intros Hw Hevs. revert w Hw. induction Hevs as [|ev evs Hev _ IH]; intros w Hw; simpl; [exact Hw|].
  apply IH. now apply reach_step.
Qed.

(** Filling the form and clicking "Agregar habilidad". *)
Lemma run_add_form w n u k :
  js_truthy n = true -> js_truthy u = true ->
  run [EditName n; EditUser u; EditType k; ClickAdd] w =
  mk_world (mk_state (skills (app w) ++ [mk_skill n u k]) initial_new_skill (filterType (app w)))
           (persist (skills (app w) ++ [mk_skill n u k]) (storage w)).
Proof.
  intros Hn Hu. unfold run, dispatch; cbn -[js_truthy]. unfold handleAddSkill, skill_submittable.
  cbn -[js_truthy]. now rewrite Hn, Hu.
Qed.

(** ** Properties *)

(** C7: On every page a user can reach, the stored snapshot reads back
    as exactly the entries on the page, in order: the save effect keeps
    the snapshot in step with the [skills] state. *)
Theorem snapshot_in_sync (w : world) :
  reachable w ->
  exists text, getItem (storage w) skills_key = Some text /\ parse_skills text = Ok (skills (app w)).
Proof.
  intros Hw. exists (stringify_skills (skills (app w))). split.
  - now apply reachable_mirror.
  - apply parse_skills_roundtrip.
Qed.

(** C8: Reloading the page from the store of any reachable page shows
    the same entries, with an empty draft and the filter ['todos'], and
    leaves the same snapshot. *)
Theorem reload_restores (w : world) :
  reachable w ->
  exists w', mount (storage w) = Running w' /\ skills (app w') = skills (app w) /\
             newSkill (app w') = initial_new_skill /\ filterType (app w') = filter_todos /\
             getItem (storage w') skills_key = getItem (storage w) skills_key.
Proof.
  intros Hw. pose proof (reachable_mirror w Hw) as Hm.
  eexists. rewrite (mount_snapshot _ _ Hm). split; [reflexivity|]. simpl.
  repeat split. now rewrite getItem_persist, Hm.
Qed.

(** C5: Clicking "Agregar habilidad" with a non-empty name and user
    appends the draft at the end of the list, resets the draft to
    [{ name: '', user: '', type: 'ofrece' }], keeps the filter, and saves
    the whole new list. *)
Theorem handleAddSkill_appends (w : world) :
  skill_submittable (newSkill (app w)) = true ->
  dispatch ClickAdd w =
  mk_world (mk_state (skills (app w) ++ [newSkill (app w)]) initial_new_skill (filterType (app w)))
           (persist (skills (app w) ++ [newSkill (app w)]) (storage w)).
Proof. intros Hs. unfold dispatch; simpl. unfold handleAddSkill. now rewrite Hs. Qed.

(** C6: Clicking "Agregar habilidad" with an empty name or user changes
    nothing: not the list, not the draft, not the store. *)
Theorem handleAddSkill_rejects (w : world) :
  skill_submittable (newSkill (app w)) = false -> dispatch ClickAdd w = w.
Proof. destruct w as [st m]. simpl. intros Hs. unfold dispatch; simpl. unfold handleAddSkill. now rewrite Hs. Qed.

(** C21: The list is append-only: after any sequence of events, the
    entries of the page are the earlier entries followed by new ones, each
    with a non-empty name and user. *)
Theorem run_append_only (evs : list event) (w : world) :
  exists added, skills (app (run evs w)) = skills (app w) ++ added /\
                Forall (fun s => skill_submittable s = true) added.
Proof.
  revert w. induction evs as [|ev evs IH]; intros w; simpl.
  - exists []. now rewrite app_nil_r.
  - destruct (dispatch_skills_extend ev w) as (a1 & E1 & F1).
    destruct (IH (dispatch ev w)) as (a2 & E2 & F2).
    exists (a1 ++ a2). rewrite E2, E1, app_assoc. split; [reflexivity|]. now apply Forall_app.
Qed.

(** Events of the page keep the kinds well-typed: every entry and
    the draft have kind ['ofrece'] or ['busca'] and the filter is one of
    the three values of its [Select], if they were before. *)
Theorem dispatch_well_typed (ev : event) (w : world) :
  ui_event_ok ev = true -> well_typed (app w) -> well_typed (app (dispatch ev w)).
Proof.
  intros Hok Hw. unfold dispatch. pose proof (handle_well_typed ev (app w) Hok Hw) as Ht.
  destruct (handle ev (app w)) as [st' ch]; exact Ht.
Qed.

(** C22: A stored snapshot that is not JSON crashes the page on mount:
    [JSON.parse] throws inside the load effect, and the store is left
    as it was (the spec says such a snapshot is read as an empty list). *)
Theorem mount_malformed_snapshot_crashes (m : M) (text : string) :
  getItem m skills_key = Some text -> js_truthy text = true ->
  Json.JSON_parse text = Err Json.SyntaxError ->
  mount m = Crashed (ParseFailed Json.SyntaxError) m.
Proof.
  intros Hm Ht Hp. unfold mount, load_effect, parse_skills. now rewrite Hm, Ht, Hp.
Qed.

(** C24: A snapshot that is JSON but not an array (for example [null])
    also crashes the page, on the render after the load, and the save
    effect of the first commit has already replaced it with ['[]']. *)
Theorem mount_non_array_snapshot (m : M) (text : string) (v : Json.json) :
  getItem m skills_key = Some text -> js_truthy text = true ->
  Json.JSON_parse text = Ok v -> (forall l, v <> Json.JArray l) ->
  mount m = Crashed NotAnArray (persist [] m) /\
  getItem (persist [] m) skills_key = Some "[]"%string.
Proof.
  intros Hm Ht Hp Hv. split; [|apply getItem_persist].
  unfold mount, load_effect, parse_skills. rewrite Hm, Ht, Hp.
  destruct v; try reflexivity. exfalso. eapply Hv; reflexivity.
Qed.

(** C23: Under React's StrictMode the effects of the first commit run
    twice with the initial empty list: whatever list the store held, the
    page mounts empty and the store is left with ['[]']. *)
Theorem strict_mount_erases_snapshot (m : M) (l : list skill) :
  getItem m skills_key = Some (stringify_skills l) ->
  exists w, mount_strict m = Running w /\ skills (app w) = [] /\
            getItem (storage w) skills_key = Some "[]"%string.
Proof.
  intros Hm. unfold mount_strict.
  assert (Hl : load_effect m = Ok (Some l))
    by (unfold load_effect; now rewrite Hm, stringify_skills_truthy, parse_skills_roundtrip).
  assert (Hz : load_effect (persist [] m) = Ok (Some []))
    by (unfold load_effect; now rewrite getItem_persist, stringify_skills_truthy, parse_skills_roundtrip).
  rewrite Hl, Hz. eexists. split; [reflexivity|]. split; [reflexivity|]. apply getItem_persist.
Qed.

(** C25: A first visit (no key, or the empty text, which [if (storedSkills)]
    treats as absent) mounts the initial page and stores the snapshot
    ['[]'] of the empty list; no error is raised. *)
Theorem mount_first_visit (m : M) :
  getItem m skills_key = None \/ getItem m skills_key = Some ""%string ->
  mount m = Running (mk_world initial_state (persist [] m)) /\
  getItem (persist [] m) skills_key = Some "[]"%string.
Proof.
  intros Hm. split; [|apply getItem_persist].
  unfold mount, load_effect. now destruct Hm as [-> | ->].
Qed.

(** Typing in the form and changing a [Select] never touch the list
    or the store: only the draft or the filter changes. *)
Theorem form_events_keep_list (ev : event) (w : world) :
  ev <> ClickAdd ->
  skills (app (dispatch ev w)) = skills (app w) /\ storage (dispatch ev w) = storage w.
Proof. destruct ev; intros Hev; try congruence; split; reflexivity. Qed.

(** C38: Two tabs lose updates: when both show the list [l] and each adds
    an entry, one after the other, the snapshot left holds [l] and the
    second tab's entry only; the first tab's entry is gone from the store
    and from every later reload. *)
Theorem two_tabs_lost_update (l : list skill) (a b : skill) (fa fb : string) (m : M) :
  skill_submittable a = true -> skill_submittable b = true ->
  let s := dispatch_tab TabB ClickAdd (dispatch_tab TabA ClickAdd
             (mk_tabs (mk_state l a fa) (mk_state l b fb) m)) in
  exists text, getItem (shared s) skills_key = Some text /\ parse_skills text = Ok (l ++ [b]).
Proof.
  intros Ha Hb s. exists (stringify_skills (l ++ [b])). split; [|apply parse_skills_roundtrip].
  subst s. unfold dispatch_tab, dispatch; simpl. unfold handleAddSkill; simpl. rewrite Ha; simpl.
  rewrite Hb; simpl. apply getItem_persist.
Qed.

(** C9: The page refines the SkillStore of the spec: from every reachable
    page, an event of the page is one step of the abstract store on the
    list (an append of a validated entry, or no change), and the snapshot
    written is the abstract list's. *)
Theorem dispatch_refines_store (w : world) (ev : event) :
  reachable w ->
  store_step (skills (app w)) (skills (app (dispatch ev w))) /\
  getItem (storage (dispatch ev w)) skills_key = Some (stringify_skills (skills (app (dispatch ev w)))).
Proof.
  intros Hw. split.
  - unfold dispatch. destruct (handle ev (app w)) as [st' ch] eqn:E; simpl.
    destruct ev; simpl in E; try (injection E as <- _; apply store_stay).
    unfold handleAddSkill in E. destruct (skill_submittable (newSkill (app w))) eqn:Hs;
      injection E as <- _; [now apply store_add | apply store_stay].
  - now apply dispatch_mirror, reachable_mirror.
Qed.

(** C10: Adding an entry is always possible: from every reachable page,
    typing a non-empty name and user, choosing a kind of the form and
    clicking "Agregar habilidad" leads to a reachable page whose list ends
    with that entry and whose snapshot holds the new list. *)
Theorem add_entry_eventually (w : world) (n u k : string) :
  reachable w -> js_truthy n = true -> js_truthy u = true -> known_kind k = true ->
  let w' := run [EditName n; EditUser u; EditType k; ClickAdd] w in
  reachable w' /\ skills (app w') = skills (app w) ++ [mk_skill n u k] /\
  getItem (storage w') skills_key = Some (stringify_skills (skills (app w) ++ [mk_skill n u k])).
Proof.
  intros Hw Hn Hu Hk w'. split.
  - apply reachable_run; [exact Hw|]. repeat constructor. exact Hk.
  - subst w'. rewrite (run_add_form w n u k Hn Hu). split; [reflexivity | apply getItem_persist].
Qed.

(** C37: Any interleaving of two tabs keeps the store readable: after
    two tabs are opened on one store and driven by any sequence of events
    and reloads of either tab, the stored snapshot is the list of one of
    the tabs (the one whose commit saved last), and reloading either tab
    never crashes and shows exactly that list. *)
Theorem two_tabs_snapshot_of_a_tab (s : two_tabs) :
  tabs_reachable s ->
  exists t, getItem (shared s) skills_key = Some (stringify_skills (skills (tab_state t s))) /\
  forall t', exists s', reload_tab t' s = Some s' /\ skills (tab_state t' s') = skills (tab_state t s).
Proof.
  intros Hs. destruct (tabs_mirror s Hs) as [t Ht]. exists t. split; [exact Ht|].
  intros t'. unfold reload_tab. rewrite (mount_snapshot _ _ Ht).
  eexists. split; [reflexivity|]. now rewrite tab_state_set.
Qed.

End WithStore.

(** ** Concrete pages, on the [gmap] store *)

Local Open Scope string_scope.

Abbreviation gworld := (@world (gmap.gmap string string)).

(** First visit, then "Yoga" offered by "Ana". *)
Definition page_yoga : gworld :=
  dispatch ClickAdd (dispatch (EditUser "Ana") (dispatch (EditName "Yoga")
    (mk_world initial_state (persist [] empty_storage)))).

Lemma page_yoga_reachable : reachable page_yoga.
Proof.
  unfold page_yoga. repeat (apply reach_step; [|reflexivity]).
  apply (reach_mount empty_storage). reflexivity.
Qed.

(** C7 witness. *)
Lemma snapshot_in_sync_witness :
  reachable page_yoga /\
  exists text, getItem (storage page_yoga) skills_key = Some text /\
               parse_skills text = Ok (skills (app page_yoga)).
Proof.
  pose proof page_yoga_reachable as R.
  split; [exact R | exact (snapshot_in_sync page_yoga R)].
Defined.

(** C8 witness. *)
Lemma reload_restores_witness :
  reachable page_yoga /\
  exists w', mount (storage page_yoga) = Running w' /\ skills (app w') = skills (app page_yoga) /\
             newSkill (app w') = initial_new_skill /\ filterType (app w') = filter_todos /\
             getItem (storage w') skills_key = getItem (storage page_yoga) skills_key.
Proof.
  pose proof page_yoga_reachable as R.
  split; [exact R | exact (reload_restores page_yoga R)].
Defined.

(** C9 witness: adding the draft on the page [page_yoga]. *)
Lemma dispatch_refines_store_witness :
  reachable page_yoga /\
  store_step (skills (app page_yoga)) (skills (app (dispatch ClickAdd page_yoga))) /\
  getItem (storage (dispatch ClickAdd page_yoga)) skills_key =
    Some (stringify_skills (skills (app (dispatch ClickAdd page_yoga)))).
Proof.
  pose proof page_yoga_reachable as R.
  split; [exact R | exact (dispatch_refines_store page_yoga ClickAdd R)].
Defined.

(** C5 witness: the draft "Yoga"/"Ana" is added. *)
Lemma handleAddSkill_appends_witness :
  let w := dispatch (EditUser "Ana") (dispatch (EditName "Yoga")
             (mk_world initial_state (persist [] empty_storage))) in
  skill_submittable (newSkill (app w)) = true /\
  dispatch ClickAdd w =
  mk_world (mk_state (skills (app w) ++ [newSkill (app w)]) initial_new_skill (filterType (app w)))
           (persist (skills (app w) ++ [newSkill (app w)]) (storage w)).
Proof. intros w. split; [reflexivity | apply handleAddSkill_appends; reflexivity]. Defined.

(** C6 witness: scenario 4 of the spec, a draft with an empty user. *)
Lemma handleAddSkill_rejects_witness :
  let w := dispatch (EditName "Cocina") (mk_world initial_state (persist [] empty_storage)) in
  skill_submittable (newSkill (app w)) = false /\ dispatch ClickAdd w = w.
Proof. intros w. split; [reflexivity | apply handleAddSkill_rejects; reflexivity]. Defined.

(** C22 witness: a truncated snapshot. *)
Lemma mount_malformed_snapshot_crashes_witness :
  let m := storage_with "skills" "[{" in
  getItem m skills_key = Some "[{" /\ js_truthy "[{" = true /\
  Json.JSON_parse "[{" = Err Json.SyntaxError /\
  mount m = Crashed (ParseFailed Json.SyntaxError) m.
Proof.
  intros m. assert (Hm : getItem m skills_key = Some "[{") by reflexivity.
  assert (Hp : Json.JSON_parse "[{" = Err Json.SyntaxError) by reflexivity.
  split; [exact Hm | split; [reflexivity | split; [exact Hp |]]].
  exact (mount_malformed_snapshot_crashes m "[{" Hm eq_refl Hp).
Defined.

(** C24 witness: the snapshot [null]. *)
Lemma mount_non_array_snapshot_witness :
  let m := storage_with "skills" "null" in
  getItem m skills_key = Some "null" /\ Json.JSON_parse "null" = Ok Json.JNull /\
  mount m = Crashed NotAnArray (persist [] m) /\ getItem (persist [] m) skills_key = Some "[]".
Proof.
  intros m. assert (Hm : getItem m skills_key = Some "null") by reflexivity.
  assert (Hp : Json.JSON_parse "null" = Ok Json.JNull) by reflexivity.
  assert (Hv : forall l, Json.JNull <> Json.JArray l) by discriminate.
  split; [exact Hm | split; [exact Hp |]].
  exact (mount_non_array_snapshot m "null" Json.JNull Hm eq_refl Hp Hv).
Defined.

(** C23 witness: a store holding one offer. *)
Lemma strict_mount_erases_snapshot_witness :
  let m := storage_with "skills" (stringify_skills [mk_skill "Yoga" "Ana" kind_ofrece]) in
  getItem m skills_key = Some (stringify_skills [mk_skill "Yoga" "Ana" kind_ofrece]) /\
  exists w, mount_strict m = Running w /\ skills (app w) = [] /\
            getItem (storage w) skills_key = Some "[]".
Proof.
  intros m. assert (Hm : getItem m skills_key = Some (stringify_skills [mk_skill "Yoga" "Ana" kind_ofrece]))
    by reflexivity.
  split; [exact Hm | exact (strict_mount_erases_snapshot m _ Hm)].
Defined.

(** C25 witness: the empty store of a first visit. *)
Lemma mount_first_visit_witness :
  (getItem empty_storage skills_key = None \/ getItem empty_storage skills_key = Some "") /\
  mount empty_storage = Running (mk_world initial_state (persist [] empty_storage)) /\
  getItem (persist [] empty_storage) skills_key = Some "[]".
Proof.
  assert (Hm : getItem empty_storage skills_key = None \/ getItem empty_storage skills_key = Some "")
    by (left; reflexivity).
  split; [exact Hm | exact (mount_first_visit empty_storage Hm)].
Defined.

(** C38 witness: "Yoga" added in one tab, "Tejer" in the other. *)
Lemma two_tabs_lost_update_witness :
  skill_submittable (mk_skill "Yoga" "Ana" kind_ofrece) = true /\
  skill_submittable (mk_skill "Tejer" "Luis" kind_busca) = true /\
  let s := dispatch_tab TabB ClickAdd (dispatch_tab TabA ClickAdd
             (mk_tabs (mk_state [] (mk_skill "Yoga" "Ana" kind_ofrece) filter_todos)
                      (mk_state [] (mk_skill "Tejer" "Luis" kind_busca) filter_todos)
                      (persist [] empty_storage))) in
  exists text, getItem (shared s) skills_key = Some text /\
               parse_skills text = Ok ([] ++ [mk_skill "Tejer" "Luis" kind_busca])%list.
Proof.
  split; [reflexivity | split; [reflexivity |]].
  exact (two_tabs_lost_update [] (mk_skill "Yoga" "Ana" kind_ofrece) (mk_skill "Tejer" "Luis" kind_busca)
           filter_todos filter_todos (persist [] empty_storage) eq_refl eq_refl).
Defined.

(** C37 witness: two tabs opened on a store holding "Yoga"; the second
    tab adds "Tejer" sought by "Luis", then the first tab reloads. *)
Lemma two_tabs_snapshot_of_a_tab_witness :
  let m := storage_with "skills" (stringify_skills [mk_skill "Yoga" "Ana" kind_ofrece]) in
  exists s, tabs_reachable s /\
  exists t, getItem (shared s) skills_key = Some (stringify_skills (skills (tab_state t s))) /\
  forall t', exists s', reload_tab t' s = Some s' /\ skills (tab_state t' s') = skills (tab_state t s).
Proof.
  intros m.
  assert (R : exists s : two_tabs, tabs_reachable s).
  { eexists. eapply (tabs_reload _ TabA).
    - eapply (tabs_event _ TabB ClickAdd).
      + eapply (tabs_event _ TabB (EditUser "Luis")).
        * eapply (tabs_event _ TabB (EditName "Tejer")).
          -- eapply (tabs_open m); reflexivity.
          -- reflexivity.
        * reflexivity.
      + reflexivity.
    - reflexivity. }
  destruct R as [s Hs]. exists s. split; [exact Hs | exact (two_tabs_snapshot_of_a_tab s Hs)].
Defined.

(** C10 witness: "Cocina" sought by "Carla" on the page [page_yoga]. *)
Lemma add_entry_eventually_witness :
  reachable page_yoga /\ js_truthy "Cocina" = true /\ js_truthy "Carla" = true /\
  known_kind kind_busca = true /\
  let w' := run [EditName "Cocina"; EditUser "Carla"; EditType kind_busca; ClickAdd] page_yoga in
  reachable w' /\ skills (app w') = (skills (app page_yoga) ++ [mk_skill "Cocina" "Carla" kind_busca])%list /\
  getItem (storage w') skills_key =
    Some (stringify_skills (skills (app page_yoga) ++ [mk_skill "Cocina" "Carla" kind_busca])%list).
Proof.
  pose proof page_yoga_reachable as R.
  split; [exact R | split; [reflexivity | split; [reflexivity | split; [reflexivity |]]]].
  exact (add_entry_eventually page_yoga "Cocina" "Carla" kind_busca R eq_refl eq_refl eq_refl).
Defined.

(** Scenario 5 of the spec: a store holding two entries, a third
    added through the form; the snapshot then holds the three entries in
    insertion order. *)
Example scenario_load_then_add :
  let m := storage_with "skills"
             (stringify_skills [mk_skill "Yoga" "Ana" kind_ofrece; mk_skill "Tejer" "Luis" kind_busca]) in
  exists w, mount m = Running w /\
  getItem (storage (run [EditName "Cocina"; EditUser "Carla"; EditType "busca"; ClickAdd] w)) skills_key
  = Some (stringify_skills [mk_skill "Yoga" "Ana" kind_ofrece; mk_skill "Tejer" "Luis" kind_busca;
                            mk_skill "Cocina" "Carla" kind_busca]).
Proof. eexists. split; reflexivity. Qed.

End App.
