(* ===== verification/View.v ===== *)
(** * View: what [TruekaApp] renders

    The JSX of lines 51-150 as a function of the component state: the
    controlled form (its inputs show [newSkill] and [filterType]), one card
    per entry of [filteredSkills] (lines 119-131, the label of line 126),
    and the "Coincidencias encontradas" section (lines 133-148): the text
    "Aún no hay coincidencias." when [getMatches()] is empty, one sentence
    per match otherwise.  Styling and the advertising block carry no state
    and are not represented.  Besides the rendering of one state, the
    file composes [render] with the page's events and its reload: a seek
    entered through the form meets an offer already listed, and a reload
    renders every entry. *)

From Stdlib Require Import String Ascii List Bool.
From S2P Require Import Prelude Skill FilterView MatchEngine Json SkillCodec Storage App.
Import ListNotations FilterView MatchEngine App.
Open Scope trueka_scope.

Module View.

(** A skill card: title, user, and the kind label. *)
Record skill_card := mk_card { card_title : string; card_user : string; card_kind : string }.

(** [skill.type === "ofrece" ? "Ofrece" : "Busca"] *)
Definition kind_label (t : string) : string :=
  if t === kind_ofrece then "Ofrece" else "Busca".

Definition render_card (s : skill) : skill_card :=
  {| card_title := name s; card_user := user s; card_kind := kind_label (type s) |}.

(** [<strong>{busca}</strong> busca <strong>{habilidad}</strong>, y <strong>{ofrece}</strong> la ofrece.] *)
Definition match_sentence (m : coincidencia) : string :=
  (busca m ++ " busca " ++ habilidad m ++ ", y " ++ ofrece m ++ " la ofrece.")%string.

(** "Aún no hay coincidencias." (the [ú] is the code unit [0xFA]). *)
Definition no_matches_text : string :=
  String "A"%char (String (ascii_of_nat 250) "n no hay coincidencias.").

Inductive matches_section :=
| NoMatches (text : string)
| MatchCards (sentences : list string).

Record page := mk_page
  { form_name : string; form_user : string; form_type : string;
    filter_value : string; cards : list skill_card; matches : matches_section }.

Definition render (st : app_state) : page :=
  {| form_name := name (newSkill st);
     form_user := user (newSkill st);
     form_type := type (newSkill st);
     filter_value := filterType st;
     cards := map render_card (filteredSkills (filterType st) (skills st));
     matches :=
       match getMatches (skills st) with
       | [] => NoMatches no_matches_text
       | ms => MatchCards (map match_sentence ms)
       end |}.

(** ** Properties *)

(** The matches section shows the empty-state text exactly when no
    seek meets an offer of the same name, and otherwise one sentence per
    match, in the order of [getMatches]. *)
Theorem render_matches (st : app_state) :
  (matches (render st) = NoMatches no_matches_text <-> getMatches (skills st) = []) /\
  (getMatches (skills st) <> [] ->
   matches (render st) = MatchCards (map match_sentence (getMatches (skills st)))).
Proof.
  unfold render; simpl. destruct (getMatches (skills st)); split; try easy.
Qed.

(** C35: After an entry is added through the form, the cards are the
    previous cards followed by the new entry's card when the current
    filter shows its kind, and unchanged otherwise. *)
Theorem render_after_add {M} `{KVStoreLaws M} (w : @world M) :
  skill_submittable (newSkill (app w)) = true ->
  cards (render (app (dispatch ClickAdd w))) =
  cards (render (app w)) ++
    (if filter_pred (filterType (app w)) (newSkill (app w))
     then [render_card (newSkill (app w))] else []).
Proof.
  intros Hs. unfold dispatch; simpl. unfold handleAddSkill. rewrite Hs. simpl.
  unfold render; simpl. rewrite filteredSkills_app, map_app. f_equal.
  unfold filteredSkills; simpl. now destruct (filter_pred _ _).
Qed.

(** C36: An entry whose [type] is neither ['ofrece'] nor ['busca'] (one
    that only a snapshot can hold) is shown with the label "Busca", yet
    matching ignores it: it adds no match. *)
Theorem unknown_kind_shown_as_busca (skills : list skill) (s : skill) :
  type s <> kind_ofrece -> type s <> kind_busca ->
  card_kind (render_card s) = "Busca"%string /\
  getMatches (skills ++ [s]) = getMatches skills.
Proof.
  intros Ho Hb. split.
  - unfold render_card, kind_label; simpl. now destruct (String.eqb_spec (type s) kind_ofrece).
  - unfold getMatches. rewrite !filter_app. simpl. unfold is_offer, is_request.
    destruct (String.eqb_spec (type s) kind_ofrece); [congruence|].
    destruct (String.eqb_spec (type s) kind_busca); [congruence|].
    now rewrite !app_nil_r.
Qed.

(** C30: Reloading shows everything: mounting from the store of any
    reachable page renders one card per entry of that page, in order,
    under the filter ['todos'], with an empty form and the same matches
    section as the page had. *)
Theorem reload_renders_all {M} `{KVStoreLaws M} (w : @world M) :
  reachable w ->
  exists w', mount (storage w) = Running w' /\
    cards (render (app w')) = map render_card (skills (app w)) /\
    filter_value (render (app w')) = filter_todos /\
    form_name (render (app w')) = ""%string /\ form_user (render (app w')) = ""%string /\
    matches (render (app w')) = matches (render (app w)).
Proof.
  intros Hw. eexists. rewrite (mount_snapshot _ _ (reachable_mirror w Hw)). split; [reflexivity|].
  unfold render; simpl. now rewrite filteredSkills_todos_all.
Qed.

(** C11: A seek meets the offers already listed: on every reachable page
    holding an offer, entering through the form a seek with the same name
    up to case, by a non-empty user, makes the matches section list the
    sentence "<user> busca <name>, y <offerer> la ofrece.". *)
Theorem seek_meets_offer {M} `{KVStoreLaws M} (w : @world M) (off : skill) (n u : string) :
  reachable w -> In off (skills (app w)) -> type off = kind_ofrece -> ci_eq (name off) n ->
  js_truthy n = true -> js_truthy u = true ->
  let w' := run [EditName n; EditUser u; EditType kind_busca; ClickAdd] w in
  exists ss, matches (render (app w')) = MatchCards ss /\
             In (match_sentence (mk_coincidencia n u (user off))) ss.
Proof.
  intros Hw Hoff Ho Hci Hn Hu w'.
  assert (Hs : skills (app w') = skills (app w) ++ [mk_skill n u kind_busca]).
  { subst w'. now rewrite run_add_form. }
  assert (Hin : In (match_of (mk_skill n u kind_busca) off) (getMatches (skills (app w')))).
  { rewrite Hs. apply getMatches_In_intro; auto; apply in_or_app; simpl; auto. }
  unfold render; simpl. destruct (getMatches (skills (app w'))) as [|m ms] eqn:E; [contradiction|].
  eexists. split; [reflexivity|]. now apply (in_map match_sentence) in Hin.
Qed.

(** ** Witnesses *)

Local Open Scope string_scope.

(** C35 witness: adding "Yoga"/"Ana" under the filter ['busca']. *)
Lemma render_after_add_witness :
  let w := dispatch (SetFilter "busca") (dispatch (EditUser "Ana") (dispatch (EditName "Yoga")
             (mk_world initial_state (persist [] empty_storage)))) in
  skill_submittable (newSkill (app w)) = true /\
  cards (render (app (dispatch ClickAdd w))) =
  (cards (render (app w)) ++
    (if filter_pred (filterType (app w)) (newSkill (app w))
     then [render_card (newSkill (app w))] else []))%list.
Proof. intros w. split; [reflexivity | apply render_after_add; reflexivity]. Defined.

(** C30 witness: reloading the page [page_yoga]. *)
Lemma reload_renders_all_witness :
  reachable page_yoga /\
  exists w', mount (storage page_yoga) = Running w' /\
    cards (render (app w')) = map render_card (skills (app page_yoga)) /\
    filter_value (render (app w')) = filter_todos /\
    form_name (render (app w')) = "" /\ form_user (render (app w')) = "" /\
    matches (render (app w')) = matches (render (app page_yoga)).
Proof.
  pose proof page_yoga_reachable as R. split; [exact R | exact (reload_renders_all page_yoga R)].
Defined.

(** C11 witness: "yoga" sought by "Carla" after "Yoga" offered by "Ana". *)
Lemma seek_meets_offer_witness :
  reachable page_yoga /\ In (mk_skill "Yoga" "Ana" kind_ofrece) (skills (app page_yoga)) /\
  type (mk_skill "Yoga" "Ana" kind_ofrece) = kind_ofrece /\ ci_eq "Yoga" "yoga" /\
  js_truthy "yoga" = true /\ js_truthy "Carla" = true /\
  let w' := run [EditName "yoga"; EditUser "Carla"; EditType kind_busca; ClickAdd] page_yoga in
  exists ss, matches (render (app w')) = MatchCards ss /\
             In (match_sentence (mk_coincidencia "yoga" "Carla" "Ana")) ss.
Proof.
  pose proof page_yoga_reachable as R.
  assert (Hin : In (mk_skill "Yoga" "Ana" kind_ofrece) (skills (app page_yoga))) by (left; reflexivity).
  assert (Hci : ci_eq "Yoga" "yoga") by reflexivity.
  split; [exact R | split; [exact Hin | split; [reflexivity | split; [exact Hci | split; [reflexivity | split; [reflexivity |]]]]]].
  exact (seek_meets_offer page_yoga _ "yoga" "Carla" R Hin eq_refl Hci eq_refl eq_refl).
Defined.

(** C36 witness: an entry of kind ['intercambia'] read from a snapshot. *)
Lemma unknown_kind_shown_as_busca_witness :
  type (mk_skill "Yoga" "Ana" "intercambia") <> kind_ofrece /\
  type (mk_skill "Yoga" "Ana" "intercambia") <> kind_busca /\
  card_kind (render_card (mk_skill "Yoga" "Ana" "intercambia")) = "Busca" /\
  getMatches ([mk_skill "yoga" "Luis" kind_ofrece] ++ [mk_skill "Yoga" "Ana" "intercambia"])%list
  = getMatches [mk_skill "yoga" "Luis" kind_ofrece].
Proof.
  assert (Ho : type (mk_skill "Yoga" "Ana" "intercambia") <> kind_ofrece) by discriminate.
  assert (Hb : type (mk_skill "Yoga" "Ana" "intercambia") <> kind_busca) by discriminate.
  split; [exact Ho | split; [exact Hb |]].
  exact (unknown_kind_shown_as_busca _ _ Ho Hb).
Defined.

End View.
