(* ===== verification/JsEntries.v ===== *)
(** * JsEntries: the component on the values [JSON.parse] returns

    The load effect passes whatever [JSON.parse(storedSkills)] returns to
    [setSkills] (line 18): an array whose elements are any JSON values,
    not only objects [{ name, user, type }] with string fields.  The views
    of the component then run JavaScript on them:
    - [filteredSkills] (lines 32-34) reads [skill.type] unless the filter
      is ['todos'];
    - [getMatches] (lines 36-49) reads [s.type] of every entry, then
      [off.name.toLowerCase()] and [req.name.toLowerCase()] for every
      pair of an offer and a seek, and builds
      [{ habilidad: req.name, busca: req.user, ofrece: off.user }];
    - the JSX (lines 119-148) reads [skill.name], [skill.user] and
      [skill.type] of every shown entry and renders the values as React
      children.
    Reading a property of [null] throws a TypeError, and so does calling
    [toLowerCase] on a value that is not a string; React refuses an object
    as a child.  This file models these views on [list json] with those
    errors ([get_field], [filter_r], [map_r], [flat_map_r] of the prelude),
    and relates them to the typed model of [FilterView], [MatchEngine] and
    [View]: on entries shaped as skills (string [name], [user], [type],
    any other members, any key order) the page is the typed page
    (refinement), and the first page after a mount refines [App.mount].
    React shows a number child as the string of its value,
    Number::toString ([number_to_string] of [JsonNumber]). *)

From Stdlib Require Import String Ascii List Bool Arith NArith ZArith Lia.
From S2P Require Import Prelude Skill FilterView MatchEngine JsonObject JsonNumber Json SkillCodec Storage App View.
Import ListNotations FilterView MatchEngine JsonNumber Json SkillCodec App View.
Open Scope trueka_scope.

Module JsEntries.

(** The exceptions the views can raise. *)
Inductive js_error :=
| TypeError      (** a property of [null], or [toLowerCase] of a non-string *)
| InvalidChild.  (** "Objects are not valid as a React child" *)

(** [v.p] for the property names the component reads ([name], [user],
    [type]): an own property of an object, [undefined] ([None]) for the
    other values, whose prototypes have no such property, and a TypeError
    on [null]. *)
Definition get_field (v : json) (p : string) : result js_error (option json) :=
  match v with
  | JNull => Err TypeError
  | JObject m => Ok (option_map snd (find (fun kv => fst kv === p) m))
  | _ => Ok None
  end.

(** [v === s] for a string literal [s]. *)
Definition strict_eq_str (v : option json) (s : string) : bool :=
  match v with Some (JString t) => t === s | _ => false end.

(** [v.toLowerCase()] *)
Definition to_lower_case_js (v : option json) : result js_error string :=
  match v with Some (JString s) => Ok (to_lower_case s) | _ => Err TypeError end.

(** [skill => filterType === 'todos' ? true : skill.type === filterType] *)
Definition filter_pred_js (ft : string) (skill : json) : result js_error bool :=
  if ft === filter_todos then Ok true
  else let* ' t := get_field skill "type" in Ok (strict_eq_str t ft).

Definition filteredSkills_js (ft : string) (skills : list json) : result js_error (list json) :=
  filter_r (filter_pred_js ft) skills.

(** [{ habilidad: req.name, busca: req.user, ofrece: off.user }] *)
Record match_js := mk_match_js
  { habilidad_js : option json; busca_js : option json; ofrece_js : option json }.

(** [s => s.type === k] *)
Definition type_is_js (k : string) (s : json) : result js_error bool :=
  let* ' t := get_field s "type" in Ok (strict_eq_str t k).

(** [off => off.name.toLowerCase() === req.name.toLowerCase()], left
    operand first. *)
Definition same_name_js (req off : json) : result js_error bool :=
  let* ' a := get_field off "name" in let* ' la := to_lower_case_js a in
  let* ' b := get_field req "name" in let* ' lb := to_lower_case_js b in
  Ok (la === lb).

Definition match_of_js (req off : json) : result js_error match_js :=
  let* ' h := get_field req "name" in let* ' b := get_field req "user" in
  let* ' o := get_field off "user" in Ok (mk_match_js h b o).

(** [req => offers.filter(...).map(...)] *)
Definition matches_for_js (offers : list json) (req : json) : result js_error (list match_js) :=
  let* ' fs := filter_r (same_name_js req) offers in map_r (match_of_js req) fs.

Definition getMatches_js (skills : list json) : result js_error (list match_js) :=
  let* ' offers := filter_r (type_is_js kind_ofrece) skills in
  let* ' requests := filter_r (type_is_js kind_busca) skills in
  flat_map_r (matches_for_js offers) requests.

(** ** Rendering *)

(** The text React shows for a child. *)
Inductive node := NText (s : string) | NNumber (text : string).

(** React children: nothing for [null], [undefined] and booleans, the text
    of strings and numbers, the children of an array in order, and an
    error for an object. *)
Fixpoint child_nodes (v : json) : result js_error (list node) :=
  match v with
  | JNull | JBool _ => Ok []
  | JString s => Ok [NText s]
  | JNumber n => Ok [NNumber (number_to_string n)]
  | JArray l =>
      (fix go (l : list json) : result js_error (list node) :=
         match l with
         | [] => Ok []
         | x :: l' => let* ' a := child_nodes x in let* ' b := go l' in Ok (a ++ b)%list
         end) l
  | JObject _ => Err InvalidChild
  end.

Definition render_child (v : option json) : result js_error (list node) :=
  match v with None => Ok [] | Some v => child_nodes v end.

(** The values a card reads: [skill.name], [skill.user] and the label
    [skill.type === "ofrece" ? "Ofrece" : "Busca"] (lines 122-126). *)
Record card_js := mk_card_js { title_js : option json; user_js : option json; kind_js : string }.

Definition render_card_js (skill : json) : result js_error card_js :=
  let* ' n := get_field skill "name" in let* ' u := get_field skill "user" in
  let* ' t := get_field skill "type" in
  Ok (mk_card_js n u (if strict_eq_str t kind_ofrece then "Ofrece" else "Busca")).

(** The body of [TruekaApp] after its hooks: [filteredSkills] (line 32),
    the cards (line 119), then [getMatches()] (line 135; the second call
    of line 139 returns the same list). *)
Definition component_body (ft : string) (skills : list json)
    : result js_error (list card_js * list match_js) :=
  let* ' fs := filteredSkills_js ft skills in
  let* ' cs := map_r render_card_js fs in
  let* ' ms := getMatches_js skills in
  Ok (cs, ms).

(** The page React shows. *)
Record card_page := mk_card_page
  { title_nodes : list node; user_nodes : list node; kind_text : string }.

Inductive matches_page :=
| NoMatchesP (text : string)
| MatchCardsP (sentences : list (list node)).

Definition reconcile_card (c : card_js) : result js_error card_page :=
  let* ' t := render_child (title_js c) in let* ' u := render_child (user_js c) in
  Ok (mk_card_page t u (kind_js c)).

(** [<strong>{match.busca}</strong> busca <strong>{match.habilidad}</strong>,
    y <strong>{match.ofrece}</strong> la ofrece.] (line 142) *)
Definition sentence_nodes (m : match_js) : result js_error (list node) :=
  let* ' b := render_child (busca_js m) in let* ' h := render_child (habilidad_js m) in
  let* ' o := render_child (ofrece_js m) in
  Ok (b ++ [NText " busca "] ++ h ++ [NText ", y "] ++ o ++ [NText " la ofrece."])%list.

(** The component's render, then React's reconciliation of its children. *)
Definition render_js (ft : string) (skills : list json)
    : result js_error (list card_page * matches_page) :=
  let* ' (cs, ms) := component_body ft skills in
  let* ' cps := map_r reconcile_card cs in
  match ms with
  | [] => Ok (cps, NoMatchesP no_matches_text)
  | _ => let* ' ss := map_r sentence_nodes ms in Ok (cps, MatchCardsP ss)
  end.

(** ** The page after a mount *)

Inductive page_error :=
| LoadFailed                    (** [JSON.parse] throws a SyntaxError in the load effect *)
| RenderFailed (e : js_error).  (** the render throws *)

Inductive page_outcome :=
| PageShown (cards : list card_page) (ms : matches_page)
| PageCrashed (e : page_error)
| PageUnmodelled (e : json_error).  (** the snapshot holds a string the model does not represent *)

Definition of_render (r : result js_error (list card_page * matches_page)) : page_outcome :=
  match r with Ok (cs, ms) => PageShown cs ms | Err e => PageCrashed (RenderFailed e) end.

Section WithStore.
Context {M : Type} `{KVStoreLaws M}.

(** The page once the load effect has run: the stored array is rendered
    under the filter ['todos']; a value that is not an array makes
    [skills.filter] throw a TypeError ([filter] is not a function). *)
Definition loaded_page (m : M) : page_outcome :=
  match getItem m skills_key with
  | Some text =>
      if js_truthy text then
        match JSON_parse text with
        | Ok (JArray l) => of_render (render_js filter_todos l)
        | Ok _ => PageCrashed (RenderFailed TypeError)
        | Err SyntaxError => PageCrashed LoadFailed
        | Err e => PageUnmodelled e
        end
      else of_render (render_js filter_todos [])
  | None => of_render (render_js filter_todos [])
  end.

End WithStore.

(** ** Abstractions *)

(** An entry shaped as a skill: string [name], [user] and [type], with any
    other members in any order. *)
Definition as_skill (v : json) : option skill :=
  match get_field v "name", get_field v "user", get_field v "type" with
  | Ok (Some (JString n)), Ok (Some (JString u)), Ok (Some (JString t)) => Some (mk_skill n u t)
  | _, _, _ => None
  end.

Definition shaped (v : json) (s : skill) : Prop := as_skill v = Some s.

Definition embed_match (m : coincidencia) : match_js :=
  mk_match_js (Some (JString (habilidad m))) (Some (JString (busca m))) (Some (JString (ofrece m))).

(** The text of a list of nodes. *)
Definition node_text (n : node) : string := match n with NText s => s | NNumber l => l end.

Definition nodes_text (ns : list node) : string :=
  fold_right (fun n acc => (node_text n ++ acc)%string) ""%string ns.

Definition card_view (c : card_page) : skill_card :=
  mk_card (nodes_text (title_nodes c)) (nodes_text (user_nodes c)) (kind_text c).

Definition matches_view (m : matches_page) : matches_section :=
  match m with
  | NoMatchesP t => NoMatches t
  | MatchCardsP ss => MatchCards (map nodes_text ss)
  end.

(** The entries that [getMatches] takes as offers and seeks, and the
    entries whose [name] is a string. *)
Definition type_is (k : string) (v : json) : bool :=
  match get_field v "type" with Ok t => strict_eq_str t k | Err _ => false end.

Definition has_string_name (v : json) : bool :=
  match get_field v "name" with Ok (Some (JString _)) => true | _ => false end.

(** ** Helper lemmas *)

Lemma as_skill_fields v s :
  shaped v s ->
  get_field v "name" = Ok (Some (JString (name s))) /\
  get_field v "user" = Ok (Some (JString (user s))) /\
  get_field v "type" = Ok (Some (JString (type s))).
Proof.
  unfold shaped, as_skill. intros H.
  repeat match goal with
  | H : match ?x with _ => _ end = Some _ |- _ => destruct x eqn:?; try discriminate H
  end.
  injection H as <-. auto.
Qed.

Section Shaped.
Variables (req off v : json) (sreq soff s : skill).
Hypotheses (Hreq : shaped req sreq) (Hoff : shaped off soff) (Hv : shaped v s).

Lemma type_is_js_shaped k : type_is_js k v = Ok (type s === k).
Proof. unfold type_is_js. now rewrite (proj2 (proj2 (as_skill_fields _ _ Hv))). Qed.

Lemma filter_pred_js_shaped ft : filter_pred_js ft v = Ok (filter_pred ft s).
Proof.
  unfold filter_pred_js, filter_pred. destruct (ft === filter_todos); [reflexivity|].
  now rewrite (proj2 (proj2 (as_skill_fields _ _ Hv))).
Qed.

Lemma same_name_js_shaped : same_name_js req off = Ok (same_name_ci (name soff) (name sreq)).
Proof.
  unfold same_name_js. now rewrite (proj1 (as_skill_fields _ _ Hoff)), (proj1 (as_skill_fields _ _ Hreq)).
Qed.

Lemma match_of_js_shaped : match_of_js req off = Ok (embed_match (match_of sreq soff)).
Proof.
  unfold match_of_js. destruct (as_skill_fields _ _ Hreq) as (-> & -> & _).
  now rewrite (proj1 (proj2 (as_skill_fields _ _ Hoff))).
Qed.

Lemma render_card_js_shaped :
  render_card_js v = Ok (mk_card_js (Some (JString (name s))) (Some (JString (user s))) (kind_label (type s))).
Proof. unfold render_card_js. now destruct (as_skill_fields _ _ Hv) as (-> & -> & ->). Qed.

End Shaped.

Lemma matches_for_js_shaped offers soffers req sreq :
  shaped req sreq -> Forall2 shaped offers soffers ->
  matches_for_js offers req = Ok (map embed_match (matches_for soffers sreq)).
Proof.
  intros Hreq Ho. unfold matches_for_js.
  destruct (filter_r_forall2 shaped (same_name_js req) (fun soff => same_name_ci (name soff) (name sreq))
              offers soffers (fun a s' Ha => same_name_js_shaped _ _ _ _ Hreq Ha) Ho) as (fl & -> & Hfl).
  unfold matches_for. rewrite map_map.
  exact (map_r_forall2 shaped _ (fun soff => embed_match (match_of sreq soff)) _ _
           (fun a s' Ha => match_of_js_shaped _ _ _ _ Hreq Ha) Hfl).
Qed.

(** On entries shaped as skills, [getMatches] in JavaScript is the typed
    [getMatches]. *)
Lemma getMatches_js_shaped l ss :
  Forall2 shaped l ss -> getMatches_js l = Ok (map embed_match (getMatches ss)).
Proof.
  intros Hl. unfold getMatches_js, getMatches.
  destruct (filter_r_forall2 shaped _ is_offer l ss (fun a s Ha => type_is_js_shaped _ _ Ha kind_ofrece) Hl)
    as (ol & -> & Hol).
  destruct (filter_r_forall2 shaped _ is_request l ss (fun a s Ha => type_is_js_shaped _ _ Ha kind_busca) Hl)
    as (rl & -> & Hrl).
  rewrite <- flat_map_map_out.
  exact (flat_map_r_forall2 shaped _ _ _ _ (fun a s Ha => matches_for_js_shaped _ _ _ _ Ha Hol) Hrl).
Qed.

Lemma nodes_text_app a b : nodes_text (a ++ b) = (nodes_text a ++ nodes_text b)%string.
Proof. induction a as [|n a IH]; simpl; [reflexivity|]. now rewrite IH, string_app_assoc. Qed.

Definition sentence_of (m : coincidencia) : list node :=
  [NText (busca m); NText " busca "; NText (habilidad m); NText ", y "; NText (ofrece m);
   NText " la ofrece."].

Definition card_page_of (s : skill) : card_page :=
  mk_card_page [NText (name s)] [NText (user s)] (kind_label (type s)).

Lemma nodes_text_sentence m : nodes_text (sentence_of m) = match_sentence m.
Proof. unfold match_sentence. simpl. now rewrite !string_app_nil_r. Qed.

Lemma card_view_page_of s : card_view (card_page_of s) = render_card s.
Proof. unfold card_view, render_card. simpl. now rewrite !string_app_nil_r. Qed.

(** The page of entries shaped as skills. *)
Lemma render_js_shaped ft l ss :
  Forall2 shaped l ss ->
  render_js ft l =
  Ok (map card_page_of (filteredSkills ft ss),
      match getMatches ss with
      | [] => NoMatchesP no_matches_text
      | ms => MatchCardsP (map sentence_of ms)
      end).
Proof.
  intros Hl. unfold render_js, component_body, filteredSkills_js.
  destruct (filter_r_forall2 shaped _ (filter_pred ft) l ss (fun a s Ha => filter_pred_js_shaped _ _ Ha ft) Hl)
    as (fl & -> & Hfl).
  rewrite (map_r_forall2 shaped _ _ _ _ (fun a s Ha => render_card_js_shaped _ _ Ha) Hfl).
  rewrite (getMatches_js_shaped _ _ Hl), map_r_map, (map_r_pure _ card_page_of) by reflexivity.
  unfold filteredSkills.
  destruct (getMatches ss) as [|m ms]; [reflexivity|].
  rewrite map_r_map, (map_r_pure _ sentence_of) by reflexivity. reflexivity.
Qed.

Lemma skill_of_json_shaped v s : skill_of_json v = Some s -> shaped v s.
Proof.
  unfold skill_of_json, shaped. intros H.
  repeat match goal with
  | H : match ?x with _ => _ end = Some _ |- _ => destruct x eqn:?; try discriminate H
  | H : (if ?b then _ else _) = Some _ |- _ => destruct b eqn:?; try discriminate H
  end.
  injection H as <-. bool_to_prop. subst. reflexivity.
Qed.

Lemma skills_of_list_shaped l ss : skills_of_list l = Some ss -> Forall2 shaped l ss.
Proof.
  revert ss. induction l as [|v l IH]; simpl; intros ss H; [injection H as <-; constructor|].
  destruct (skill_of_json v) eqn:Ev; [|discriminate]. destruct (skills_of_list l); [|discriminate].
  injection H as <-. constructor; [now apply skill_of_json_shaped | now apply IH].
Qed.

(** *** Exceptions *)

Lemma get_field_err v p e : get_field v p = Err e -> v = JNull /\ e = TypeError.
Proof. destruct v; simpl; intros H; try discriminate. now injection H as <-. Qed.

Lemma get_field_total v p : v <> JNull -> exists x, get_field v p = Ok x.
Proof. destruct v; simpl; intros Hv; [congruence|..]; eexists; reflexivity. Qed.

Lemma type_is_js_total k v : v <> JNull -> type_is_js k v = Ok (type_is k v).
Proof.
  intros Hv. unfold type_is_js, type_is. destruct (get_field_total v "type" Hv) as [x ->]. reflexivity.
Qed.

Lemma type_is_js_ok k v : is_ok (type_is_js k v) <-> v <> JNull.
Proof.
  split; [intros [b Hb] ->; discriminate | intros Hv; rewrite type_is_js_total by exact Hv; eexists; reflexivity].
Qed.

Lemma filter_type_ok k l : is_ok (filter_r (type_is_js k) l) <-> ~ In JNull l.
Proof.
  rewrite filter_r_ok, Forall_forall. setoid_rewrite type_is_js_ok.
  split; [intros H Hin; exact (H _ Hin eq_refl) | intros H v Hv ->; exact (H Hv)].
Qed.

Lemma same_name_js_ok req off :
  req <> JNull -> off <> JNull ->
  (is_ok (same_name_js req off) <-> has_string_name off = true /\ has_string_name req = true).
Proof.
  intros Hreq Hoff. unfold same_name_js, has_string_name.
  destruct (get_field_total off "name" Hoff) as [a ->]. destruct (get_field_total req "name" Hreq) as [b ->].
  unfold is_ok. destruct a as [[]|], b as [[]|]; cbn;
    first [ split; [intros _; split; reflexivity | intros _; eexists; reflexivity]
          | split; [intros [? H]; discriminate | intros [H1 H2]; discriminate] ].
Qed.

Lemma match_of_js_ok req off : req <> JNull -> off <> JNull -> is_ok (match_of_js req off).
Proof.
  intros Hreq Hoff. unfold match_of_js.
  destruct (get_field_total req "name" Hreq) as [h ->], (get_field_total req "user" Hreq) as [b ->],
    (get_field_total off "user" Hoff) as [o ->].
  eexists; reflexivity.
Qed.

(** A seek meets a list of offers without exception exactly when there is
    no offer, or the seek and every offer have a string [name]. *)
Lemma matches_for_js_ok offers req :
  req <> JNull -> Forall (fun v => v <> JNull) offers ->
  (is_ok (matches_for_js offers req) <->
   offers = [] \/ (has_string_name req = true /\ Forall (fun v => has_string_name v = true) offers)).
Proof.
  intros Hreq Hoffers. unfold matches_for_js. rewrite is_ok_bind. split.
  - intros (fs & Efs & _). assert (Hok : is_ok (filter_r (same_name_js req) offers)) by (eexists; exact Efs).
    rewrite filter_r_ok in Hok. destruct offers as [|o os]; [now left|]. right.
    inversion Hok as [|? ? Ho _]; subst. inversion Hoffers; subst.
    split; [now apply same_name_js_ok in Ho|].
    apply Forall_forall. intros v Hv. rewrite Forall_forall in Hok, Hoffers.
    now apply (same_name_js_ok req v Hreq (Hoffers v Hv)), Hok.
  - intros Hc. assert (Hok : is_ok (filter_r (same_name_js req) offers)).
    { apply filter_r_ok, Forall_forall. intros v Hv. rewrite Forall_forall in Hoffers.
      apply same_name_js_ok; auto. destruct Hc as [->|[Hr Ho]]; [destruct Hv|].
      rewrite Forall_forall in Ho. auto. }
    destruct Hok as [fs Efs]. exists fs. split; [exact Efs|]. apply map_r_ok, Forall_forall.
    intros v Hv. apply match_of_js_ok; [exact Hreq|]. rewrite Forall_forall in Hoffers.
    apply Hoffers. exact (filter_r_In _ _ _ _ Efs Hv).
Qed.

Lemma filtered_not_null k l v : In v (filter (type_is k) l) -> v <> JNull.
Proof. intros Hv ->. apply filter_In in Hv as [_ Hv]. discriminate. Qed.

Lemma type_is_js_err k v e : type_is_js k v = Err e -> e = TypeError.
Proof.
  unfold type_is_js. destruct (get_field v "type") eqn:E; [discriminate|].
  intros H; injection H as <-. exact (proj2 (get_field_err _ _ _ E)).
Qed.

Lemma get_field_only v p : only_err TypeError (get_field v p).
Proof. intros e E. exact (proj2 (get_field_err _ _ _ E)). Qed.

Lemma to_lower_case_js_only v : only_err TypeError (to_lower_case_js v).
Proof. destruct v as [[]|]; intros e E; simpl in E; congruence. Qed.

(** Everything the component body runs throws only TypeErrors. *)
Lemma component_body_only ft l : only_err TypeError (component_body ft l).
Proof.
  unfold component_body, filteredSkills_js, getMatches_js.
  repeat first
    [ apply only_err_ok | apply get_field_only | apply to_lower_case_js_only
    | apply only_err_bind | apply only_err_filter_r | apply only_err_map_r | apply only_err_flat_map_r
    | progress intros
    | match goal with |- only_err _ (if ?b then _ else _) => destruct b end
    | progress unfold filter_pred_js, type_is_js, same_name_js, match_of_js, matches_for_js,
        render_card_js ].
Qed.

(** When [getMatches] throws, so does the render, with a TypeError. *)
Lemma render_js_type_error ft l : ~ is_ok (getMatches_js l) -> render_js ft l = Err TypeError.
Proof.
  intros Hm. unfold render_js. destruct (component_body ft l) as [[cs ms]|e] eqn:Eb.
  - exfalso. apply Hm. unfold component_body in Eb.
    destruct (filteredSkills_js ft l) as [fs|]; [|discriminate].
    destruct (map_r render_card_js fs); [|discriminate].
    destruct (getMatches_js l); [eexists; reflexivity|discriminate].
  - now rewrite (component_body_only ft l e Eb).
Qed.

(** A [null] entry makes [getMatches] throw, at [s.type]. *)
Lemma getMatches_js_null l : In JNull l -> getMatches_js l = Err TypeError.
Proof.
  intros Hn. unfold getMatches_js.
  destruct (filter_r (type_is_js kind_ofrece) l) as [o|e] eqn:Eo.
  - exfalso. apply (proj1 (filter_type_ok kind_ofrece l)); [eexists; exact Eo | exact Hn].
  - apply filter_r_err in Eo as (x & _ & Ex). now rewrite (type_is_js_err _ _ _ Ex).
Qed.

(** When [getMatches] returns. *)
Lemma getMatches_js_ok (l : list json) :
  is_ok (getMatches_js l) <->
  ~ In JNull l /\
  (filter (type_is kind_ofrece) l = [] \/ filter (type_is kind_busca) l = [] \/
   Forall (fun v => has_string_name v = true)
          (filter (type_is kind_ofrece) l ++ filter (type_is kind_busca) l)).
Proof.
  unfold getMatches_js.
  destruct (filter_r (type_is_js kind_ofrece) l) as [o|e] eqn:Eo.
  2: { split; [intros [? H]; discriminate|]. intros [Hn _].
       apply (filter_type_ok kind_ofrece) in Hn as [? H]. congruence. }
  assert (Hn : ~ In JNull l) by (apply (filter_type_ok kind_ofrece); eexists; exact Eo).
  assert (Hnn : forall k v, In v l -> type_is_js k v = Ok (type_is k v))
    by (intros k v Hv; apply type_is_js_total; intros ->; contradiction).
  rewrite (filter_r_pure _ (type_is kind_ofrece) l (Hnn _)) in Eo. injection Eo as <-.
  rewrite (filter_r_pure _ (type_is kind_busca) l (Hnn _)). cbn beta iota.
  assert (HO : Forall (fun v => v <> JNull) (filter (type_is kind_ofrece) l))
    by (apply Forall_forall; intros v; apply filtered_not_null).
  rewrite flat_map_r_ok, <- Forall_pairs_iff, !Forall_forall.
  split; [intros H; split; [exact Hn|] | intros [_ H]]; intros req Hreq; specialize (H req Hreq);
    [exact (proj1 (matches_for_js_ok _ req (filtered_not_null _ _ _ Hreq) HO) H)
    |exact (proj2 (matches_for_js_ok _ req (filtered_not_null _ _ _ Hreq) HO) H)].
Qed.

(** The text of that page is the typed page's. *)
Lemma render_js_view ft l ss d :
  Forall2 shaped l ss ->
  exists p, render_js ft l = Ok p /\
    map card_view (fst p) = cards (render (mk_state ss d ft)) /\
    matches_view (snd p) = matches (render (mk_state ss d ft)).
Proof.
  intros Hl. rewrite (render_js_shaped ft l ss Hl). eexists. split; [reflexivity|].
  unfold render; cbn [cards matches fst snd skills filterType]. split.
  - rewrite map_map. apply map_ext. apply card_view_page_of.
  - destruct (getMatches ss) as [|c ms]; [reflexivity|]. cbn [matches_view]. f_equal.
    rewrite map_map. apply map_ext. apply nodes_text_sentence.
Qed.

(** ** Properties *)

(** C17: Refinement of the typed page: on a snapshot whose entries are
    shaped as skills (string [name], [user] and [type], any other members,
    in any order), the JavaScript render does not throw, and its cards and
    matches section, read as text, are those of [View.render] on the
    entries as skills. *)
Theorem render_js_refines_view (ft : string) (l : list json) (ss : list skill) (d : skill) :
  Forall2 shaped l ss ->
  exists p, render_js ft l = Ok p /\
    map card_view (fst p) = cards (render (mk_state ss d ft)) /\
    matches_view (snd p) = matches (render (mk_state ss d ft)).
Proof. apply render_js_view. Qed.

(** C26: Exactly when [getMatches] throws: it returns without exception
    if and only if no entry is [null] and either there is no offer, or no
    seek, or every offer and every seek has a string [name].  An offer or
    a seek without a string name (possible only from a snapshot) thus
    crashes the page as soon as the other kind is present; the spec calls
    the matcher total. *)
Theorem getMatches_js_ok_iff (l : list json) :
  is_ok (getMatches_js l) <->
  ~ In JNull l /\
  (filter (type_is kind_ofrece) l = [] \/ filter (type_is kind_busca) l = [] \/
   Forall (fun v => has_string_name v = true)
          (filter (type_is kind_ofrece) l ++ filter (type_is kind_busca) l)).
Proof. apply getMatches_js_ok. Qed.

(** C27: A [null] entry in the stored array crashes the page with a
    TypeError, whatever the filter: the spec reads malformed data as an
    empty list. *)
Theorem null_entry_crashes (ft : string) (l : list json) :
  In JNull l -> render_js ft l = Err TypeError.
Proof.
  intros Hn. apply render_js_type_error. rewrite (getMatches_js_null l Hn). intros [? H]; discriminate.
Qed.

Section MountProperties.
Context {M : Type} `{KVStoreLaws M}.

Lemma loaded_page_running (m : M) (w : world) :
  mount m = Running w ->
  exists cs ms, loaded_page m = PageShown cs ms /\
    map card_view cs = cards (render (app w)) /\ matches_view ms = matches (render (app w)).
Proof.
  intros Hm.
  assert (Hshow : forall js ss d, Forall2 shaped js ss ->
    exists cs ms, of_render (render_js filter_todos js) = PageShown cs ms /\
      map card_view cs = cards (render (mk_state ss d filter_todos)) /\
      matches_view ms = matches (render (mk_state ss d filter_todos))).
  { intros js ss d Hjs. destruct (render_js_view filter_todos js ss d Hjs) as ([cs ms] & E & Hc & Hms).
    exists cs, ms. unfold of_render. now rewrite E. }
  unfold mount, load_effect in Hm. unfold loaded_page.
  destruct (getItem m skills_key) as [text|].
  2: { injection Hm as <-. exact (Hshow [] [] initial_new_skill (Forall2_nil _)). }
  destruct (js_truthy text).
  2: { injection Hm as <-. exact (Hshow [] [] initial_new_skill (Forall2_nil _)). }
  unfold parse_skills in Hm. destruct (JSON_parse text) as [v|e]; [|destruct e; discriminate].
  unfold skills_of_json in Hm. destruct v; try discriminate.
  destruct (skills_of_list l) as [ss|] eqn:El; [|discriminate].
  injection Hm as <-. exact (Hshow l ss initial_new_skill (skills_of_list_shaped _ _ El)).
Qed.


Lemma loaded_page_crashed (m m' : M) (e : load_error) :
  mount m = Crashed e m' ->
  loaded_page m = PageCrashed (match e with
                               | ParseFailed _ => LoadFailed
                               | _ => RenderFailed TypeError
                               end).
Proof.
  unfold mount, load_effect, loaded_page. intros Hm.
  destruct (getItem m skills_key) as [text|]; [|discriminate].
  destruct (js_truthy text); [|discriminate].
  unfold parse_skills in Hm. destruct (JSON_parse text) as [v|je].
  - unfold skills_of_json in Hm. destruct v; cbn in Hm; try (injection Hm as <- _; reflexivity).
    destruct (skills_of_list l); cbn in Hm; discriminate.
  - destruct je; cbn in Hm; try discriminate. now injection Hm as <- _.
Qed.

(** C18: The page the user sees after a mount is the one the typed model
    gives: whenever [App.mount] gives a running page, the JavaScript render
    of the loaded array shows, read as text, the cards and matches of
    [View.render] of that page; when [App.mount] crashes, the page crashes
    too, in the load effect for a snapshot that is not JSON and with a
    TypeError in the render for one that is not an array. *)
Theorem loaded_page_refines_mount (m : M) :
  (forall w, mount m = Running w ->
   exists cs ms, loaded_page m = PageShown cs ms /\
     map card_view cs = cards (render (app w)) /\ matches_view ms = matches (render (app w))) /\
  (forall e m', mount m = Crashed (ParseFailed e) m' -> loaded_page m = PageCrashed LoadFailed) /\
  (forall m', mount m = Crashed NotAnArray m' -> loaded_page m = PageCrashed (RenderFailed TypeError)).
Proof.
  split; [exact (loaded_page_running m)|].
  split; intros; now rewrite (loaded_page_crashed m m' _ H1).
Qed.

End MountProperties.

(** ** Witnesses *)

Local Open Scope string_scope.

(** C17 witness: an offer with its members in another order and an extra
    member [id], and a seek. *)
Lemma render_js_refines_view_witness :
  let l := [JObject [("type", JString "ofrece"); ("name", JString "Yoga"); ("user", JString "Ana");
                     ("id", JNumber (mk_number false 1%N 0%Z))];
            JObject [("name", JString "yoga"); ("user", JString "Luis"); ("type", JString "busca")]] in
  let ss := [mk_skill "Yoga" "Ana" kind_ofrece; mk_skill "yoga" "Luis" kind_busca] in
  Forall2 shaped l ss /\
  exists p, render_js filter_todos l = Ok p /\
    map card_view (fst p) = cards (render (mk_state ss initial_new_skill filter_todos)) /\
    matches_view (snd p) = matches (render (mk_state ss initial_new_skill filter_todos)).
Proof.
  intros l ss. assert (H : Forall2 shaped l ss) by (repeat constructor).
  split; [exact H | exact (render_js_refines_view filter_todos l ss initial_new_skill H)].
Defined.

(** C27 witness: a [null] between two entries. *)
Lemma null_entry_crashes_witness :
  In JNull [JObject [("name", JString "Yoga")]; JNull] /\
  render_js filter_todos [JObject [("name", JString "Yoga")]; JNull] = Err TypeError.
Proof.
  assert (H : In JNull [JObject [("name", JString "Yoga")]; JNull]) by (right; left; reflexivity).
  split; [exact H | exact (null_entry_crashes _ _ H)].
Defined.

(** C18 witness: a store holding the snapshot of one offer. *)
Lemma loaded_page_refines_mount_witness :
  let m := storage_with "skills" (stringify_skills [mk_skill "Yoga" "Ana" kind_ofrece]) in
  exists w, mount m = Running w /\
  exists cs ms, loaded_page m = PageShown cs ms /\
    map card_view cs = cards (render (app w)) /\ matches_view ms = matches (render (app w)).
Proof.
  intros m. assert (E : exists w, mount m = Running w) by (eexists; reflexivity).
  destruct E as [w E]. exists w. split; [exact E | exact (proj1 (loaded_page_refines_mount m) w E)].
Defined.

End JsEntries.
