(* ===== verification/JsPage.v ===== *)
(** * JsPage: the component with the entries [JSON.parse] returns

    [App] keeps the [skills] state as typed entries, which is what the
    form produces and what a snapshot of typed entries reads back as.  The
    component itself keeps whatever array the load effect passed to
    [setSkills]: entries with extra members, other key orders, numbers,
    [null].  This file models the component on that state: the handlers of
    [App] (the draft and the filter are the same), [handleAddSkill]
    appending the draft object (lines 25-30), the render of [JsEntries]
    after each event, which may throw, and the save effect, which runs
    only when the render has returned (the commit).

    The theorems: [App] is the restriction of this page to typed entries
    (a simulation: mount and every event commute with the embedding of
    typed entries as objects); a page whose entries are well formed
    (numbers of the domain of [JsonNumber] but minus zero included) keeps,
    through every event, a snapshot that reads back as its entries, extra
    members included; a stored [null] entry crashes the
    mount and leaves ['[]'] in the store; and a seek added next to a
    stored offer without a string name crashes the page and is not
    saved. *)

From Stdlib Require Import String List Bool NArith ZArith Lia.
From S2P Require Import Prelude Skill FilterView MatchEngine JsonObject JsonNumber Json SkillCodec Storage App View JsEntries.
Import ListNotations Json SkillCodec App JsEntries.
Open Scope trueka_scope.

Module JsPage.

(** The three [useState] hooks, [skills] holding any JSON values. *)
Record js_state := mk_js_state { entries : list json; draft : skill; js_filter : string }.

Definition initial_js_state : js_state := mk_js_state [] initial_new_skill filter_todos.

(** [setSkills([...skills, newSkill])]: the new element is the draft
    object, whose members are [name], [user], [type] in this order (the
    literal of line 13, kept by the spreads of lines 71, 80, 88). *)
Definition handleAddSkill_js (st : js_state) : js_state * bool :=
  if skill_submittable (draft st) then
    (mk_js_state (entries st ++ [skill_to_json (draft st)]) initial_new_skill (js_filter st), true)
  else (st, false).

Definition handle_js (ev : event) (st : js_state) : js_state * bool :=
  match ev with
  | EditName v => (mk_js_state (entries st) (with_name (draft st) v) (js_filter st), false)
  | EditUser v => (mk_js_state (entries st) (with_user (draft st) v) (js_filter st), false)
  | EditType v => (mk_js_state (entries st) (with_type (draft st) v) (js_filter st), false)
  | SetFilter v => (mk_js_state (entries st) (draft st) v, false)
  | ClickAdd => handleAddSkill_js st
  end.

Section WithStore.
Context {M : Type} `{KVStoreLaws M}.

Record js_world := mk_js_world { js_app : js_state; js_storage : M }.

(** [localStorage.setItem('skills', JSON.stringify(skills))] *)
Definition persist_js (l : list json) (m : M) : M :=
  setItem m skills_key (json_stringify (JArray l)).

Inductive js_outcome :=
| JsRunning (w : js_world)
| JsCrashed (e : page_error) (m : M)   (** the page is unmounted; [m] is the store left *)
| JsUnmodelled (e : json_error).

(** The mount: the first commit runs the load effect ([setSkills(v)]) and
    the save effect with [[]]; then [v] is rendered, and only if that
    render returns is it committed and saved. *)
Definition mount_js (m : M) : js_outcome :=
  match getItem m skills_key with
  | Some text =>
      if js_truthy text then
        match JSON_parse text with
        | Ok (JArray l) =>
            match render_js filter_todos l with
            | Ok _ => JsRunning (mk_js_world (mk_js_state l initial_new_skill filter_todos)
                                            (persist_js l (persist_js [] m)))
            | Err e => JsCrashed (RenderFailed e) (persist_js [] m)
            end
        | Ok _ => JsCrashed (RenderFailed TypeError) (persist_js [] m)
        | Err SyntaxError => JsCrashed LoadFailed m
        | Err e => JsUnmodelled e
        end
      else JsRunning (mk_js_world initial_js_state (persist_js [] m))
  | None => JsRunning (mk_js_world initial_js_state (persist_js [] m))
  end.

(** An event, the render of the new state, and the commit with its save
    effect when the render returns. *)
Definition dispatch_js (ev : event) (w : js_world) : js_outcome :=
  let '(st', changed) := handle_js ev (js_app w) in
  match render_js (js_filter st') (entries st') with
  | Err e => JsCrashed (RenderFailed e) (js_storage w)
  | Ok _ => JsRunning (mk_js_world st' (if changed then persist_js (entries st') (js_storage w)
                                        else js_storage w))
  end.

(** The pages a user can reach. *)
Inductive js_reachable : js_world -> Prop :=
| js_reach_mount m w : mount_js m = JsRunning w -> js_reachable w
| js_reach_step w ev w' :
    js_reachable w -> ui_event_ok ev = true -> dispatch_js ev w = JsRunning w' -> js_reachable w'.

(** Typed pages as pages of JSON entries. *)
Definition embed_state (st : app_state) : js_state :=
  mk_js_state (map skill_to_json (skills st)) (newSkill st) (filterType st).

Definition embed_world (w : world) : js_world := mk_js_world (embed_state (app w)) (storage w).

End WithStore.

(** ** Helper lemmas *)

Lemma shaped_embed l : Forall2 shaped (map skill_to_json l) l.
Proof. induction l as [|[n u t] l IH]; constructor; [reflexivity | exact IH]. Qed.

Lemma render_js_embed ft l : exists p, render_js ft (map skill_to_json l) = Ok p.
Proof. rewrite (render_js_shaped ft _ l (shaped_embed l)). eexists; reflexivity. Qed.

Lemma handle_embed ev st :
  handle_js ev (embed_state st) = (embed_state (fst (handle ev st)), snd (handle ev st)).
Proof.
  destruct ev; try reflexivity. unfold handle_js, handle, handleAddSkill_js, handleAddSkill.
  cbn [embed_state draft entries js_filter]. destruct (skill_submittable (newSkill st)); cbn [fst snd embed_state skills newSkill filterType]; [|reflexivity]. unfold embed_state; cbn [skills newSkill filterType]. now rewrite map_app.
Qed.

Lemma handle_js_unchanged ev st st' : handle_js ev st = (st', false) -> entries st' = entries st.
Proof.
  destruct ev; simpl; intros E; try (injection E as <-; reflexivity).
  unfold handleAddSkill_js in E. destruct (skill_submittable (draft st)); congruence.
Qed.

Lemma skill_of_json_embed v s : skill_of_json v = Some s -> v = skill_to_json s.
Proof.
  unfold skill_of_json. intros H.
  repeat match goal with
  | H : match ?x with _ => _ end = Some _ |- _ => destruct x eqn:?; try discriminate H
  | H : (if ?b then _ else _) = Some _ |- _ => destruct b eqn:?; try discriminate H
  end.
  injection H as <-. bool_to_prop. subst. reflexivity.
Qed.

Lemma skills_of_list_embed l ss : skills_of_list l = Some ss -> l = map skill_to_json ss.
Proof.
  revert ss. induction l as [|v l IH]; simpl; intros ss H; [now injection H as <-|].
  destruct (skill_of_json v) eqn:Ev; [|discriminate]. destruct (skills_of_list l) eqn:El; [|discriminate].
  injection H as <-. simpl. rewrite (skill_of_json_embed _ _ Ev), (IH _ eq_refl). reflexivity.
Qed.

Section Embedding.
Context {M : Type} `{KVStoreLaws M}.

Lemma dispatch_embed ev (w : @world M) :
  dispatch_js ev (embed_world w) = JsRunning (embed_world (dispatch ev w)).
Proof.
  unfold dispatch_js, dispatch, embed_world. simpl. rewrite handle_embed.
  destruct (handle ev (app w)) as [st' ch]; simpl.
  destruct (render_js_embed (filterType st') (skills st')) as [p ->]. reflexivity.
Qed.

Lemma mount_embed (m : M) w : mount m = Running w -> mount_js m = JsRunning (embed_world w).
Proof.
  unfold mount, load_effect, mount_js. intros Hm.
  destruct (getItem m skills_key) as [text|]; [|now injection Hm as <-].
  destruct (js_truthy text); [|now injection Hm as <-].
  unfold parse_skills in Hm. destruct (JSON_parse text) as [v|je]; [|destruct je; discriminate].
  unfold skills_of_json in Hm. destruct v; try discriminate.
  destruct (skills_of_list l) as [ss|] eqn:El; [|discriminate]. injection Hm as <-.
  rewrite (skills_of_list_embed _ _ El). destruct (render_js_embed filter_todos ss) as [p ->]. reflexivity.
Qed.

Lemma mount_crash_embed (m m' : M) e : mount m = Crashed e m' -> exists pe, mount_js m = JsCrashed pe m'.
Proof.
  unfold mount, load_effect, mount_js. intros Hm.
  destruct (getItem m skills_key) as [text|]; [|discriminate].
  destruct (js_truthy text); [|discriminate].
  unfold parse_skills in Hm. destruct (JSON_parse text) as [v|je].
  - unfold skills_of_json in Hm. destruct v; cbn in Hm; try (injection Hm as _ <-; eexists; reflexivity).
    destruct (skills_of_list l); discriminate.
  - destruct je; cbn in Hm; try discriminate. injection Hm as _ <-. eexists; reflexivity.
Qed.

(** The store of every reachable page holds the text of its entries. *)
Lemma js_reachable_mirror (w : js_world) :
  js_reachable w -> getItem (js_storage w) skills_key = Some (json_stringify (JArray (entries (js_app w)))).
Proof.
  induction 1 as [m w Hm | w ev w' _ IH _ Hd].
  - unfold mount_js in Hm.
    destruct (getItem m skills_key) as [text|]; [destruct (js_truthy text)|];
      [destruct (JSON_parse text) as [[| | | | l |]|[]]; try discriminate;
       destruct (render_js filter_todos l); try discriminate| |];
      injection Hm as <-; apply getItem_setItem_eq.
  - unfold dispatch_js in Hd. destruct (handle_js ev (js_app w)) as [st' []] eqn:E;
      destruct (render_js (js_filter st') (entries st')); try discriminate; injection Hd as <-; simpl.
    + apply getItem_setItem_eq.
    + now rewrite (handle_js_unchanged _ _ _ E).
Qed.

End Embedding.

(** ** Properties *)

Section Properties.
Context {M : Type} `{KVStoreLaws M}.

(** C19: [App] is the restriction of the page to typed entries: every mount
    that runs in [App] runs here with the entries embedded as objects
    [{ name, user, type }]; every mount that crashes in [App] crashes here
    and leaves the same store; and every event on an embedded page gives
    the embedding of [App]'s next page (the render never throws on typed
    entries). *)
Theorem app_refines_js_page (m : M) :
  (forall w, mount m = Running w -> mount_js m = JsRunning (embed_world w)) /\
  (forall e m', mount m = Crashed e m' -> exists pe, mount_js m = JsCrashed pe m') /\
  (forall ev (w : world), dispatch_js ev (embed_world w) = JsRunning (embed_world (dispatch ev w))).
Proof.
  split; [apply mount_embed|]. split; [intros e m'; apply mount_crash_embed|]. intros. apply dispatch_embed.
Qed.

(** C20: Data the component does not read survives: on every page reached
    from any snapshot, whose entries are well formed (numbers other than
    minus zero, objects with distinct keys in enumeration order), the
    store holds a text that reads back as exactly the page's entries,
    extra members, numbers and key order included. *)
Theorem js_snapshot_in_sync (w : js_world) :
  js_reachable w -> forallb json_wf (entries (js_app w)) = true ->
  exists text, getItem (js_storage w) skills_key = Some text /\
               JSON_parse text = Ok (JArray (entries (js_app w))).
Proof.
  intros Hw Hwf. eexists. split; [exact (js_reachable_mirror w Hw)|].
  now apply JSON_parse_roundtrip.
Qed.

(** C28: A [null] entry in the stored array crashes the mount, and the save
    effect of the first commit has already replaced the snapshot with
    ['[]']: the stored entries are lost. *)
Theorem null_entry_erases_snapshot (m : M) (text : string) (l : list json) :
  getItem m skills_key = Some text -> JSON_parse text = Ok (JArray l) -> In JNull l ->
  mount_js m = JsCrashed (RenderFailed TypeError) (persist_js [] m) /\
  getItem (persist_js [] m) skills_key = Some "[]"%string.
Proof.
  intros Hm Hp Hn. split; [|apply getItem_setItem_eq].
  assert (Ht : js_truthy text = true) by (destruct text; [discriminate Hp|reflexivity]).
  unfold mount_js. rewrite Hm, Ht, Hp, render_js_type_error; [reflexivity|].
  rewrite (getMatches_js_null l Hn). intros [? E]; discriminate.
Qed.

(** C29: A seek entered next to a stored offer whose [name] is not a string
    crashes the page: [getMatches] calls [toLowerCase] on that name, the
    render throws, and the save effect never runs, so the new entry is
    lost with the page. *)
Theorem nameless_offer_loses_seek (w : js_world) (off : json) :
  In off (entries (js_app w)) -> type_is kind_ofrece off = true -> has_string_name off = false ->
  ~ In JNull (entries (js_app w)) ->
  skill_submittable (draft (js_app w)) = true -> type (draft (js_app w)) = kind_busca ->
  dispatch_js ClickAdd w = JsCrashed (RenderFailed TypeError) (js_storage w).
Proof.
  intros Hoff Ho Hname Hn Hs Hb. unfold dispatch_js. simpl. unfold handleAddSkill_js. rewrite Hs. simpl.
  rewrite render_js_type_error; [reflexivity|]. rewrite getMatches_js_ok.
  set (l := entries (js_app w) ++ [skill_to_json (draft (js_app w))]).
  assert (Hol : In off (filter (type_is kind_ofrece) l))
    by (apply filter_In; split; [apply in_or_app; now left | exact Ho]).
  assert (Hrl : In (skill_to_json (draft (js_app w))) (filter (type_is kind_busca) l)).
  { apply filter_In. split; [apply in_or_app; right; now left|].
    unfold type_is; simpl. now rewrite Hb. }
  intros [_ [E|[E|HF]]]; [rewrite E in Hol; destruct Hol | rewrite E in Hrl; destruct Hrl |].
  rewrite Forall_forall in HF. rewrite (HF off (in_or_app _ _ _ (or_introl Hol))) in Hname. discriminate.
Qed.

End Properties.

(** ** Witnesses *)

Local Open Scope string_scope.

(** A stored offer with members [id] and [price] the component does not
    know, holding the numbers [7] and [12.5]. *)
Definition offer_with_id : json :=
  JObject [("name", JString "Yoga"); ("user", JString "Ana"); ("type", JString "ofrece");
           ("id", JNumber (JsonNumber.mk_number false 7 0)); ("price", JNumber (JsonNumber.mk_number false 125 (-1)))].

(** C20 witness: the page loaded from a snapshot holding [offer_with_id],
    then "Tejer" offered by "Luis" through the form. *)
Lemma js_snapshot_in_sync_witness :
  let m := storage_with "skills" (json_stringify (JArray [offer_with_id])) in
  exists w, js_reachable w /\ forallb json_wf (entries (js_app w)) = true /\
    exists text, getItem (js_storage w) skills_key = Some text /\
                 JSON_parse text = Ok (JArray (entries (js_app w))).
Proof.
  intros m.
  assert (R : exists w, js_reachable w /\ forallb json_wf (entries (js_app w)) = true).
  { eexists. split.
    - eapply (js_reach_step _ ClickAdd).
      + eapply (js_reach_step _ (EditUser "Luis")).
        * eapply (js_reach_step _ (EditName "Tejer")).
          -- apply (js_reach_mount m). reflexivity.
          -- reflexivity.
          -- reflexivity.
        * reflexivity.
        * reflexivity.
      + reflexivity.
      + reflexivity.
    - reflexivity. }
  destruct R as (w & R & Hwf). exists w. split; [exact R|]. split; [exact Hwf|].
  exact (js_snapshot_in_sync w R Hwf).
Defined.

(** C28 witness: the snapshot [[null]]. *)
Lemma null_entry_erases_snapshot_witness :
  let m := storage_with "skills" (json_stringify (JArray [JNull])) in
  getItem m skills_key = Some (json_stringify (JArray [JNull])) /\
  JSON_parse (json_stringify (JArray [JNull])) = Ok (JArray [JNull]) /\ In JNull [JNull] /\
  mount_js m = JsCrashed (RenderFailed TypeError) (persist_js [] m) /\
  getItem (persist_js [] m) skills_key = Some "[]".
Proof.
  intros m. assert (Hm : getItem m skills_key = Some (json_stringify (JArray [JNull]))) by reflexivity.
  assert (Hp : JSON_parse (json_stringify (JArray [JNull])) = Ok (JArray [JNull])) by reflexivity.
  assert (Hn : In JNull [JNull]) by (left; reflexivity).
  split; [exact Hm | split; [exact Hp | split; [exact Hn |]]].
  exact (null_entry_erases_snapshot m _ _ Hm Hp Hn).
Defined.

(** C29 witness: a stored offer without a name, and a seek of "Yoga" by
    "Luis" in the form. *)
Lemma nameless_offer_loses_seek_witness :
  let off := JObject [("type", JString "ofrece"); ("user", JString "Ana")] in
  let w := mk_js_world (mk_js_state [off] (mk_skill "Yoga" "Luis" kind_busca) filter_todos)
                       (persist_js [off] empty_storage) in
  In off (entries (js_app w)) /\ type_is kind_ofrece off = true /\ has_string_name off = false /\
  ~ In JNull (entries (js_app w)) /\
  skill_submittable (draft (js_app w)) = true /\ type (draft (js_app w)) = kind_busca /\
  dispatch_js ClickAdd w = JsCrashed (RenderFailed TypeError) (js_storage w).
Proof.
  intros off w.
  assert (H1 : In off (entries (js_app w))) by (left; reflexivity).
  assert (H4 : ~ In JNull (entries (js_app w))) by (intros [E|[]]; discriminate E).
  split; [exact H1 | split; [reflexivity | split; [reflexivity | split; [exact H4 |
    split; [reflexivity | split; [reflexivity |]]]]]].
  exact (nameless_offer_loses_seek w off H1 eq_refl eq_refl H4 eq_refl eq_refl).
Defined.

End JsPage.
